(** * OPC UA <-> MQTT bridge: a shallow embedding of the bridge script

    The development follows [OPC-UA (BiDirectional - With MQTT).py]:
    the value codec ([to_bool], [variant_for], [parse_incoming_payload]),
    the topic tables built by [OPCUAMQTTBridge.__init__], the MQTT message
    handler, the OPC UA change handler, the start/stop life cycle and the
    connection callbacks of the broker client.  The conversion and the
    command loop of [OPC-UA (BiDirectional - Without MQTT).py] are
    embedded in the module [Standalone].

    Conventions.
    - Python text is a Rocq [string], one [ascii] per code point, so the
      model covers the code points below 256.
    - A Python exception is a value of [exn]; a computation that may raise
      returns a [result].
    - Calls into the OPC UA and MQTT client libraries are recorded in a log
      and answered by an environment ([Env]); their outcome is arbitrary. *)

From Stdlib Require Import ZArith Ascii.
From stdpp Require Import gmap strings list fin_maps pretty.

Set Warnings "-register-all,-clear-no-such-hyp".
Local Open Scope Z_scope.

(** ** Exceptions and results *)

Inductive exn : Type :=
  | ValueError (msg : string)
  | TypeError (msg : string)
  | KeyError (key : string)
  | LibError (msg : string).

Inductive result (A : Type) : Type :=
  | Ok (a : A)
  | Raise (e : exn).
Arguments Ok {A} a.
Arguments Raise {A} e.

Definition is_ok {A} (r : result A) : bool :=
  match r with Ok _ => true | Raise _ => false end.

(** ** Text: [str.strip], [str.lower] *)

Module Text.

(** [str.isspace] on the code points below 256. *)
Definition is_space (c : ascii) : bool :=
  match c with
  | "009" | "010" | "011" | "012" | "013"
  | "028" | "029" | "030" | "031"
  | " " | "133" | "160" => true
  | _ => false
  end%char.

Fixpoint lstrip (s : string) : string :=
  match s with
  | String c s' => if is_space c then lstrip s' else s
  | EmptyString => EmptyString
  end.

Fixpoint rstrip (s : string) : string :=
  match s with
  | String c s' =>
      match rstrip s' with
      | EmptyString => if is_space c then EmptyString else String c EmptyString
      | r => String c r
      end
  | EmptyString => EmptyString
  end.

Definition strip (s : string) : string := rstrip (lstrip s).

(** [str.lower] on one code point: A-Z, and the upper-case letters of the
    Latin-1 block (0xC0-0xDE without the multiplication sign 0xD7). *)
Definition lower_char (c : ascii) : ascii :=
  let n := N_of_ascii c in
  if ((65 <=? n) && (n <=? 90)
      || (192 <=? n) && (n <=? 222) && negb (n =? 215))%N
  then ascii_of_N (n + 32) else c.

Fixpoint lower (s : string) : string :=
  match s with
  | String c s' => String (lower_char c) (lower s')
  | EmptyString => EmptyString
  end.

End Text.
Import Text.

(** ** Python values *)

(** An object the codec only observes through [str], [repr], truth value,
    [int(...)] and [json.dumps] (a float, a datetime, ...). *)
Record PyObject : Type := {
  obj_str : string;
  obj_repr : string;
  obj_bool : bool;
  obj_int : result Z;
  obj_json : result string;
}.

Inductive pyval : Type :=
  | PNone
  | PBool (b : bool)
  | PInt (z : Z)
  | PStr (s : string)
  | PList (items : list pyval)
  | PDict (items : list (string * pyval))
  | PObj (o : PyObject).

(** The characters the codec names; written by code point. *)
Definition dquote : ascii := "034"%char.
Definition squote : ascii := "039"%char.
Definition backslash : ascii := "092"%char.

Fixpoint char_in (c : ascii) (s : string) : bool :=
  match s with
  | String c' s' => bool_decide (c = c') || char_in c s'
  | EmptyString => false
  end.

Fixpoint join (sep : string) (l : list string) : string :=
  match l with
  | [] => ""
  | [x] => x
  | x :: l' => x +:+ sep +:+ join sep l'
  end.

Definition hex_digit (n : N) : ascii :=
  (if n <? 10 then ascii_of_N (48 + n) else ascii_of_N (87 + n))%N.

(** Two lower-case hexadecimal digits of a code point below 256. *)
Definition hex2 (c : ascii) : string :=
  let n := N_of_ascii c in
  String (hex_digit (n / 16)) (String (hex_digit (n mod 16)) "").

(** [str.isprintable] on the code points below 256. *)
Definition is_printable (c : ascii) : bool :=
  let n := N_of_ascii c in
  ((32 <=? n) && (n <=? 126) || (161 <=? n) && negb (n =? 173))%N.

(** [repr] of a [str]. *)
Definition repr_char (quote c : ascii) : string :=
  if bool_decide (c = quote) || bool_decide (c = backslash)
  then String backslash (String c "")
  else if bool_decide (c = "009"%char) then String backslash "t"
  else if bool_decide (c = "010"%char) then String backslash "n"
  else if bool_decide (c = "013"%char) then String backslash "r"
  else if is_printable c then String c ""
  else String backslash ("x" +:+ hex2 c).

Fixpoint repr_chars (quote : ascii) (s : string) : string :=
  match s with
  | String c s' => repr_char quote c +:+ repr_chars quote s'
  | EmptyString => ""
  end.

Definition repr_str (s : string) : string :=
  let quote :=
    if char_in squote s && negb (char_in dquote s) then dquote else squote in
  String quote (repr_chars quote s +:+ String quote "").

(** [repr(v)] and [str(v)]; [str(int)] is decimal text, stdpp's [pretty]. *)
Fixpoint py_repr (v : pyval) : string :=
  match v with
  | PNone => "None"
  | PBool true => "True"
  | PBool false => "False"
  | PInt z => pretty z
  | PStr s => repr_str s
  | PList items => "[" +:+ join ", " (map py_repr items) +:+ "]"
  | PDict items =>
      "{" +:+ join ", "
                (map (fun kv => repr_str (fst kv) +:+ ": " +:+ py_repr (snd kv))
                     items) +:+ "}"
  | PObj o => obj_repr o
  end.

Definition py_str (v : pyval) : string :=
  match v with
  | PStr s => s
  | PObj o => obj_str o
  | _ => py_repr v
  end.

(** Truth value, [bool(v)]. *)
Definition py_bool (v : pyval) : bool :=
  match v with
  | PNone => false
  | PBool b => b
  | PInt z => negb (z =? 0)
  | PStr s => negb (bool_decide (s = ""))
  | PList items => negb (bool_decide (length items = 0%nat))
  | PDict items => negb (bool_decide (length items = 0%nat))
  | PObj o => obj_bool o
  end.

(** ** [int(text)]

    Base 10: surrounding whitespace is ignored, then an optional sign, then
    decimal digits in which single underscores may separate digits.  The
    interpreter's limit on the number of digits (4300 by default, above
    which [int] raises [ValueError]) is not modelled: the model is that of
    [int] on texts within the limit.  Below code point 256 the decimal
    digits are 0 to 9. *)

(** The whitespace that [int] ignores around the literal: that of
    [str.strip] without the separators 0x1C to 0x1F. *)
Definition int_space (c : ascii) : bool :=
  match c with
  | "009" | "010" | "011" | "012" | "013" | " " | "133" | "160" => true
  | _ => false
  end%char.

Fixpoint int_lstrip (s : string) : string :=
  match s with
  | String c s' => if int_space c then int_lstrip s' else s
  | EmptyString => EmptyString
  end.

Fixpoint int_rstrip (s : string) : string :=
  match s with
  | String c s' =>
      match int_rstrip s' with
      | EmptyString => if int_space c then EmptyString else String c EmptyString
      | r => String c r
      end
  | EmptyString => EmptyString
  end.

Definition int_strip (s : string) : string := int_rstrip (int_lstrip s).

Definition digit_value (c : ascii) : option Z :=
  let n := N_of_ascii c in
  if ((48 <=? n) && (n <=? 57))%N then Some (Z.of_N n - 48) else None.

(** [prev] tells whether the previous character was a digit. *)
Fixpoint int_digits (s : string) (acc : Z) (prev : bool) : option Z :=
  match s with
  | EmptyString => if prev then Some acc else None
  | String c s' =>
      match digit_value c with
      | Some d => int_digits s' (acc * 10 + d) true
      | None =>
          if bool_decide (c = "_"%char) && prev
          then int_digits s' acc false
          else None
      end
  end.

Definition int_literal (s : string) : option Z :=
  match s with
  | String c s' =>
      if bool_decide (c = "-"%char) then Z.opp <$> int_digits s' 0 false
      else if bool_decide (c = "+"%char) then int_digits s' 0 false
      else int_digits s 0 false
  | EmptyString => None
  end.

Definition int_of_str (s : string) : result Z :=
  match int_literal (int_strip s) with
  | Some z => Ok z
  | None =>
      Raise (ValueError ("invalid literal for int() with base 10: " +:+ repr_str s))
  end.

(** [int(v)]. *)
Definition py_int (v : pyval) : result Z :=
  match v with
  | PBool b => Ok (if b then 1 else 0)
  | PInt z => Ok z
  | PStr s => int_of_str s
  | PObj o => obj_int o
  | PNone | PList _ | PDict _ =>
      Raise (TypeError "int() argument must be a string, a bytes-like object or a real number")
  end.

(** ** The result monad *)

Global Instance result_ret : MRet result := fun _ a => Ok a.
Global Instance result_bind : MBind result := fun _ _ f r =>
  match r with Ok a => f a | Raise e => Raise e end.
Global Instance result_fmap : FMap result := fun _ _ f r =>
  match r with Ok a => Ok (f a) | Raise e => Raise e end.

(** All results, or the first exception. *)
Fixpoint collect {A} (l : list (result A)) : result (list A) :=
  match l with
  | [] => Ok []
  | r :: l' => a ← r; rest ← collect l'; Ok (a :: rest)
  end.

(** ** [json.dumps] with its default options *)

Definition json_char (c : ascii) : string :=
  let n := N_of_ascii c in
  if bool_decide (c = dquote) || bool_decide (c = backslash)
  then String backslash (String c "")
  else if (n =? 10)%N then String backslash "n"
  else if (n =? 13)%N then String backslash "r"
  else if (n =? 9)%N then String backslash "t"
  else if (n =? 8)%N then String backslash "b"
  else if (n =? 12)%N then String backslash "f"
  else if ((32 <=? n) && (n <=? 126))%N then String c ""
  else String backslash ("u00" +:+ hex2 c).

Fixpoint json_chars (s : string) : string :=
  match s with
  | String c s' => json_char c +:+ json_chars s'
  | EmptyString => ""
  end.

Definition json_string (s : string) : string :=
  String dquote (json_chars s +:+ String dquote "").

(** A text between double quotes, to spell JSON literals. *)
Definition quoted (s : string) : string :=
  String dquote (s +:+ String dquote "").

(** [json.dumps(v)] with its defaults ([ensure_ascii], separators [", "]
    and [": "]).  The interpreter's limit on the digits of an integer and
    its recursion limit are not modelled: the model is that of [json.dumps]
    on values whose integers have at most 4300 digits and whose nesting the
    interpreter can follow. *)
Fixpoint json_dumps (v : pyval) : result string :=
  match v with
  | PNone => Ok "null"
  | PBool true => Ok "true"
  | PBool false => Ok "false"
  | PInt z => Ok (pretty z)
  | PStr s => Ok (json_string s)
  | PList items =>
      parts ← collect (map json_dumps items);
      Ok ("[" +:+ join ", " parts +:+ "]")
  | PDict items =>
      parts ← collect (map (fun kv =>
                              t ← json_dumps (snd kv);
                              Ok (json_string (fst kv) +:+ ": " +:+ t)) items);
      Ok ("{" +:+ join ", " parts +:+ "}")
  | PObj o => obj_json o
  end.

(** ** Ordered dictionaries

    A Python [dict] whose iteration order the program relies on is an
    association list in insertion order with one entry per key. *)

Fixpoint dict_get {V} (d : list (string * V)) (k : string) : option V :=
  match d with
  | [] => None
  | (k', v) :: d' => if bool_decide (k = k') then Some v else dict_get d' k
  end.

(** [d[k] = v]: overwrite in place, or append. *)
Fixpoint dict_set {V} (d : list (string * V)) (k : string) (v : V)
  : list (string * V) :=
  match d with
  | [] => [(k, v)]
  | (k', v') :: d' =>
      if bool_decide (k = k') then (k, v) :: d' else (k', v') :: dict_set d' k v
  end.

Definition dict_keys {V} (d : list (string * V)) : list string := map fst d.

(** [d[k]], which raises [KeyError] on a missing key. *)
Definition dict_item {V} (d : list (string * V)) (k : string) : result V :=
  match dict_get d k with
  | Some v => Ok v
  | None => Raise (KeyError k)
  end.

(** ** The value codec *)

(** The second component of a [NODES_SPEC] entry. *)
Inductive py_type : Type := Tbool | Tint | Tstr.

(** The two library calls of the codec that are not modelled in detail:
    [bytes.decode("utf-8", errors="ignore")] and [json.loads]. *)
Class TextLib : Type := {
  decode_utf8_ignore : list Byte.byte -> string;
  json_loads : string -> result pyval;
}.

Definition to_bool (s : pyval) : result bool :=
  let s := lower (strip (py_str s)) in
  if bool_decide (s ∈ ["1"; "true"; "t"; "on"; "yes"; "y"]) then Ok true
  else if bool_decide (s ∈ ["0"; "false"; "f"; "off"; "no"; "n"]) then Ok false
  else Raise (ValueError ("Cannot parse boolean from '" +:+ s +:+ "'")).

Inductive VariantType : Type := VtBoolean | VtInt32.

Record Variant : Type := {
  variant_value : pyval;
  variant_type : option VariantType;
}.

(** [ua.Variant(value)] without a type guesses one from the value: of a
    list it looks at the first element, again and again, and it raises
    [UaError] when it reaches an empty list; any other value gets a type.
    (A [PObj] stands for a value that is neither a list nor a tuple.) *)
Fixpoint guessable (v : pyval) : bool :=
  match v with
  | PList [] => false
  | PList (x :: _) => guessable x
  | _ => true
  end.

(** The [UaError] of the guess, as a library error. *)
Definition cannot_guess (value : pyval) : exn :=
  LibError ("could not guess UA type of variable " +:+ py_str value).

Definition variant_for (value : pyval) (ty : py_type) : result Variant :=
  match ty with
  | Tbool => Ok {| variant_value := PBool (py_bool value);
                   variant_type := Some VtBoolean |}
  | Tint => z ← py_int value;
            Ok {| variant_value := PInt z; variant_type := Some VtInt32 |}
  | Tstr =>
      (* fallback *)
      if guessable value
      then Ok {| variant_value := value; variant_type := None |}
      else Raise (cannot_guess value)
  end.

Definition parse_incoming_payload `{TextLib}
    (payload : list Byte.byte) (expected_type : py_type) : result pyval :=
  let text := strip (decode_utf8_ignore payload) in
  (* Try JSON first *)
  let raw :=
    match json_loads text with
    | Ok (PDict obj) =>
        match dict_get obj "value" with
        | Some v => v
        | None => PStr text
        end
    | _ => PStr text
    end in
  match expected_type with
  | Tbool => PBool <$> to_bool raw
  | Tint => PInt <$> int_of_str (strip (py_str raw))
  | Tstr => Ok raw
  end.

(** Decoding one value against the declared kind: the three final branches
    of [parse_incoming_payload], for a given [raw]. *)
Definition decode_against (raw : pyval) (expected_type : py_type)
  : result pyval :=
  match expected_type with
  | Tbool => PBool <$> to_bool raw
  | Tint => PInt <$> int_of_str (strip (py_str raw))
  | Tstr => Ok raw
  end.

(** ** Configuration: the USER CONFIG block *)

Record Config : Type := {
  OPC_SERVER_URL : string;
  NODES_SPEC : list (string * (string * py_type));
  MQTT_BROKER : string;
  MQTT_PORT : Z;
  MQTT_ROOT : string;
  MQTT_RETAIN : bool;
  SUB_PUB_INTERVAL_MS : Z;
}.

(** ** OPC UA and MQTT objects, library calls, console lines *)

Record datetime : Type := { isoformat : string }.

(** A [Node] as the bridge sees it: [node.nodeid.to_string()], [str(node)]. *)
Record Node : Type := {
  nodeid_to_string : string;
  node_str : string;
}.

Record Subscription : Type := { subscription_id : Z }.

Record DataValue : Type := {
  dv_Value : Variant;
  dv_SourceTimestamp : option datetime;
  dv_ServerTimestamp : option datetime;
}.

(** [data.monitored_item.Value] of a change notification; a missing
    attribute and [None] are both [None]. *)
Record DataChange : Type := {
  ServerTimestamp : option datetime;
  SourceTimestamp : option datetime;
}.

Inductive call : Type :=
  | MqttConnect (broker : string) (port keepalive : Z)
  | MqttLoopForever
  | MqttPublish (topic payload : string) (qos : Z) (retain : bool)
  | MqttDisconnect
  | OpcConnect (url : string)
  | OpcGetNode (nid : string)
  | OpcCreateSubscription (interval : Z)
  | OpcDisconnect
  | SubscribeDataChange (node : Node)
  | Unsubscribe (handle : Z)
  | SubscriptionDelete
  | NodeGetValue (node : Node)
  | NodeSetValue (node : Node) (dv : DataValue).

(** The lines the bridge prints. *)
Inductive diag : Type :=
  | DOpcConnecting (url : string)
  | DOpcConnected
  | DOpcSubscribed (n : nat)
  | DSnapshotPublished
  | DOpcDisconnected
  | DMqttDisconnected
  | DNodeNotReady (name : string)
  | DWritten (name : string) (value : pyval)
  | DWriteError (name : string) (e : exn)
  | DPublished (name : string) (val : pyval) (topic : string).

Inductive event : Type :=
  | Call (c : call)
  | Print (d : diag).

(** The outcome of a library call, given everything that happened before. *)
Class Env : Type := {
  env_unit : list event -> call -> result unit;
  env_get_node : list event -> string -> result Node;
  env_create_subscription : list event -> Z -> result Subscription;
  env_subscribe_data_change : list event -> Node -> result Z;
  env_get_value : list event -> Node -> result pyval;
}.

(** ** The bridge object *)

Record Bridge : Type := {
  nodes : list (string * Node);
  nodeid_to_name : gmap string string;
  subscription : option Subscription;
  sub_handles : list Z;
  telemetry_topics : gmap string string;
  control_topics : list (string * string);
  topic_to_name : gmap string string;
}.

Definition set_nodes (f : list (string * Node) -> list (string * Node))
    (b : Bridge) : Bridge :=
  {| nodes := f (nodes b); nodeid_to_name := nodeid_to_name b;
     subscription := subscription b; sub_handles := sub_handles b;
     telemetry_topics := telemetry_topics b;
     control_topics := control_topics b; topic_to_name := topic_to_name b |}.

Definition set_nodeid_to_name (f : gmap string string -> gmap string string)
    (b : Bridge) : Bridge :=
  {| nodes := nodes b; nodeid_to_name := f (nodeid_to_name b);
     subscription := subscription b; sub_handles := sub_handles b;
     telemetry_topics := telemetry_topics b;
     control_topics := control_topics b; topic_to_name := topic_to_name b |}.

Definition set_subscription (s : option Subscription) (b : Bridge) : Bridge :=
  {| nodes := nodes b; nodeid_to_name := nodeid_to_name b;
     subscription := s; sub_handles := sub_handles b;
     telemetry_topics := telemetry_topics b;
     control_topics := control_topics b; topic_to_name := topic_to_name b |}.

Definition set_sub_handles (f : list Z -> list Z) (b : Bridge) : Bridge :=
  {| nodes := nodes b; nodeid_to_name := nodeid_to_name b;
     subscription := subscription b; sub_handles := f (sub_handles b);
     telemetry_topics := telemetry_topics b;
     control_topics := control_topics b; topic_to_name := topic_to_name b |}.

(** [OPCUAMQTTBridge.__init__]: empty tables and the three topic maps
    (the construction of the two library clients leaves no trace here). *)
Definition init (cfg : Config) : Bridge :=
  let names := dict_keys (NODES_SPEC cfg) in
  let telemetry :=
    foldl (fun m name => <[name := MQTT_ROOT cfg +:+ "/opc/tele/" +:+ name]> m)
          (∅ : gmap string string) names in
  let control :=
    foldl (fun d name => dict_set d name (MQTT_ROOT cfg +:+ "/opc/cmd/" +:+ name))
          [] names in
  {| nodes := []; nodeid_to_name := ∅;
     subscription := None; sub_handles := [];
     telemetry_topics := telemetry;
     control_topics := control;
     topic_to_name :=
       foldl (fun m kv => <[snd kv := fst kv]> m) (∅ : gmap string string) control |}.

(** ** The monad of bridge methods: the object, the log, exceptions *)

Definition State : Type := Bridge * list event.

Definition M (A : Type) : Type := State -> result A * State.

Global Instance M_ret : MRet M := fun _ a st => (Ok a, st).
Global Instance M_bind : MBind M := fun _ _ f m st =>
  match m st with
  | (Ok a, st') => f a st'
  | (Raise e, st') => (Raise e, st')
  end.

Definition get_self : M Bridge := fun st => (Ok (fst st), st).
Definition modify_self (f : Bridge -> Bridge) : M unit :=
  fun st => (Ok tt, (f (fst st), snd st)).
Definition lift {A} (r : result A) : M A := fun st => (r, st).
Definition print (d : diag) : M unit :=
  fun st => (Ok tt, (fst st, snd st ++ [Print d])).

(** A library call: its outcome comes from the environment, the call is
    logged whatever the outcome. *)
Definition invoke {A} (c : call) (outcome : list event -> result A) : M A :=
  fun st => (outcome (snd st), (fst st, snd st ++ [Call c])).

(** [try: body except Exception as e: handler e] *)
Definition try_except {A} (body : M A) (handler : exn -> M A) : M A :=
  fun st =>
    match body st with
    | (Ok a, st') => (Ok a, st')
    | (Raise e, st') => handler e st'
    end.

(** [try: body finally: final] *)
Definition try_finally {A} (body : M A) (final : M unit) : M A :=
  fun st =>
    match body st with
    | (r, st') =>
        match final st' with
        | (Ok _, st'') => (r, st'')
        | (Raise e, st'') => (Raise e, st'')
        end
    end.

(** [for x in l: body x] *)
Fixpoint for_each {X} (l : list X) (body : X -> M unit) : M unit :=
  match l with
  | [] => mret tt
  | x :: l' => body x ;; for_each l' body
  end.

Definition exn_str (e : exn) : string :=
  match e with
  | ValueError msg | TypeError msg | LibError msg => msg
  | KeyError key => repr_str key
  end.

(** ** The bridge methods *)

Section Bridge.

Context `{TextLib} `{Env} (cfg : Config).

(** A library call whose value the bridge does not use. *)
Definition library_call (c : call) : M unit :=
  invoke c (fun log => env_unit log c).

Definition mqtt_publish (topic payload : string) (qos : Z) (retain : bool)
  : M unit :=
  library_call (MqttPublish topic payload qos retain).

Definition on_message (topic : string) (payload : list Byte.byte) : M unit :=
  self ← get_self;
  (* We only expect control topics here *)
  match topic_to_name self !! topic with
  | None => mret tt
  | Some name =>
      spec ← lift (dict_item (NODES_SPEC cfg) name);
      let expected_type := snd spec in
      match dict_get (nodes self) name with
      | None => print (DNodeNotReady name)
      | Some node =>
          try_except
            (value ← lift (parse_incoming_payload payload expected_type);
             v ← lift (variant_for value expected_type);
             let dv := {| dv_Value := v;
                          dv_SourceTimestamp := None;
                          dv_ServerTimestamp := None |} in
             library_call (NodeSetValue node dv);;
             print (DWritten name value))
            (fun e => print (DWriteError name e))
      end
  end.

(** The guarded block of [on_message], for a recognised topic with a
    ready node. *)
Definition write_block (name : string) (expected_type : py_type)
    (node : Node) (payload : list Byte.byte) : M unit :=
  try_except
    (value ← lift (parse_incoming_payload payload expected_type);
     v ← lift (variant_for value expected_type);
     let dv := {| dv_Value := v;
                  dv_SourceTimestamp := None;
                  dv_ServerTimestamp := None |} in
     library_call (NodeSetValue node dv);;
     print (DWritten name value))
    (fun e => print (DWriteError name e)).

(** [_SubHandler.datachange_notification] *)
Definition datachange_notification (node : Node) (val : pyval)
    (data : DataChange) : M unit :=
  self ← get_self;
  let name :=
    default (node_str node) (nodeid_to_name self !! nodeid_to_string node) in
  let ts :=
    match ServerTimestamp data with
    | Some t => Some t
    | None => SourceTimestamp data
    end in
  let ts_iso :=
    match ts with Some t => PStr (isoformat t) | None => PNone end in
  match telemetry_topics self !! name with
  | Some topic =>
      if bool_decide (topic = "") then mret tt
      else
        payload ← lift (json_dumps
          (PDict [("name", PStr name); ("value", val); ("ts", ts_iso)]));
        mqtt_publish topic payload 1 (MQTT_RETAIN cfg);;
        print (DPublished name val topic)
  | None => mret tt
  end.

Definition publish_initial_snapshot : M unit :=
  self ← get_self;
  for_each (nodes self) (fun item =>
    let name := fst item in
    let node := snd item in
    val ← try_except
             (invoke (NodeGetValue node) (fun log => env_get_value log node))
             (fun e => mret (PStr ("<read error: " +:+ exn_str e +:+ ">")));
    self ← get_self;
    match telemetry_topics self !! name with
    | Some topic =>
        if bool_decide (topic = "") then mret tt
        else
          payload ← lift (json_dumps
            (PDict [("name", PStr name); ("value", val); ("ts", PNone);
                    ("initial", PBool true)]));
          mqtt_publish topic payload 1 (MQTT_RETAIN cfg)
    | None => mret tt
    end);;
  print DSnapshotPublished.

Definition start : M unit :=
  (* Connect MQTT (async loop in background thread) *)
  library_call (MqttConnect (MQTT_BROKER cfg) (MQTT_PORT cfg) 60);;
  library_call MqttLoopForever;;
  (* Connect OPC UA *)
  print (DOpcConnecting (OPC_SERVER_URL cfg));;
  library_call (OpcConnect (OPC_SERVER_URL cfg));;
  print DOpcConnected;;
  (* Build nodes and reverse map *)
  for_each (NODES_SPEC cfg) (fun item =>
    let name := fst item in
    let nid := fst (snd item) in
    node ← invoke (OpcGetNode nid) (fun log => env_get_node log nid);
    modify_self (set_nodes (fun d => dict_set d name node));;
    modify_self (set_nodeid_to_name
                   (fun m => <[nodeid_to_string node := name]> m)));;
  (* Subscribe *)
  sub ← invoke (OpcCreateSubscription (SUB_PUB_INTERVAL_MS cfg))
               (fun log => env_create_subscription log (SUB_PUB_INTERVAL_MS cfg));
  modify_self (set_subscription (Some sub));;
  self ← get_self;
  for_each (nodes self) (fun item =>
    let node := snd item in
    h ← invoke (SubscribeDataChange node)
               (fun log => env_subscribe_data_change log node);
    modify_self (set_sub_handles (fun l => l ++ [h])));;
  self ← get_self;
  print (DOpcSubscribed (length (sub_handles self)));;
  (* Publish initial snapshot for convenience *)
  publish_initial_snapshot.

Definition stop : M unit :=
  (* Graceful shutdown *)
  try_finally
    (self ← get_self;
     match subscription self with
     | Some _ =>
         for_each (sub_handles self) (fun h =>
           try_except (library_call (Unsubscribe h)) (fun _ => mret tt));;
         try_except (library_call SubscriptionDelete) (fun _ => mret tt)
     | None => mret tt
     end;;
     library_call OpcDisconnect;;
     print DOpcDisconnected)
    (try_except
       (payload ← lift (json_dumps (PDict [("state", PStr "offline")]));
        mqtt_publish (MQTT_ROOT cfg +:+ "/status") payload 1 true;;
        library_call MqttDisconnect;;
        print DMqttDisconnected)
       (fun _ => mret tt)).

End Bridge.

(** The configuration of the script. *)
Definition default_config : Config := {|
  OPC_SERVER_URL := "opc.tcp://192.168.1.30:4840";
  NODES_SPEC :=
    let db (field : string) : string :=
      "ns=3;s=" +:+ quoted "DB_OP" +:+ "." +:+ quoted field in
    let tag (t : string) : string := "ns=3;s=" +:+ quoted t in
    [ ("AcknFault", (db "AcknFault", Tbool));
      ("ActNo", (db "ActNo", Tint));
      ("JogLeft", (db "JogLeft", Tbool));
      ("JogRight", (db "JogRight", Tbool));
      ("OperationOFF", (db "OperationOFF", Tbool));
      ("OperationON", (db "OperationON", Tbool));
      ("SetpNo", (db "SetpNo", Tint));
      ("S1", (tag "B_Bay1", Tbool));
      ("S2", (tag "B_Bay2", Tbool));
      ("S3", (tag "B_Bay3", Tbool));
      ("LB", (tag "B_LB", Tbool));
      ("B1", (tag "S_Bay1", Tbool));
      ("B2", (tag "S_Bay2", Tbool));
      ("B3", (tag "S_Bay3", Tbool));
      ("B_LB", (tag "S_BayLB", Tbool));
      ("P_Bay1", (tag "P_Bay1", Tbool));
      ("P_Bay2", (tag "P_Bay2", Tbool));
      ("P_Bay3", (tag "P_Bay3", Tbool));
      ("P_BayLB", (tag "P_BayLB", Tbool));
      ("K_Right", (tag "K_Right", Tbool));
      ("K_Left", (tag "K_Left", Tbool)) ];
  MQTT_BROKER := "1d7f41988a7a41a8862aa84e73398487.s1.eu.hivemq.cloud";
  MQTT_PORT := 8884;
  MQTT_ROOT := "imhotep";
  MQTT_RETAIN := false;
  SUB_PUB_INTERVAL_MS := 300;
|}.

(** ** Reference instances of the library classes

    They are used to run the model on concrete inputs; the general theorems
    below hold for every instance. *)

Module Reference.

(** UTF-8 decoding for payloads of code points below 256: one-byte
    sequences, the two-byte sequences led by 0xC2 and 0xC3; any other byte
    is skipped. *)
Fixpoint decode_bytes (l : list Byte.byte) : string :=
  match l with
  | [] => ""
  | b :: l' =>
      let n := Byte.to_N b in
      if (n <? 128)%N then String (ascii_of_N n) (decode_bytes l')
      else
        match l' with
        | b2 :: l'' =>
            let n2 := Byte.to_N b2 in
            if ((194 <=? n) && (n <=? 195) && (128 <=? n2) && (n2 <=? 191))%N
            then String (ascii_of_N ((n - 192) * 64 + (n2 - 128)))
                        (decode_bytes l'')
            else decode_bytes l'
        | [] => ""
        end
  end.

Definition encode_ascii (s : string) : list Byte.byte :=
  String.list_byte_of_string s.

(** A reader for the JSON fragment without string escapes, fractions and
    exponents: [null], [true], [false], integers, plain strings, arrays and
    objects. *)
Definition is_json_ws (c : ascii) : bool :=
  match c with
  | " " | "009" | "010" | "013" => true
  | _ => false
  end%char.

Fixpoint skip_ws (s : string) : string :=
  match s with
  | String c s' => if is_json_ws c then skip_ws s' else s
  | EmptyString => EmptyString
  end.

Fixpoint strip_prefix (p s : string) : option string :=
  match p, s with
  | EmptyString, _ => Some s
  | String a p', String b s' =>
      if bool_decide (a = b) then strip_prefix p' s' else None
  | _, _ => None
  end.

(** The characters of a string body up to the closing quote. *)
Fixpoint read_string (s : string) : option (string * string) :=
  match s with
  | EmptyString => None
  | String c s' =>
      if bool_decide (c = dquote) then Some ("", s')
      else if bool_decide (c = backslash) || (N_of_ascii c <? 32)%N then None
      else '(body, rest) ← read_string s'; Some (String c body, rest)
  end.

Fixpoint read_digits (s : string) (acc : Z) : Z * string :=
  match s with
  | String c s' =>
      match digit_value c with
      | Some d => read_digits s' (acc * 10 + d)
      | None => (acc, s)
      end
  | EmptyString => (acc, s)
  end.

Definition read_nat (s : string) : option (Z * string) :=
  match s with
  | String "0" s' => Some (0, s')
  | String c _ =>
      match digit_value c with
      | Some _ => Some (read_digits s 0)
      | None => None
      end
  | EmptyString => None
  end.

Definition read_int (s : string) : option (pyval * string) :=
  '(z, rest) ←
    match s with
    | String "-" s' => '(z, rest) ← read_nat s'; Some (- z, rest)
    | _ => read_nat s
    end;
  match rest with
  | String c _ =>
      if bool_decide (c ∈ ["."; "e"; "E"]%char) then None
      else Some (PInt z, rest)
  | EmptyString => Some (PInt z, rest)
  end.

(** After an element: [, element]* followed by the closing bracket. *)
Fixpoint read_elements (value : string -> option (pyval * string))
    (fuel : nat) (s : string) (acc : list pyval)
  : option (pyval * string) :=
  match fuel, skip_ws s with
  | _, String "]" rest => Some (PList acc, rest)
  | S fuel', String "," rest =>
      '(v, rest') ← value (skip_ws rest);
      read_elements value fuel' rest' (acc ++ [v])
  | _, _ => None
  end.

Definition read_member (value : string -> option (pyval * string))
    (s : string) : option (string * pyval * string) :=
  match s with
  | String c s' =>
      if bool_decide (c = dquote) then
        '(key, rest) ← read_string s';
        match skip_ws rest with
        | String ":" rest' =>
            '(v, rest'') ← value (skip_ws rest');
            Some (key, v, rest'')
        | _ => None
        end
      else None
  | EmptyString => None
  end.

Fixpoint read_members (value : string -> option (pyval * string))
    (fuel : nat) (s : string) (acc : list (string * pyval))
  : option (pyval * string) :=
  match fuel, skip_ws s with
  | _, String "}" rest => Some (PDict acc, rest)
  | S fuel', String "," rest =>
      '(key, v, rest') ← read_member value (skip_ws rest);
      read_members value fuel' rest' (dict_set acc key v)
  | _, _ => None
  end.

Fixpoint read_value (fuel : nat) (s : string) : option (pyval * string) :=
  match fuel with
  | O => None
  | S fuel' =>
      match s with
      | String "n" _ => rest ← strip_prefix "null" s; Some (PNone, rest)
      | String "t" _ => rest ← strip_prefix "true" s; Some (PBool true, rest)
      | String "f" _ => rest ← strip_prefix "false" s; Some (PBool false, rest)
      | String "[" s' =>
          match skip_ws s' with
          | String "]" rest => Some (PList [], rest)
          | s'' =>
              '(v, rest) ← read_value fuel' s'';
              read_elements (read_value fuel') fuel' rest [v]
          end
      | String "{" s' =>
          match skip_ws s' with
          | String "}" rest => Some (PDict [], rest)
          | s'' =>
              '(key, v, rest) ← read_member (read_value fuel') s'';
              read_members (read_value fuel') fuel' rest [(key, v)]
          end
      | String c s' =>
          if bool_decide (c = dquote)
          then '(body, rest) ← read_string s'; Some (PStr body, rest)
          else read_int s
      | EmptyString => None
      end
  end.

Definition loads (s : string) : result pyval :=
  match read_value (S (String.length s)) (skip_ws s) with
  | Some (v, rest) =>
      match skip_ws rest with
      | EmptyString => Ok v
      | _ => Raise (ValueError "Extra data")
      end
  | None => Raise (ValueError "Expecting value")
  end.

Definition text_lib : TextLib :=
  {| decode_utf8_ignore := decode_bytes; json_loads := loads |}.

(** An OPC UA server and a broker on which every call succeeds. *)
Definition node_of (nid : string) : Node :=
  {| nodeid_to_string := nid; node_str := "Node(" +:+ nid +:+ ")" |}.

Definition env_ok : Env :=
  {| env_unit := fun _ _ => Ok tt;
     env_get_node := fun _ nid => Ok (node_of nid);
     env_create_subscription := fun _ _ => Ok {| subscription_id := 1 |};
     env_subscribe_data_change := fun log _ => Ok (Z.of_nat (length log));
     env_get_value := fun _ _ => Ok (PBool false) |}.

(** The broker refuses every publish. *)
Definition env_publish_fails : Env :=
  {| env_unit := fun _ c =>
       match c with
       | MqttPublish _ _ _ _ => Raise (LibError "publish failed")
       | _ => Ok tt
       end;
     env_get_node := fun _ nid => Ok (node_of nid);
     env_create_subscription := fun _ _ => Ok {| subscription_id := 1 |};
     env_subscribe_data_change := fun log _ => Ok (Z.of_nat (length log));
     env_get_value := fun _ _ => Ok (PBool false) |}.

(** The address [bad] cannot be resolved. *)
Definition env_bad_address (bad : string) : Env :=
  {| env_unit := fun _ _ => Ok tt;
     env_get_node := fun _ nid =>
       if bool_decide (nid = bad) then Raise (LibError "bad node id")
       else Ok (node_of nid);
     env_create_subscription := fun _ _ => Ok {| subscription_id := 1 |};
     env_subscribe_data_change := fun log _ => Ok (Z.of_nat (length log));
     env_get_value := fun _ _ => Ok (PBool false) |}.

(** Writes to the server are rejected. *)
Definition env_write_fails : Env :=
  {| env_unit := fun _ c =>
       match c with
       | NodeSetValue _ _ => Raise (LibError "BadTypeMismatch")
       | _ => Ok tt
       end;
     env_get_node := fun _ nid => Ok (node_of nid);
     env_create_subscription := fun _ _ => Ok {| subscription_id := 1 |};
     env_subscribe_data_change := fun log _ => Ok (Z.of_nat (length log));
     env_get_value := fun _ _ => Ok (PBool false) |}.

(** The address of [ActNo] in the configuration of the script. *)
Definition actno_address : string :=
  "ns=3;s=" +:+ quoted "DB_OP" +:+ "." +:+ quoted "ActNo".

Definition s1_address : string := "ns=3;s=" +:+ quoted "B_Bay1".

(** The bridge object once [start] has run against [env_ok]. *)
Definition started : Bridge :=
  fst (snd (@start env_ok default_config (init default_config, []))).

End Reference.

(** ** Statements used by the properties *)

(** The two f-strings of the topic maps. *)
Definition telemetry_topic_of (cfg : Config) (name : string) : string :=
  MQTT_ROOT cfg +:+ "/opc/tele/" +:+ name.
Definition control_topic_of (cfg : Config) (name : string) : string :=
  MQTT_ROOT cfg +:+ "/opc/cmd/" +:+ name.

(** No character of [s] is whitespace. *)
Fixpoint no_space (s : string) : bool :=
  match s with
  | String c s' => negb (is_space c) && no_space s'
  | EmptyString => true
  end.

Definition calls_of (log : list event) : list call :=
  omap (fun ev => match ev with Call c => Some c | Print _ => None end) log.

(** The retained offline status that [stop] publishes. *)
Definition offline_publish (cfg : Config) : call :=
  MqttPublish (MQTT_ROOT cfg +:+ "/status")
              ("{" +:+ quoted "state" +:+ ": " +:+ quoted "offline" +:+ "}")
              1 true.

(** Shutdown as the specification words it: the unsubscribes, the session
    disconnect, the offline publish and the messaging disconnect are all
    attempted, in this order, whatever the outcome of each step. *)
Definition stop_attempts_every_step `{Env} (cfg : Config) (b : Bridge) : Prop :=
  forall log,
    (map Unsubscribe (sub_handles b)
     ++ [OpcDisconnect; offline_publish cfg; MqttDisconnect])
    `sublist_of` calls_of (drop (length log) (snd (snd (stop cfg (b, log))))).

(** Startup as the specification words it, for a variable [bad] whose
    address does not resolve: [start] returns normally and every other
    variable is resolved, subscribed and part of the initial snapshot. *)
Definition start_survives_bad_address `{Env} (cfg : Config) (bad : string)
  : Prop :=
  let r := start cfg (init cfg, []) in
  fst r = Ok tt /\
  forall name, name ∈ dict_keys (NODES_SPEC cfg) -> name <> bad ->
    exists node payload,
      dict_get (nodes (fst (snd r))) name = Some node /\
      Call (SubscribeDataChange node) ∈ snd (snd r) /\
      Call (MqttPublish (MQTT_ROOT cfg +:+ "/opc/tele/" +:+ name) payload 1
                        (MQTT_RETAIN cfg)) ∈ snd (snd r).

(** [runs R Q b m]: started on the bridge [b], [m] ends on a bridge
    related to [b] by [R] and only appends events that satisfy [Q] to the
    log.  [raises R Q b m]: moreover [m] raises. *)
Definition runs (R : relation Bridge) (Q : event -> Prop) (b : Bridge)
    {A} (m : M A) : Prop :=
  forall log, exists b' new,
    snd (m (b, log)) = (b', log ++ new) /\ R b b' /\ Forall Q new.

Definition raises (R : relation Bridge) (Q : event -> Prop) (b : Bridge)
    {A} (m : M A) : Prop :=
  forall log, exists e b' new,
    m (b, log) = (Raise e, (b', log ++ new)) /\ R b b' /\ Forall Q new.

(** Two bridges that agree on the part [f] of the object. *)
Definition same_on {X} (f : Bridge -> X) : relation Bridge :=
  fun b b' => f b' = f b.

(** No condition on the events. *)
Definition any_event : event -> Prop := fun _ => True.

(** The part of the bridge that subscribing writes. *)
Definition subscriptions (b : Bridge) : option Subscription * list Z :=
  (subscription b, sub_handles b).

(** The part of the bridge that [__init__] builds and no method writes. *)
Definition topic_tables (b : Bridge)
  : gmap string string * list (string * string) * gmap string string :=
  (telemetry_topics b, control_topics b, topic_to_name b).

(** The events of [start] up to the end of node resolution. *)
Definition resolution_phase_event (ev : event) : Prop :=
  match ev with
  | Call (MqttConnect _ _ _) | Call MqttLoopForever | Call (OpcConnect _)
  | Call (OpcGetNode _) | Print (DOpcConnecting _) | Print DOpcConnected => True
  | _ => False
  end.

(** What a change notification may log for the bridge [b] and the value
    [val]: a publish of the object with the members [name], [value] and
    [ts] on the telemetry topic of [name], and the console line. *)
Definition change_event (cfg : Config) (b : Bridge) (val : pyval)
    (ev : event) : Prop :=
  match ev with
  | Call (MqttPublish topic payload qos retain) =>
      qos = 1 /\ retain = MQTT_RETAIN cfg /\
      exists name ts,
        telemetry_topics b !! name = Some topic /\
        json_dumps (PDict [("name", PStr name); ("value", val); ("ts", ts)])
        = Ok payload /\
        (ts = PNone \/ exists t, ts = PStr (isoformat t))
  | Call _ => False
  | Print d => exists name topic, d = DPublished name val topic
  end.

(** What the initial snapshot may log: reads of node values, and publishes
    of the object with the members [name], [value], [ts] (null) and
    [initial] (true). *)
Definition snapshot_event (cfg : Config) (b : Bridge) (ev : event) : Prop :=
  match ev with
  | Call (NodeGetValue _) => True
  | Call (MqttPublish topic payload qos retain) =>
      qos = 1 /\ retain = MQTT_RETAIN cfg /\
      exists name val,
        telemetry_topics b !! name = Some topic /\
        json_dumps (PDict [("name", PStr name); ("value", val); ("ts", PNone);
                           ("initial", PBool true)])
        = Ok payload
  | Call _ => False
  | Print d => d = DSnapshotPublished
  end.

(** The JSON text of the time stamp of a change notification: the server
    time stamp when there is one, else the source time stamp, else null. *)
Definition ts_text (data : DataChange) : string :=
  match ServerTimestamp data, SourceTimestamp data with
  | Some t, _ => json_string (isoformat t)
  | None, Some t => json_string (isoformat t)
  | None, None => "null"
  end.

Definition is_digit (c : ascii) : bool :=
  match digit_value c with Some _ => true | None => false end.

Fixpoint only_digits (s : string) : bool :=
  match s with
  | String c s' => is_digit c && only_digits s'
  | EmptyString => true
  end.

Definition digits (s : string) : bool :=
  negb (bool_decide (s = "")) && only_digits s.

(** Base-10 signed text as the specification means it: an optional sign
    followed by one or more decimal digits. *)
Definition base10_signed (s : string) : bool :=
  match s with
  | String c s' =>
      if bool_decide (c = "-"%char) || bool_decide (c = "+"%char)
      then digits s' else digits s
  | EmptyString => false
  end.

Fixpoint without_underscores (s : string) : string :=
  match s with
  | String c s' =>
      if bool_decide (c = "_"%char) then without_underscores s'
      else String c (without_underscores s')
  | EmptyString => EmptyString
  end.

(** Decimal digits in which single underscores may separate digits: a
    digit, then digits each of which may follow an underscore. *)
Inductive grouped_digits : string -> Prop :=
  | grouped_one (c : ascii) :
      is_digit c = true -> grouped_digits (String c "")
  | grouped_next (c : ascii) (s : string) :
      is_digit c = true -> grouped_digits s -> grouped_digits (String c s)
  | grouped_sep (c : ascii) (s : string) :
      is_digit c = true -> grouped_digits s ->
      grouped_digits (String c (String "_" s)).

(** The number that the digits of [s] write in base 10, after [acc]. *)
Fixpoint decimal_from (acc : Z) (s : string) : Z :=
  match s with
  | String c s' => decimal_from (acc * 10 + default 0 (digit_value c)) s'
  | EmptyString => acc
  end.

Definition decimal (s : string) : Z := decimal_from 0 s.

(** The texts that integer decoding accepts, with their values:
    surrounding whitespace, an optional sign, then digits in which single
    underscores may separate digits; the value is the number that the
    digits write, negated after a minus sign. *)
Definition int_text (s : string) (z : Z) : Prop :=
  exists body,
    grouped_digits body /\
    ((strip s = body \/ strip s = String "+" body)
     /\ z = decimal (without_underscores body)
     \/ strip s = String "-" body
        /\ z = - decimal (without_underscores body)).

(** The default of the interpreter's limit on the digits of an integer
    text: [int] raises [ValueError] above it whatever the text. *)
Definition int_max_str_digits : nat := 4300.

(** Integer decoding as the specification words it: a text decodes exactly
    when, stripped, it is base-10 signed text. *)
Definition int_accepts_exactly_base10 : Prop :=
  forall s : string,
    is_ok (decode_against (PStr s) Tint) = true
    <-> base10_signed (strip s) = true.

(** ** Statements used by the further properties *)

(** The OPC UA type [variant_for] declares for a kind. *)
Definition variant_type_of (ty : py_type) : option VariantType :=
  match ty with
  | Tbool => Some VtBoolean
  | Tint => Some VtInt32
  | Tstr => None
  end.

(** The [DataValue] that [on_message] builds for a decoded value. *)
Definition data_value_for (value : pyval) (ty : py_type) : DataValue :=
  {| dv_Value := {| variant_value := value; variant_type := variant_type_of ty |};
     dv_SourceTimestamp := None;
     dv_ServerTimestamp := None |}.

(** Every character of [s] is whitespace. *)
Fixpoint only_space (s : string) : bool :=
  match s with
  | String c s' => is_space c && only_space s'
  | EmptyString => true
  end.

(** Every character of [s] is printable ASCII (code points 32 to 126). *)
Definition ascii_printable (c : ascii) : bool :=
  ((32 <=? N_of_ascii c) && (N_of_ascii c <=? 126))%N.

Fixpoint only_ascii (s : string) : bool :=
  match s with
  | String c s' => ascii_printable c && only_ascii s'
  | EmptyString => true
  end.

(** The topics of the publishes among [calls]. *)
Definition published_topics (calls : list call) : list string :=
  omap (fun c => match c with
                 | MqttPublish topic _ _ _ => Some topic
                 | _ => None
                 end) calls.

(** A value made of [None], booleans, integers, text, lists and
    dictionaries only. *)
Fixpoint plain (v : pyval) : bool :=
  match v with
  | PNone | PBool _ | PInt _ | PStr _ => true
  | PList items => forallb plain items
  | PDict items => forallb (fun kv => plain (snd kv)) items
  | PObj _ => false
  end.

(** A server on which every read is refused, with a broker that accepts
    every publish. *)
Definition env_read_fails : Env :=
  {| env_unit := fun _ _ => Ok tt;
     env_get_node := fun _ nid => Ok (Reference.node_of nid);
     env_create_subscription := fun _ _ => Ok {| subscription_id := 1 |};
     env_subscribe_data_change := fun log _ => Ok (Z.of_nat (length log));
     env_get_value := fun _ _ => Raise (LibError "BadNodeIdUnknown") |}.


(** ** The connection callbacks of the broker client *)

(** What the callbacks do on the broker client and on the console. *)
Inductive client_event : Type :=
  | ClientSubscribe (subs : list (string * Z))
  | ClientPublish (topic payload : string) (qos : Z) (retain : bool)
  | ClientPrint (line : string).

(** The outcome of the two client calls, given what happened before. *)
Class ClientEnv : Type := {
  client_subscribe : list client_event -> list (string * Z) -> result unit;
  client_publish :
    list client_event -> string -> string -> Z -> bool -> result unit;
}.

(** The monad of the callbacks: the log of the client, exceptions. *)
Definition Cb (A : Type) : Type :=
  list client_event -> result A * list client_event.

Global Instance Cb_ret : MRet Cb := fun _ a log => (Ok a, log).
Global Instance Cb_bind : MBind Cb := fun _ _ f m log =>
  match m log with
  | (Ok a, log') => f a log'
  | (Raise e, log') => (Raise e, log')
  end.

Definition cb_print (line : string) : Cb unit :=
  fun log => (Ok tt, log ++ [ClientPrint line]).
Definition cb_call (ev : client_event)
    (outcome : list client_event -> result unit) : Cb unit :=
  fun log => (outcome log, log ++ [ev]).
Definition cb_lift {A} (r : result A) : Cb A := fun log => (r, log).

Fixpoint cb_for_each {X} (l : list X) (body : X -> Cb unit) : Cb unit :=
  match l with
  | [] => mret tt
  | x :: l' => body x ;; cb_for_each l' body
  end.

(** [d.values()] *)
Definition dict_values {V} (d : list (string * V)) : list V := map snd d.

(** [OPCUAMQTTBridge.on_connect]; [reason_code] is the text of the reason
    code. *)
Definition on_connect `{ClientEnv} (cfg : Config) (self : Bridge)
    (reason_code : string) : Cb unit :=
  cb_print ("[MQTT] Connected with result code: " +:+ reason_code);;
  (* Subscribe to all control topics so MQTT can drive OPC writes *)
  let subs := map (fun topic => (topic, 1)) (dict_values (control_topics self)) in
  match subs with
  | [] => mret tt
  | _ :: _ =>
      cb_call (ClientSubscribe subs) (fun log => client_subscribe log subs);;
      cb_print ("[MQTT] Subscribed to control topics ("
                +:+ pretty (Z.of_nat (length subs)) +:+ "):");;
      cb_for_each (take 8 subs) (fun s => cb_print ("   - " +:+ fst s));;
      if bool_decide (8 < length subs)%nat then cb_print "   - ..."
      else mret tt
  end;;
  (* Optionally publish an 'online' status *)
  payload ← cb_lift (json_dumps (PDict [("state", PStr "online")]));
  cb_call (ClientPublish (MQTT_ROOT cfg +:+ "/status") payload 1 true)
          (fun log =>
             client_publish log (MQTT_ROOT cfg +:+ "/status") payload 1 true).

(** [OPCUAMQTTBridge.on_disconnect] *)
Definition on_disconnect (reason_code : string) : Cb unit :=
  cb_print ("[MQTT] Disconnected: " +:+ reason_code).

(** A broker client on which every call succeeds. *)
Definition client_ok : ClientEnv :=
  {| client_subscribe := fun _ _ => Ok tt;
     client_publish := fun _ _ _ _ _ => Ok tt |}.

(** The topic filters of the subscribe calls among [log]. *)
Definition subscribed_topics (log : list client_event) : list string :=
  concat (omap (fun ev => match ev with
                          | ClientSubscribe subs => Some (map fst subs)
                          | _ => None
                          end) log).


(** The handles that the subscribe calls among [rest] returned, [before]
    being the log when [rest] starts. *)
Fixpoint handles_obtained `{Env} (before rest : list event) : list Z :=
  match rest with
  | [] => []
  | ev :: rest' =>
      match ev with
      | Call (SubscribeDataChange node) =>
          match env_subscribe_data_change before node with
          | Ok h => [h]
          | Raise _ => []
          end
      | _ => []
      end ++ handles_obtained (before ++ [ev]) rest'
  end.

(** The handles of the unsubscribe calls among [calls]. *)
Definition unsubscribed (calls : list call) : list Z :=
  omap (fun c => match c with Unsubscribe h => Some h | _ => None end) calls.

(** An event other than a call to [subscribe_data_change]. *)
Definition no_subscribe (ev : event) : Prop :=
  match ev with
  | Call (SubscribeDataChange _) => False
  | _ => True
  end.


(** ** The stand-alone client

    [OPC-UA (BiDirectional - Without MQTT).py]: the codec without the JSON
    envelope, and the command loop on the console. *)

Module Standalone.

(** [to_bool]: the argument is text. *)
Definition to_bool (s : string) : result bool :=
  let s := lower (strip s) in
  if bool_decide (s ∈ ["1"; "true"; "t"; "on"; "yes"; "y"]) then Ok true
  else if bool_decide (s ∈ ["0"; "false"; "f"; "off"; "no"; "n"]) then Ok false
  else Raise (ValueError ("Cannot parse boolean from '" +:+ s +:+ "'")).

(** [variant_for]: the Boolean branch passes the value as it is. *)
Definition variant_for (value : pyval) (py_type : py_type) : result Variant :=
  match py_type with
  | Tbool => Ok {| variant_value := value; variant_type := Some VtBoolean |}
  | Tint => z ← py_int value;
            Ok {| variant_value := PInt z; variant_type := Some VtInt32 |}
  | Tstr =>
      (* Fallback: let the library guess *)
      if guessable value
      then Ok {| variant_value := value; variant_type := None |}
      else Raise (cannot_guess value)
  end.

(** [str.split()]: the maximal runs of characters that are not whitespace;
    [word] is the run being read. *)
Fixpoint split_go (word s : string) : list string :=
  match s with
  | EmptyString => if bool_decide (word = "") then [] else [word]
  | String c s' =>
      if is_space c
      then if bool_decide (word = "") then split_go "" s'
           else word :: split_go "" s'
      else split_go (word +:+ String c "") s'
  end.

Definition split (s : string) : list string := split_go "" s.

(** [l[i]]; the [IndexError] is rendered as a [LibError]. *)
Definition index {A} (l : list A) (i : nat) : result A :=
  match l !! i with
  | Some x => Ok x
  | None => Raise (LibError "list index out of range")
  end.

(** The lines of the command loop. *)
Inductive line : Type :=
  | LExiting
  | LHelp
  | LUsageRead
  | LUsageSet
  | LUnknownNode (target known : string)
  | LValue (name : string) (val : pyval)
  | LReadErrorOf (name : string) (e : exn)
  | LReadError (e : exn)
  | LParseError (e : exn)
  | LWrote (value : pyval) (target : string)
  | LWriteError (e : exn)
  | LUnknownCommand.

Inductive console_event : Type :=
  | Did (c : call)
  | Said (l : line).

(** The outcome of a read or of a write on the server, given what happened
    before. *)
Class Server : Type := {
  get_value : list console_event -> Node -> result pyval;
  set_value : list console_event -> Node -> DataValue -> result unit;
}.

(** The monad of the command loop: the log, exceptions. *)
Definition Sh (A : Type) : Type :=
  list console_event -> result A * list console_event.

Global Instance Sh_ret : MRet Sh := fun _ a log => (Ok a, log).
Global Instance Sh_bind : MBind Sh := fun _ _ f m log =>
  match m log with
  | (Ok a, log') => f a log'
  | (Raise e, log') => (Raise e, log')
  end.

Definition say (l : line) : Sh unit := fun log => (Ok tt, log ++ [Said l]).
Definition did {A} (c : call) (outcome : list console_event -> result A)
  : Sh A :=
  fun log => (outcome log, log ++ [Did c]).
Definition raise_or {A} (r : result A) : Sh A := fun log => (r, log).

(** [try: body except Exception as e: handler e] *)
Definition guarded {A} (body : Sh A) (handler : exn -> Sh A) : Sh A :=
  fun log =>
    match body log with
    | (Ok a, log') => (Ok a, log')
    | (Raise e, log') => handler e log'
    end.

Fixpoint each {X} (l : list X) (body : X -> Sh unit) : Sh unit :=
  match l with
  | [] => mret tt
  | x :: l' => body x ;; each l' body
  end.

(** The conversion of the text of a [set] command, by the declared type. *)
Definition typed_value (expected_type : py_type) (value_str : string)
  : result pyval :=
  match expected_type with
  | Tbool => PBool <$> to_bool value_str
  | Tint => PInt <$> int_of_str (strip value_str)
  | Tstr => Ok (PStr value_str)
  end.

(** How an iteration of the command loop ends. *)
Inductive control : Type := Continue | Break.

Section Loop.

Context `{Server} (NODES_SPEC : list (string * (string * py_type)))
  (nodes : list (string * Node)).

Definition unknown_node (target : string) : Sh control :=
  say (LUnknownNode target (join ", " (dict_keys nodes)));;
  mret Continue.

(** [read <node>|all], from the test on the number of words on. *)
Definition read_command (parts : list string) : Sh control :=
  if bool_decide (length parts < 2)%nat then say LUsageRead;; mret Continue
  else
    target ← raise_or (index parts 1);
    if bool_decide (lower target = "all") then
      each nodes (fun item =>
        guarded
          (val ← did (NodeGetValue (snd item))
                     (fun log => get_value log (snd item));
           say (LValue (fst item) val))
          (fun e => say (LReadErrorOf (fst item) e)));;
      mret Continue
    else
      match dict_get nodes target with
      | None => unknown_node target
      | Some node =>
          guarded
            (val ← did (NodeGetValue node) (fun log => get_value log node);
             say (LValue target val))
            (fun e => say (LReadError e));;
          mret Continue
      end.

(** [set <node> <value>], from the test on the number of words on. *)
Definition set_command (parts : list string) : Sh control :=
  if bool_decide (length parts < 3)%nat then say LUsageSet;; mret Continue
  else
    target ← raise_or (index parts 1);
    let value_str := join " " (drop 2 parts) in
    match dict_get nodes target with
    | None => unknown_node target
    | Some node =>
        spec ← raise_or (dict_item NODES_SPEC target);
        let expected_type := snd spec in
        (* Convert user input to correct type *)
        match typed_value expected_type value_str with
        | Raise (ValueError msg) =>
            say (LParseError (ValueError msg));; mret Continue
        | Raise e => raise_or (Raise e)
        | Ok value =>
            (* Create DataValue for writing *)
            v ← raise_or (variant_for value expected_type);
            let dv := {| dv_Value := v;
                         dv_SourceTimestamp := None;
                         dv_ServerTimestamp := None |} in
            guarded
              (did (NodeSetValue node dv) (fun log => set_value log node dv);;
               say (LWrote value target))
              (fun e => say (LWriteError e));;
            mret Continue
        end
    end.

(** One iteration of the command loop; [input] is the line read, [None]
    when [input] raises [EOFError] or [KeyboardInterrupt]. *)
Definition command (input : option string) : Sh control :=
  match input with
  | None => say LExiting;; mret Break
  | Some text =>
      let cmd := strip text in
      if bool_decide (cmd = "") then mret Continue
      else
        let parts := split cmd in
        first ← raise_or (index parts 0);
        if bool_decide (lower first ∈ ["exit"; "quit"]) then mret Break
        else if bool_decide (lower first = "help") then
          say LHelp;; mret Continue
        else if bool_decide (lower first = "read") then read_command parts
        else if bool_decide (lower first = "set") then set_command parts
        else say LUnknownCommand;; mret Continue
  end.

End Loop.

(** The writes among the events. *)
Definition writes (log : list console_event) : list (Node * DataValue) :=
  omap (fun ev => match ev with
                  | Did (NodeSetValue node dv) => Some (node, dv)
                  | _ => None
                  end) log.

(** [NODES_SPEC] of the stand-alone script. *)
Definition default_spec : list (string * (string * py_type)) :=
  let db (field : string) : string :=
    "ns=3;s=" +:+ quoted "DB_OP" +:+ "." +:+ quoted field in
  let tag (t : string) : string := "ns=3;s=" +:+ quoted t in
  [ ("AcknFault", (db "AcknFault", Tbool));
    ("ActNo", (db "ActNo", Tint));
    ("JogLeft", (db "JogLeft", Tbool));
    ("JogRight", (db "JogRight", Tbool));
    ("OperationOFF", (db "OperationOFF", Tbool));
    ("OperationON", (db "OperationON", Tbool));
    ("SetpNo", (db "SetpNo", Tint));
    ("S1", (tag "B_Bay1", Tbool));
    ("S2", (tag "B_Bay2", Tbool));
    ("S3", (tag "B_Bay3", Tbool));
    ("LB", (tag "B_LB", Tbool));
    ("B1", (tag "S_Bay1", Tbool));
    ("B2", (tag "S_Bay2", Tbool));
    ("B3", (tag "S_Bay3", Tbool));
    ("B_LB", (tag "S_BayLB", Tbool)) ].

(** The nodes that [main] resolves on a server that resolves every
    address. *)
Definition default_nodes : list (string * Node) :=
  map (fun item => (fst item, Reference.node_of (fst (snd item)))) default_spec.

(** A word of a command line: not empty, without whitespace. *)
Definition is_word (w : string) : Prop := w <> "" /\ no_space w = true.

(** A server on which every call succeeds. *)
Definition server_ok : Server :=
  {| get_value := fun _ _ => Ok (PBool false);
     set_value := fun _ _ _ => Ok tt |}.

End Standalone.


(** ** Statements about the telemetry text and the command lines *)

(** A publish carries printable ASCII. *)
Definition ascii_publish (ev : event) : Prop :=
  match ev with
  | Call (MqttPublish _ payload _ _) => only_ascii payload = true
  | _ => True
  end.

(** The line [input] is a [set] command for the resolved node [node] of
    the name [target], whose text converts to [value] for the declared
    type [ty]. *)
Definition set_request (NODES_SPEC : list (string * (string * py_type)))
    (nodes : list (string * Node)) (input : option string)
    (target : string) (node : Node) (ty : py_type) (value : pyval) : Prop :=
  exists text first nid,
    input = Some text
    /\ Standalone.split (strip text) !! 0%nat = Some first
    /\ lower first = "set"
    /\ (3 <= length (Standalone.split (strip text)))%nat
    /\ Standalone.split (strip text) !! 1%nat = Some target
    /\ dict_get nodes target = Some node
    /\ dict_get NODES_SPEC target = Some (nid, ty)
    /\ Standalone.typed_value ty
         (join " " (drop 2 (Standalone.split (strip text)))) = Ok value.

(** * Properties *)

(** ** Boolean decoding *)

Lemma elem_of_true_tokens (t : string) :
  t ∈ ["1"; "true"; "t"; "on"; "yes"; "y"] <->
  t = "1" \/ t = "true" \/ t = "t" \/ t = "on" \/ t = "yes" \/ t = "y".
Proof. rewrite !elem_of_cons, elem_of_nil. tauto. Qed.

Lemma elem_of_false_tokens (t : string) :
  t ∈ ["0"; "false"; "f"; "off"; "no"; "n"] <->
  t = "0" \/ t = "false" \/ t = "f" \/ t = "off" \/ t = "no" \/ t = "n".
Proof. rewrite !elem_of_cons, elem_of_nil. tauto. Qed.

(** C1. [to_bool] returns [True] exactly on the tokens 1, true, t, on, yes,
    y, returns [False] exactly on 0, false, f, off, no, n, and raises
    [ValueError] on every other token; the token is the input stripped of
    surrounding whitespace and lower-cased. *)
Theorem to_bool_tokens (s : string) :
  let tok := lower (strip s) in
  let is_true :=
    tok = "1" \/ tok = "true" \/ tok = "t" \/ tok = "on" \/ tok = "yes"
    \/ tok = "y" in
  let is_false :=
    tok = "0" \/ tok = "false" \/ tok = "f" \/ tok = "off" \/ tok = "no"
    \/ tok = "n" in
  (to_bool (PStr s) = Ok true <-> is_true) /\
  (to_bool (PStr s) = Ok false <-> is_false) /\
  ((exists msg, to_bool (PStr s) = Raise (ValueError msg))
   <-> ~ is_true /\ ~ is_false).
Proof.
  intros tok is_true is_false. subst is_true is_false.
  unfold to_bool. cbn [py_str]. fold tok.
  rewrite <- (elem_of_true_tokens tok), <- (elem_of_false_tokens tok).
  assert (Hdisj : tok ∈ ["1"; "true"; "t"; "on"; "yes"; "y"] ->
                  tok ∈ ["0"; "false"; "f"; "off"; "no"; "n"] -> False).
  { rewrite elem_of_true_tokens, elem_of_false_tokens.
    intros Ht Hf. repeat destruct Ht as [Ht|Ht];
      repeat destruct Hf as [Hf|Hf]; congruence. }
  repeat case_bool_decide; repeat split;
    try (intros [? ?]); try intros ?; try tauto; try congruence; eauto.
  all: match goal with H : exists _, _ = _ |- _ => destruct H; congruence end.
Qed.

Lemma to_bool_tokens_witness :
  to_bool (PStr "  YES ") = Ok true
  /\ to_bool (PStr "Off") = Ok false
  /\ exists msg, to_bool (PStr "maybe") = Raise (ValueError msg).
Proof.
  pose proof (to_bool_tokens "  YES ") as Hyes.
  pose proof (to_bool_tokens "Off") as Hoff.
  pose proof (to_bool_tokens "maybe") as Hmaybe.
  cbv zeta in Hyes, Hoff, Hmaybe.
  destruct Hyes as (Hyes & _ & _), Hoff as (_ & Hoff & _),
           Hmaybe as (_ & _ & Hmaybe).
  split; [|split].
  - apply Hyes. vm_compute. tauto.
  - apply Hoff. vm_compute. tauto.
  - apply Hmaybe. split; intros Htok; vm_compute in Htok;
      repeat destruct Htok as [Htok|Htok]; discriminate Htok.
Defined.

Example to_bool_examples :
  to_bool (PStr "  YES ") = Ok true /\ to_bool (PStr "Off") = Ok false /\
  to_bool (PBool true) = Ok true /\ to_bool (PInt 0) = Ok false /\
  to_bool (PStr "2") = Raise (ValueError "Cannot parse boolean from '2'") /\
  to_bool (PStr "") = Raise (ValueError "Cannot parse boolean from ''").
Proof. vm_compute. repeat split. Qed.

(** ** Case and whitespace in boolean tokens *)

Lemma is_space_lower_char (c : ascii) :
  is_space (lower_char c) = is_space c.
Proof. destruct c as [[] [] [] [] [] [] [] []]; reflexivity. Qed.

Lemma lower_lstrip (s : string) : lower (lstrip s) = lstrip (lower s).
Proof.
  induction s as [|c s IH]; [done|]. cbn.
  rewrite is_space_lower_char. by destruct (is_space c).
Qed.

Lemma lower_rstrip (s : string) : lower (rstrip s) = rstrip (lower s).
Proof.
  induction s as [|c s IH]; [done|]. cbn. rewrite <- IH.
  destruct (rstrip s); cbn; [|done].
  rewrite is_space_lower_char. by destruct (is_space c).
Qed.

Lemma lower_strip (s : string) : lower (strip s) = strip (lower s).
Proof. unfold strip. by rewrite lower_rstrip, lower_lstrip. Qed.

(** [to_bool] does not look at the case of its input. *)
Lemma to_bool_case_insensitive (s1 s2 : string) :
  lower s1 = lower s2 -> to_bool (PStr s1) = to_bool (PStr s2).
Proof.
  intros Heq. unfold to_bool. cbn [py_str]. by rewrite !lower_strip, Heq.
Qed.

(** ** The payload decoder *)

(** C2. [parse_incoming_payload] decodes the [value] member when the
    stripped payload text parses as a JSON object that has one, and decodes
    the whole stripped text otherwise (no parse, an array, a scalar, an
    object without [value]). *)
Theorem parse_incoming_payload_json `{TextLib}
    (payload : list Byte.byte) (expected_type : py_type) :
  let text := strip (decode_utf8_ignore payload) in
  (forall obj v,
      json_loads text = Ok (PDict obj) -> dict_get obj "value" = Some v ->
      parse_incoming_payload payload expected_type
      = decode_against v expected_type) /\
  ((forall obj, json_loads text = Ok (PDict obj) -> dict_get obj "value" = None) ->
   parse_incoming_payload payload expected_type
   = decode_against (PStr text) expected_type).
Proof.
  intros text. unfold parse_incoming_payload. fold text. split.
  - intros obj v Hobj Hv. rewrite Hobj, Hv. reflexivity.
  - intros Hno. destruct (json_loads text) as [[]|] eqn:Hj; try reflexivity.
    rewrite (Hno _ eq_refl). reflexivity.
Qed.

(** The two cases on concrete payloads, with the reference reader: the
    object with a [value] member, and an array. *)
Lemma parse_incoming_payload_json_witness :
  @parse_incoming_payload Reference.text_lib
    (Reference.encode_ascii ("{" +:+ quoted "value" +:+ ": 5}")) Tint
  = Ok (PInt 5)
  /\ @parse_incoming_payload Reference.text_lib
       (Reference.encode_ascii "[1]") Tstr
     = Ok (PStr "[1]").
Proof.
  split.
  - refine (eq_trans
      (proj1 (@parse_incoming_payload_json Reference.text_lib _ Tint)
             [("value", PInt 5)] (PInt 5) _ _) _);
      vm_compute; reflexivity.
  - refine (eq_trans
      (proj2 (@parse_incoming_payload_json Reference.text_lib _ Tstr) _) _).
    + intros obj Hobj. vm_compute in Hobj. discriminate.
    + vm_compute. reflexivity.
Defined.

(** ** Integer decoding *)

Section Strip.

Lemma lstrip_head (s : string) (c : ascii) (s' : string) :
  lstrip s = String c s' -> is_space c = false.
Proof.
  induction s as [|c0 s IH]; cbn; [done|].
  destruct (is_space c0) eqn:Hc0; [exact IH|]. by intros [= <- <-].
Qed.

Lemma lstrip_id (c : ascii) (s : string) :
  is_space c = false -> lstrip (String c s) = String c s.
Proof. intros Hc. cbn. by rewrite Hc. Qed.

Lemma rstrip_head (c : ascii) (s : string) :
  is_space c = false -> exists s', rstrip (String c s) = String c s'.
Proof.
  intros Hc. cbn. destruct (rstrip s); [rewrite Hc|]; eauto.
Qed.

Lemma rstrip_idemp (s : string) : rstrip (rstrip s) = rstrip s.
Proof.
  induction s as [|c s IH]; [done|]. cbn.
  destruct (rstrip s) as [|c' r] eqn:Hr.
  - destruct (is_space c) eqn:Hc; [done|]. cbn. by rewrite Hc.
  - cbn. cbn in IH. by rewrite IH.
Qed.

Lemma strip_idemp (s : string) : strip (strip s) = strip s.
Proof.
  unfold strip. destruct (lstrip s) as [|c s'] eqn:Hl; [done|].
  apply lstrip_head in Hl. destruct (rstrip_head c s' Hl) as [r Hr].
  rewrite Hr, (lstrip_id _ _ Hl), <- Hr. apply rstrip_idemp.
Qed.

Lemma strip_no_space (s : string) : no_space s = true -> strip s = s.
Proof.
  intros Hs. unfold strip.
  assert (Hl : lstrip s = s).
  { destruct s as [|c s]; [done|]. cbn in *.
    apply andb_prop in Hs as [Hc _]. by destruct (is_space c). }
  rewrite Hl. clear Hl. induction s as [|c s IH]; [done|]. cbn in *.
  apply andb_prop in Hs as [Hc Hs]. rewrite (IH Hs).
  destruct s; [|done]. by destruct (is_space c).
Qed.

(** A stripped text has no whitespace for [int] to ignore. *)
Lemma int_space_is_space (c : ascii) : int_space c = true -> is_space c = true.
Proof. destruct c as [[] [] [] [] [] [] [] []]; cbn; congruence. Qed.

Lemma int_lstrip_fixed (s : string) : lstrip s = s -> int_lstrip s = s.
Proof.
  destruct s as [|c s]; [done|]. intros Hs. apply lstrip_head in Hs. cbn.
  destruct (int_space c) eqn:Hc; [|done].
  apply int_space_is_space in Hc. congruence.
Qed.

Lemma int_rstrip_fixed (s : string) : rstrip s = s -> int_rstrip s = s.
Proof.
  induction s as [|c s IH]; [done|]. cbn.
  destruct (rstrip s) as [|c' r] eqn:Hr.
  - destruct (is_space c) eqn:Hc; [done|]. intros [= <-]. cbn.
    destruct (int_space c) eqn:Hi; [|done].
    apply int_space_is_space in Hi. congruence.
  - intros [= <-]. by rewrite IH.
Qed.

Lemma int_strip_strip (s : string) : int_strip (strip s) = strip s.
Proof.
  unfold int_strip. rewrite int_lstrip_fixed.
  - apply int_rstrip_fixed. unfold strip. apply rstrip_idemp.
  - unfold strip. destruct (lstrip s) as [|c s'] eqn:Hl; [done|].
    apply lstrip_head in Hl. destruct (rstrip_head c s' Hl) as [r ->].
    by apply lstrip_id.
Qed.

Lemma int_strip_no_space (s : string) : no_space s = true -> int_strip s = s.
Proof.
  intros Hs. rewrite <- (strip_no_space s Hs) at 1.
  by rewrite int_strip_strip, strip_no_space.
Qed.

End Strip.

Section IntText.

Lemma is_digit_not_sign (c : ascii) :
  is_digit c = true ->
  bool_decide (c = "-"%char) = false /\ bool_decide (c = "+"%char) = false
  /\ bool_decide (c = "_"%char) = false.
Proof.
  intros Hc. repeat split; case_bool_decide; subst; try done;
    vm_compute in Hc; discriminate.
Qed.

Lemma only_digits_accepted (s : string) (acc : Z) (prev : bool) :
  only_digits s = true -> prev = true \/ s <> "" ->
  is_Some (int_digits s acc prev).
Proof.
  revert acc prev. induction s as [|c s IH]; intros acc prev Hs Hne; cbn.
  - destruct Hne as [->|?]; [eauto|done].
  - cbn in Hs. apply andb_prop in Hs as [Hc Hs]. unfold is_digit in Hc.
    destruct (digit_value c); [|done]. apply IH; auto.
Qed.

Lemma digits_accepted (s : string) :
  digits s = true -> is_Some (int_digits s 0 false).
Proof.
  unfold digits. intros Hs. apply andb_prop in Hs as [Hne Hs].
  apply only_digits_accepted; [done|]. right.
  apply negb_true_iff, bool_decide_eq_false in Hne. done.
Qed.

Lemma base10_signed_accepted (s : string) :
  base10_signed s = true -> is_Some (int_literal s).
Proof.
  destruct s as [|c s]; cbn; [done|].
  destruct (bool_decide (c = "-"%char)) eqn:Hm; cbn.
  - intros Hs. destruct (digits_accepted _ Hs) as [z ->]. by eexists.
  - destruct (bool_decide (c = "+"%char)) eqn:Hp; cbn.
    + apply digits_accepted.
    + apply (digits_accepted (String c s)).
Qed.

Lemma accepted_only_digits (s : string) (acc : Z) (prev : bool) (z : Z) :
  int_digits s acc prev = Some z ->
  only_digits (without_underscores s) = true
  /\ (prev = true \/ without_underscores s <> "").
Proof.
  revert acc prev. induction s as [|c s IH]; intros acc prev; cbn.
  - destruct prev; [auto|done].
  - destruct (digit_value c) as [d|] eqn:Hd.
    + intros Hs. apply IH in Hs as [Hs _].
      assert (Hc : is_digit c = true) by (unfold is_digit; by rewrite Hd).
      destruct (is_digit_not_sign c Hc) as (_ & _ & ->). cbn.
      rewrite Hc, Hs. auto.
    + destruct (bool_decide (c = "_"%char)) eqn:Hu; [|done].
      destruct prev; [|done]. cbn. intros Hs.
      apply IH in Hs as [Hs [?|Hne]]; [done|]. auto.
Qed.

Lemma accepted_digits (s : string) (z : Z) :
  int_digits s 0 false = Some z -> digits (without_underscores s) = true.
Proof.
  intros Hs. apply accepted_only_digits in Hs as [Hs [?|Hne]]; [done|].
  unfold digits. rewrite Hs. by rewrite bool_decide_eq_false_2.
Qed.

Lemma digits_base10_signed (s : string) :
  digits s = true -> base10_signed s = true.
Proof.
  intros Hs. destruct s as [|c s]; [done|]. cbn.
  assert (Hc : is_digit c = true).
  { unfold digits in Hs. cbn in Hs. by destruct (is_digit c). }
  destruct (is_digit_not_sign c Hc) as (-> & -> & _). exact Hs.
Qed.

Lemma accepted_base10_signed (s : string) (z : Z) :
  int_literal s = Some z -> base10_signed (without_underscores s) = true.
Proof.
  destruct s as [|c s]; cbn; [done|].
  destruct (bool_decide (c = "-"%char)) eqn:Hm.
  { apply bool_decide_eq_true in Hm as ->. cbn.
    destruct (int_digits s 0 false) as [z'|] eqn:Hs; [|done].
    intros _. by eapply accepted_digits. }
  destruct (bool_decide (c = "+"%char)) eqn:Hp.
  { apply bool_decide_eq_true in Hp as ->. cbn. apply accepted_digits. }
  intros Hs. apply digits_base10_signed.
  exact (accepted_digits (String c s) z Hs).
Qed.

(** Decimal text of a number, read back. *)
Lemma digit_value_pretty (d : N) :
  (d < 10)%N -> digit_value (pretty_N_char d) = Some (Z.of_N d).
Proof.
  intros Hd.
  assert (Hcases : (d = 0 \/ d = 1 \/ d = 2 \/ d = 3 \/ d = 4 \/ d = 5
                    \/ d = 6 \/ d = 7 \/ d = 8 \/ d = 9)%N) by lia.
  repeat destruct Hcases as [->|Hcases]; try subst d; reflexivity.
Qed.

Lemma int_digits_pretty_go (x : N) :
  forall s, exists k,
    forall acc prev,
      int_digits (pretty_N_go x s) acc prev
      = int_digits s (acc * k + Z.of_N x) (prev || (0 <? x)%N).
Proof.
  induction (N.lt_wf_0 x) as [x _ IH]. intros s.
  destruct (decide (x = 0%N)) as [->|Hx].
  - exists 1. intros acc prev. rewrite pretty_N_go_0.
    rewrite orb_false_r. f_equal. lia.
  - rewrite pretty_N_go_step by lia.
    destruct (IH (x `div` 10)%N) with
      (s := String (pretty_N_char (x `mod` 10)) s) as [k Hk].
    { apply N.div_lt; lia. }
    exists (k * 10). intros acc prev. rewrite Hk. cbn [int_digits].
    rewrite digit_value_pretty by (apply N.mod_lt; lia).
    replace (prev || (0 <? x)%N) with true
      by (symmetry; apply orb_true_iff; right; apply N.ltb_lt; lia).
    f_equal. rewrite (N.div_mod x 10) at 3 by lia. lia.
Qed.

Lemma only_digits_pretty_go (x : N) (s : string) :
  only_digits s = true -> only_digits (pretty_N_go x s) = true.
Proof.
  revert s. induction (N.lt_wf_0 x) as [x _ IH]. intros s Hs.
  destruct (decide (x = 0%N)) as [->|Hx].
  - by rewrite pretty_N_go_0.
  - rewrite pretty_N_go_step by lia. apply IH; [apply N.div_lt; lia|].
    cbn. rewrite Hs. unfold is_digit.
    rewrite digit_value_pretty by (apply N.mod_lt; lia). done.
Qed.

Lemma only_digits_no_space (s : string) :
  only_digits s = true -> no_space s = true.
Proof.
  induction s as [|c s IH]; cbn; [done|].
  intros Hs. apply andb_prop in Hs as [Hc Hs]. rewrite (IH Hs).
  destruct (is_space c) eqn:Hsp; [|done].
  destruct c as [[] [] [] [] [] [] [] []]; vm_compute in Hsp, Hc; congruence.
Qed.

Lemma int_literal_pretty_pos (p : positive) :
  int_digits (pretty (N.pos p)) 0 false = Some (Z.pos p)
  /\ only_digits (pretty (N.pos p)) = true
  /\ pretty (N.pos p) <> "".
Proof.
  unfold pretty, pretty_N. rewrite decide_False by done.
  destruct (int_digits_pretty_go (N.pos p) "") as [k Hk].
  assert (Hd : only_digits (pretty_N_go (N.pos p) "") = true)
    by (by apply only_digits_pretty_go).
  repeat split; [|done|].
  - rewrite Hk. cbn. f_equal.
  - intros Hempty. specialize (Hk 0 false). rewrite Hempty in Hk. done.
Qed.

Lemma int_of_str_pretty (z : Z) : int_of_str (pretty z) = Ok z.
Proof.
  unfold int_of_str.
  destruct z as [|p|p]; [reflexivity|..];
    destruct (int_literal_pretty_pos p) as (Hv & Hd & Hne).
  - change (pretty (Z.pos p)) with (pretty (N.pos p)).
    rewrite int_strip_no_space by (by apply only_digits_no_space).
    destruct (pretty (N.pos p)) as [|c s] eqn:Hp; [done|].
    assert (Hc : is_digit c = true) by (cbn in Hd; by destruct (is_digit c)).
    unfold int_literal.
    destruct (is_digit_not_sign c Hc) as (-> & -> & _). by rewrite Hv.
  - change (pretty (Z.neg p)) with (String "-" (pretty (N.pos p))).
    rewrite int_strip_no_space
      by (cbn; by rewrite only_digits_no_space).
    cbn. by rewrite Hv.
Qed.

End IntText.

Lemma decode_int_text (s : string) :
  decode_against (PStr s) Tint
  = match int_literal (strip s) with
    | Some z => Ok (PInt z)
    | None =>
        Raise (ValueError ("invalid literal for int() with base 10: "
                           +:+ repr_str (strip s)))
    end.
Proof.
  unfold decode_against, int_of_str. cbn [py_str]. rewrite int_strip_strip.
  by destruct (int_literal (strip s)).
Qed.

Section IntGrammar.

Lemma grouped_digits_head (c : ascii) (s : string) :
  grouped_digits (String c s) -> is_digit c = true.
Proof. by inversion 1. Qed.

Lemma grouped_digits_cons (c : ascii) (s : string) :
  is_digit c = true ->
  (grouped_digits (String c s)
   <-> s = "" \/ grouped_digits s
       \/ exists s', s = String "_" s' /\ grouped_digits s').
Proof.
  intros Hc. split.
  - inversion 1; subst; eauto.
  - intros [->|[Hs|(s' & -> & Hs)]]; by constructor.
Qed.

Lemma is_digit_value (c : ascii) :
  is_digit c = true <-> is_Some (digit_value c).
Proof.
  unfold is_digit. destruct (digit_value c); split;
    first [done | by eexists | by intros [? ?]].
Qed.

(** [int_digits] reads exactly the grouped digits; after a digit it also
    accepts the end of the text and one underscore before more digits. *)
Lemma int_digits_grouped (s : string) :
  forall (acc : Z) (prev : bool) (z : Z),
    int_digits s acc prev = Some z
    <-> (grouped_digits s
         \/ prev = true
            /\ (s = "" \/ exists s', s = String "_" s' /\ grouped_digits s'))
        /\ z = decimal_from acc (without_underscores s).
Proof.
  induction s as [|c s IH]; intros acc prev z.
  - cbn. destruct prev; split.
    + intros [= <-]. split; [|done]. right. auto.
    + by intros [_ ->].
    + done.
    + intros [[Hg|[? _]] _]; [inversion Hg|done].
  - cbn [int_digits]. destruct (digit_value c) as [d|] eqn:Hd.
    + assert (Hc : is_digit c = true) by (apply is_digit_value; by eexists).
      destruct (is_digit_not_sign c Hc) as (_ & _ & Hu).
      cbn [without_underscores]. rewrite Hu. cbn [decimal_from]. rewrite Hd.
      unfold default. cbn [from_option id].
      rewrite IH, (grouped_digits_cons c s Hc).
      apply bool_decide_eq_false in Hu. naive_solver.
    + assert (Hc : is_digit c = false) by (unfold is_digit; by rewrite Hd).
      assert (Hng : ~ grouped_digits (String c s)).
      { intros Hg. apply grouped_digits_head in Hg. congruence. }
      destruct (bool_decide (c = "_"%char)) eqn:Hu; cbn [andb].
      * apply bool_decide_eq_true in Hu as ->.
        cbn [without_underscores]. rewrite bool_decide_eq_true_2 by done.
        destruct prev.
        -- rewrite IH. naive_solver.
        -- naive_solver.
      * apply bool_decide_eq_false in Hu. naive_solver.
Qed.

Lemma int_digits_start (s : string) (z : Z) :
  int_digits s 0 false = Some z
  <-> grouped_digits s /\ z = decimal (without_underscores s).
Proof.
  rewrite int_digits_grouped. unfold decimal. split.
  - intros [[Hg|[? _]] ->]; done.
  - intros [Hg ->]. split; [by left|done].
Qed.

(** What [int] accepts of a stripped text, and the value it gives. *)
Lemma int_literal_grammar (s : string) (z : Z) :
  int_literal s = Some z
  <-> exists body,
        grouped_digits body /\
        ((s = body \/ s = String "+" body)
         /\ z = decimal (without_underscores body)
         \/ s = String "-" body
            /\ z = - decimal (without_underscores body)).
Proof.
  destruct s as [|c s].
  { split; [done|]. intros (body & Hg & [[[<-|?] _]|[? _]]); try done.
    inversion Hg. }
  cbn [int_literal]. destruct (bool_decide (c = "-"%char)) eqn:Hm.
  { apply bool_decide_eq_true in Hm as ->. split.
    - destruct (int_digits s 0 false) as [z'|] eqn:Hs; [|done].
      intros [= <-]. apply int_digits_start in Hs as [Hg ->].
      exists s. auto.
    - intros (body & Hg & [[[<-|[=]] _]|[[= ->] ->]]).
      + apply grouped_digits_head in Hg. done.
      + by rewrite (proj2 (int_digits_start body _) (conj Hg eq_refl)). }
  destruct (bool_decide (c = "+"%char)) eqn:Hp.
  { apply bool_decide_eq_true in Hp as ->. rewrite int_digits_start. split.
    - intros [Hg ->]. exists s. auto.
    - intros (body & Hg & [[[<-|[= ->]] ->]|[[=] _]]); [|done].
      apply grouped_digits_head in Hg. done. }
  apply bool_decide_eq_false in Hm, Hp.
  rewrite int_digits_start. split.
  - intros [Hg ->]. exists (String c s). auto.
  - intros (body & Hg & [[[<-|[= -> _]] ->]|[[= -> _] _]]); done.
Qed.

End IntGrammar.

Lemma decode_int_grammar (s : string) (z : Z) :
  decode_against (PStr s) Tint = Ok (PInt z) <-> int_text s z.
Proof.
  rewrite decode_int_text. unfold int_text.
  rewrite <- int_literal_grammar.
  destruct (int_literal (strip s)); split; congruence.
Qed.

(** C9, as the code has it.  On a text within the interpreter's limit on
    digits, integer decoding accepts exactly: surrounding whitespace, an
    optional sign, then decimal digits in which single underscores may
    separate digits; the value is the number the digits write.  Every other
    such text raises [ValueError].  So base-10 signed text is accepted, what
    is accepted is base-10 signed text once the underscores are taken out,
    and for every 32-bit integer, decoding its decimal text gives the
    integer back, whose text is the text decoded. *)
Theorem int_decoding :
  (forall s z,
      (String.length s <= int_max_str_digits)%nat ->
      (decode_against (PStr s) Tint = Ok (PInt z) <-> int_text s z)) /\
  (forall s,
      (String.length s <= int_max_str_digits)%nat ->
      (forall z, ~ int_text s z) ->
      exists msg, decode_against (PStr s) Tint = Raise (ValueError msg)) /\
  (forall s,
      (String.length s <= int_max_str_digits)%nat ->
      base10_signed (strip s) = true ->
      is_ok (decode_against (PStr s) Tint) = true) /\
  (forall s, is_ok (decode_against (PStr s) Tint) = true ->
             base10_signed (without_underscores (strip s)) = true) /\
  (forall s, base10_signed (without_underscores (strip s)) = false ->
             exists msg, decode_against (PStr s) Tint = Raise (ValueError msg)) /\
  (forall n, - 2 ^ 31 <= n < 2 ^ 31 ->
             decode_against (PStr (pretty n)) Tint = Ok (PInt n) /\
             py_str <$> decode_against (PStr (pretty n)) Tint = Ok (pretty n)).
Proof.
  split; [|split; [|split; [|split; [|split]]]].
  - intros s z _. apply decode_int_grammar.
  - intros s _ Hno. rewrite decode_int_text.
    destruct (int_literal (strip s)) as [z|] eqn:Hz; [|eauto].
    exfalso. apply (Hno z). apply decode_int_grammar.
    rewrite decode_int_text. by rewrite Hz.
  - intros s _ Hs. rewrite decode_int_text.
    by destruct (base10_signed_accepted _ Hs) as [z ->].
  - intros s. rewrite decode_int_text.
    destruct (int_literal (strip s)) as [z|] eqn:Hz; [|done].
    intros _. by eapply accepted_base10_signed.
  - intros s Hs. rewrite decode_int_text.
    destruct (int_literal (strip s)) as [z|] eqn:Hz; [|eauto].
    apply accepted_base10_signed in Hz. congruence.
  - intros n _.
    assert (Hstrip : strip (pretty n) = pretty n).
    { destruct n as [|p|p]; [done|..];
        destruct (int_literal_pretty_pos p) as (_ & Hd & _).
      - by apply strip_no_space, only_digits_no_space.
      - change (pretty (Z.neg p)) with (String "-" (pretty (N.pos p))).
        apply strip_no_space. cbn. by rewrite only_digits_no_space. }
    unfold decode_against. cbn [py_str].
    rewrite Hstrip, int_of_str_pretty. by split.
Qed.

Lemma int_decoding_witness :
  decode_against (PStr " +42 ") Tint = Ok (PInt 42)
  /\ decode_against (PStr "1_000") Tint = Ok (PInt 1000)
  /\ (exists msg, decode_against (PStr "1__0") Tint = Raise (ValueError msg))
  /\ (exists msg, decode_against (PStr "_1") Tint = Raise (ValueError msg))
  /\ (exists msg, decode_against (PStr "1_") Tint = Raise (ValueError msg))
  /\ (exists msg, decode_against (PStr "+_5") Tint = Raise (ValueError msg))
  /\ (exists msg, decode_against (PStr "5.0") Tint = Raise (ValueError msg))
  /\ py_str <$> decode_against (PStr (pretty (-2147483648))) Tint
     = Ok "-2147483648".
Proof.
  destruct int_decoding as (Hexact & Hreject & _ & _ & _ & Hround).
  assert (Hshort : forall s,
             (String.length s <=? int_max_str_digits)%nat = true ->
             (String.length s <= int_max_str_digits)%nat)
    by (intros s; apply Nat.leb_le).
  assert (Hno : forall s, int_literal (strip s) = None ->
                          forall z, ~ int_text s z).
  { intros s Hs z Hz. apply int_literal_grammar in Hz. congruence. }
  split; [|split; [|split; [|split; [|split; [|split; [|split]]]]]].
  - apply Hexact; [by apply Hshort|]. exists "42". split; [|left; split; [by right|done]].
    by repeat constructor.
  - apply Hexact; [by apply Hshort|]. exists "1_000".
    split; [|left; split; [by left|done]].
    apply grouped_sep; [done|]. by repeat constructor.
  - apply Hreject; [by apply Hshort|by apply Hno].
  - apply Hreject; [by apply Hshort|by apply Hno].
  - apply Hreject; [by apply Hshort|by apply Hno].
  - apply Hreject; [by apply Hshort|by apply Hno].
  - apply Hreject; [by apply Hshort|by apply Hno].
  - apply (Hround (-2147483648)). lia.
Defined.

(** Underscores between digits are accepted, although text with an
    underscore is not base-10 signed text. *)
Lemma int_accepts_underscores : ~ int_accepts_exactly_base10.
Proof.
  intros Hexact. destruct (Hexact "1_0") as [Hacc _].
  specialize (Hacc eq_refl). vm_compute in Hacc. discriminate Hacc.
Qed.

Example int_of_str_examples :
  int_of_str " +1_000 " = Ok 1000 /\ int_of_str "-007" = Ok (-7) /\
  is_ok (int_of_str "1__0") = false /\ is_ok (int_of_str "5.0") = false /\
  is_ok (int_of_str "") = false /\ is_ok (int_of_str "- 5") = false /\
  is_ok (int_of_str "_1") = false /\ is_ok (int_of_str "1_") = false.
Proof. vm_compute. repeat split. Qed.

(** ** Ordered dictionaries *)

Section Dict.

Context {V : Type}.
Implicit Types (d : list (string * V)) (k : string) (v : V).

Lemma dict_get_set d k v k' :
  dict_get (dict_set d k v) k'
  = if bool_decide (k' = k) then Some v else dict_get d k'.
Proof.
  induction d as [|[k0 v0] d IH]; cbn.
  - reflexivity.
  - repeat (case_bool_decide; cbn); subst; congruence.
Qed.

Lemma dict_get_elem_of d k v : dict_get d k = Some v -> (k, v) ∈ d.
Proof.
  induction d as [|[k0 v0] d IH]; cbn; [done|].
  case_bool_decide; subst.
  - intros [= ->]. left.
  - intros Hd. right. auto.
Qed.

Lemma dict_keys_set d k v :
  NoDup (dict_keys d) -> NoDup (dict_keys (dict_set d k v)).
Proof.
  assert (Hin : forall d k0, k0 ∈ dict_keys (dict_set d k v) ->
                             k0 = k \/ k0 ∈ dict_keys d).
  { clear d. intros d k0. induction d as [|[k1 v1] d IH]; cbn.
    - rewrite list_elem_of_singleton. auto.
    - case_bool_decide; subst; cbn; rewrite !elem_of_cons; [tauto|].
      intros [->|Hk]; [tauto|]. destruct (IH Hk); tauto. }
  induction d as [|[k0 v0] d IH]; cbn.
  - intros _. apply NoDup_singleton.
  - rewrite NoDup_cons. intros [Hk0 Hd]. case_bool_decide; subst; cbn.
    + apply NoDup_cons. done.
    + apply NoDup_cons. split; [|auto].
      intros Hk. destruct (Hin _ _ Hk); subst; done.
Qed.

End Dict.

(** ** The topic tables *)

Section Topics.

Variable cfg : Config.

Local Abbreviation telemetry_topic := (telemetry_topic_of cfg).
Local Abbreviation control_topic := (control_topic_of cfg).

Lemma append_inj_r (p a b : string) : p +:+ a = p +:+ b -> a = b.
Proof. induction p as [|c p IH]; cbn; [done|]. intros [= Hp]. auto. Qed.

Lemma telemetry_topic_inj n1 n2 :
  telemetry_topic n1 = telemetry_topic n2 -> n1 = n2.
Proof.
  unfold telemetry_topic_of. intros Heq.
  apply append_inj_r in Heq. exact (append_inj_r "/opc/tele/" _ _ Heq).
Qed.

Lemma control_topic_inj n1 n2 :
  control_topic n1 = control_topic n2 -> n1 = n2.
Proof.
  unfold control_topic_of. intros Heq.
  apply append_inj_r in Heq. exact (append_inj_r "/opc/cmd/" _ _ Heq).
Qed.

Lemma control_telemetry_disjoint n1 n2 :
  control_topic n1 <> telemetry_topic n2.
Proof.
  unfold control_topic_of, telemetry_topic_of. intros Heq.
  apply append_inj_r in Heq. cbn in Heq. discriminate.
Qed.

(** The dict comprehension of [telemetry_topics]. *)
Lemma telemetry_comprehension (names : list string) (m0 : gmap string string)
    (name : string) :
  foldl (fun m n => <[n := telemetry_topic n]> m) m0 names !! name
  = if bool_decide (name ∈ names) then Some (telemetry_topic name)
    else m0 !! name.
Proof.
  revert m0. induction names as [|n names IH]; intros m0; cbn.
  - reflexivity.
  - rewrite IH. rewrite lookup_insert.
    repeat case_bool_decide; repeat case_decide; subst; try done;
      rewrite ?elem_of_cons in *; exfalso; intuition congruence.
Qed.

(** The dict comprehension of [control_topics]. *)
Lemma control_comprehension (names : list string)
    (d0 : list (string * string)) (name : string) :
  dict_get (foldl (fun d n => dict_set d n (control_topic n)) d0 names) name
  = if bool_decide (name ∈ names) then Some (control_topic name)
    else dict_get d0 name.
Proof.
  revert d0. induction names as [|n names IH]; intros d0; cbn.
  - reflexivity.
  - rewrite IH, dict_get_set.
    repeat case_bool_decide; subst; try done;
      rewrite ?elem_of_cons in *; exfalso; intuition congruence.
Qed.

Lemma control_comprehension_elem (names : list string)
    (d0 : list (string * string)) (kv : string * string) :
  kv ∈ foldl (fun d n => dict_set d n (control_topic n)) d0 names ->
  kv ∈ d0 \/ (fst kv ∈ names /\ snd kv = control_topic (fst kv)).
Proof.
  assert (Hset : forall d k v, kv ∈ dict_set d k v -> kv = (k, v) \/ kv ∈ d).
  { intros d k v. induction d as [|[k1 v1] d IH]; cbn.
    - rewrite list_elem_of_singleton. auto.
    - case_bool_decide; subst; rewrite !elem_of_cons; [tauto|].
      intros [->|Hk]; [tauto|]. destruct (IH Hk); tauto. }
  revert d0. induction names as [|n names IH]; intros d0; cbn; [auto|].
  intros Hin. destruct (IH _ Hin) as [Hd|[Hn Hv]].
  - destruct (Hset _ _ _ Hd) as [->|]; [|auto].
    right. cbn. split; [left|reflexivity].
  - right. split; [right|]; done.
Qed.

Lemma control_comprehension_NoDup (names : list string)
    (d0 : list (string * string)) :
  NoDup (dict_keys d0) ->
  NoDup (dict_keys (foldl (fun d n => dict_set d n (control_topic n)) d0 names)).
Proof.
  revert d0. induction names as [|n names IH]; intros d0 Hd; cbn; [done|].
  apply IH, dict_keys_set, Hd.
Qed.

(** The inverse comprehension of [topic_to_name]. *)
Lemma inverse_comprehension (l : list (string * string))
    (m0 : gmap string string) (t n : string) :
  (forall n', (n', t) ∈ l -> n' = n) ->
  (n, t) ∈ l \/ (m0 !! t = Some n /\ forall n', (n', t) ∉ l) \/
  (m0 !! t = Some n) ->
  foldl (fun m kv => <[snd kv := fst kv]> m) m0 l !! t = Some n.
Proof.
  revert m0. induction l as [|[k v] l IH]; intros m0 Huniq Hor; cbn.
  - destruct Hor as [Hin|[[? _]|?]]; [|done..]. by apply elem_of_nil in Hin.
  - apply IH.
    + intros n' Hn'. apply Huniq. by right.
    + destruct (decide (v = t)) as [->|Hne].
      * right. right. rewrite lookup_insert_eq. f_equal.
        apply Huniq. left.
      * rewrite lookup_insert_ne by done.
        destruct Hor as [Hin|[[? _]|?]]; [|auto..].
        apply elem_of_cons in Hin as [[= -> ->]|Hin]; [done|auto].
Qed.

Lemma inverse_comprehension_Some (l : list (string * string))
    (m0 : gmap string string) (t n : string) :
  foldl (fun m kv => <[snd kv := fst kv]> m) m0 l !! t = Some n ->
  (n, t) ∈ l \/ m0 !! t = Some n.
Proof.
  revert m0. induction l as [|[k v] l IH]; intros m0; cbn; [auto|].
  intros Hl. destruct (IH _ Hl) as [Hin|Hm].
  - left. by right.
  - rewrite lookup_insert in Hm. case_decide; subst.
    + injection Hm as ->. left. left.
    + auto.
Qed.

Lemma telemetry_topics_init (name : string) :
  telemetry_topics (init cfg) !! name
  = if bool_decide (name ∈ dict_keys (NODES_SPEC cfg))
    then Some (telemetry_topic name) else None.
Proof. cbn. rewrite telemetry_comprehension, lookup_empty. reflexivity. Qed.

Lemma control_topics_init (name : string) :
  dict_get (control_topics (init cfg)) name
  = if bool_decide (name ∈ dict_keys (NODES_SPEC cfg))
    then Some (control_topic name) else None.
Proof. cbn. rewrite control_comprehension. reflexivity. Qed.

Lemma topic_to_name_init (topic name : string) :
  topic_to_name (init cfg) !! topic = Some name <->
  name ∈ dict_keys (NODES_SPEC cfg) /\ topic = control_topic name.
Proof.
  cbn. split.
  - intros Hl. apply inverse_comprehension_Some in Hl as [Hin|Hl].
    + apply control_comprehension_elem in Hin as [Hin|Hin]; [|done].
      by apply elem_of_nil in Hin.
    + by rewrite lookup_empty in Hl.
  - intros [Hn ->]. apply inverse_comprehension.
    + intros n' Hn'.
      apply control_comprehension_elem in Hn' as [Hn'|[_ Hn']].
      * by apply elem_of_nil in Hn'.
      * cbn in Hn'. symmetry. by apply control_topic_inj.
    + left. apply dict_get_elem_of. rewrite control_comprehension.
      by rewrite bool_decide_eq_true_2.
Qed.

Lemma topic_to_name_in_spec (topic name : string) :
  topic_to_name (init cfg) !! topic = Some name ->
  exists spec, dict_item (NODES_SPEC cfg) name = Ok spec.
Proof.
  rewrite topic_to_name_init. intros [Hn _]. unfold dict_item, dict_keys in *.
  induction (NODES_SPEC cfg) as [|[k v] l IH]; cbn in *.
  - by apply elem_of_nil in Hn.
  - case_bool_decide; [eauto|].
    apply elem_of_cons in Hn as [?|Hn]; [done|auto].
Qed.

End Topics.

(** C7. For every configuration: the telemetry topics and the control
    topics are injective in the friendly name, every friendly name of
    [NODES_SPEC] has its one telemetry topic and its one control topic, and
    no control topic equals a telemetry topic. *)
Theorem topic_bindings_injective (cfg : Config) :
  let b := init cfg in
  (forall n1 n2 t,
      telemetry_topics b !! n1 = Some t -> telemetry_topics b !! n2 = Some t ->
      n1 = n2) /\
  (forall n1 n2 t,
      dict_get (control_topics b) n1 = Some t ->
      dict_get (control_topics b) n2 = Some t -> n1 = n2) /\
  (forall name,
      name ∈ dict_keys (NODES_SPEC cfg) ->
      telemetry_topics b !! name = Some (MQTT_ROOT cfg +:+ "/opc/tele/" +:+ name) /\
      dict_get (control_topics b) name
      = Some (MQTT_ROOT cfg +:+ "/opc/cmd/" +:+ name)) /\
  NoDup (dict_keys (control_topics b)) /\
  (forall n1 n2 t1 t2,
      dict_get (control_topics b) n1 = Some t1 ->
      telemetry_topics b !! n2 = Some t2 -> t1 <> t2).
Proof.
  intros b. subst b. repeat split.
  - intros n1 n2 t. rewrite !telemetry_topics_init.
    repeat case_bool_decide; try done.
    intros [= <-] [= Heq]. symmetry. by eapply telemetry_topic_inj.
  - intros n1 n2 t. rewrite !control_topics_init.
    repeat case_bool_decide; try done.
    intros [= <-] [= Heq]. symmetry. by eapply control_topic_inj.
  - rewrite telemetry_topics_init. by rewrite bool_decide_eq_true_2.
  - rewrite control_topics_init. by rewrite bool_decide_eq_true_2.
  - cbn. apply control_comprehension_NoDup. cbn. apply NoDup_nil_2.
  - intros n1 n2 t1 t2. rewrite control_topics_init, telemetry_topics_init.
    repeat case_bool_decide; try done.
    intros [= <-] [= <-]. apply control_telemetry_disjoint.
Qed.

Lemma topic_bindings_injective_witness :
  telemetry_topics (init default_config) !! "S1" = Some "imhotep/opc/tele/S1"
  /\ dict_get (control_topics (init default_config)) "S1"
     = Some "imhotep/opc/cmd/S1".
Proof.
  pose proof (topic_bindings_injective default_config) as Hbind.
  cbv zeta in Hbind. destruct Hbind as (_ & _ & Hhas & _ & _).
  apply (Hhas "S1"). apply (list_elem_of_lookup_2 _ 7%nat). reflexivity.
Defined.

(** ** Rules for the methods *)

Global Instance same_on_preorder {X} (f : Bridge -> X) : PreOrder (same_on f).
Proof.
  split.
  - intros b. reflexivity.
  - intros b1 b2 b3 H12 H23. unfold same_on in *. congruence.
Qed.

Ltac one_step :=
  cbn; rewrite ?app_nil_r;
  split; [reflexivity|];
  split; [first [assumption | reflexivity] | repeat constructor; assumption].

Section Rules.

Context (R : relation Bridge) `{!PreOrder R} (Q : event -> Prop).
Implicit Types (b : Bridge) (log : list event).

Lemma runs_ret {A} b (a : A) : runs R Q b (mret a : M A).
Proof. intros log. exists b, []. one_step. Qed.

Lemma runs_lift {A} b (r : result A) : runs R Q b (lift r).
Proof. intros log. exists b, []. one_step. Qed.

Lemma runs_print b d : Q (Print d) -> runs R Q b (print d).
Proof. intros Hd log. exists b, [Print d]. one_step. Qed.

Lemma runs_invoke {A} b c (outcome : list event -> result A) :
  Q (Call c) -> runs R Q b (invoke c outcome).
Proof. intros Hc log. exists b, [Call c]. one_step. Qed.

Lemma runs_modify_self b f : R b (f b) -> runs R Q b (modify_self f).
Proof. intros Hf log. exists (f b), []. one_step. Qed.

Lemma runs_bind {A B} b (m : M A) (f : A -> M B) :
  runs R Q b m -> (forall a b', R b b' -> runs R Q b' (f a)) ->
  runs R Q b (m ≫= f).
Proof.
  intros Hm Hf log. destruct (Hm log) as (b1 & new & Hlog & HR & Hnew).
  unfold mbind, M_bind. destruct (m (b, log)) as [[a|e] st'];
    cbn in Hlog; subst st'.
  - destruct (Hf a b1 HR (log ++ new)) as (b2 & new' & Hlog' & HR' & Hnew').
    exists b2, (new ++ new'). rewrite Hlog', app_assoc.
    split; [done|]. split; [by etrans|by apply Forall_app].
  - exists b1, new. done.
Qed.

(** [self] is the bridge the method runs on. *)
Lemma runs_get_self {B} b (f : Bridge -> M B) :
  runs R Q b (f b) -> runs R Q b (get_self ≫= f).
Proof. intros Hf log. exact (Hf log). Qed.

Lemma runs_lift_bind {A B} b (r : result A) (f : A -> M B) :
  (forall a, r = Ok a -> runs R Q b (f a)) -> runs R Q b (lift r ≫= f).
Proof.
  intros Hf log. unfold mbind, M_bind, lift. destruct r as [a|e].
  - exact (Hf a eq_refl log).
  - exists b, []. one_step.
Qed.

Lemma runs_try_except {A} b (m : M A) (h : exn -> M A) :
  runs R Q b m -> (forall e b', R b b' -> runs R Q b' (h e)) ->
  runs R Q b (try_except m h).
Proof.
  intros Hm Hh log. destruct (Hm log) as (b1 & new & Hlog & HR & Hnew).
  unfold try_except. destruct (m (b, log)) as [[a|e] st'];
    cbn in Hlog; subst st'.
  - exists b1, new. done.
  - destruct (Hh e b1 HR (log ++ new)) as (b2 & new' & Hlog' & HR' & Hnew').
    exists b2, (new ++ new'). rewrite Hlog', app_assoc.
    split; [done|]. split; [by etrans|by apply Forall_app].
Qed.

Lemma runs_try_finally {A} b (m : M A) (final : M unit) :
  runs R Q b m -> (forall b', R b b' -> runs R Q b' final) ->
  runs R Q b (try_finally m final).
Proof.
  intros Hm Hf log. destruct (Hm log) as (b1 & new & Hlog & HR & Hnew).
  unfold try_finally. destruct (m (b, log)) as [r st'];
    cbn in Hlog; subst st'.
  destruct (Hf b1 HR (log ++ new)) as (b2 & new' & Hlog' & HR' & Hnew').
  exists b2, (new ++ new').
  destruct (final (b1, log ++ new)) as [[[]|e] st'']; cbn in Hlog'; subst st'';
    cbn; rewrite app_assoc;
    (split; [done|]; split; [by etrans|by apply Forall_app]).
Qed.

Lemma runs_for_each {X} b (l : list X) (body : X -> M unit) :
  (forall x b', R b b' -> runs R Q b' (body x)) ->
  runs R Q b (for_each l body).
Proof.
  revert b. induction l as [|x l IH]; intros b Hbody; cbn [for_each].
  - apply runs_ret.
  - apply runs_bind; [by apply Hbody|]. intros _ b' Hb'. apply IH.
    intros y b'' Hb''. apply Hbody. by etrans.
Qed.

Lemma raises_bind_l {A B} b (m : M A) (f : A -> M B) :
  raises R Q b m -> raises R Q b (m ≫= f).
Proof.
  intros Hm log. destruct (Hm log) as (e & b1 & new & Hrun & HR & Hnew).
  unfold mbind, M_bind. rewrite Hrun. by exists e, b1, new.
Qed.

Lemma raises_bind_r {A B} b (m : M A) (f : A -> M B) :
  runs R Q b m -> (forall a b', R b b' -> raises R Q b' (f a)) ->
  raises R Q b (m ≫= f).
Proof.
  intros Hm Hf log. destruct (Hm log) as (b1 & new & Hlog & HR & Hnew).
  unfold mbind, M_bind. destruct (m (b, log)) as [[a|e] st'];
    cbn in Hlog; subst st'.
  - destruct (Hf a b1 HR (log ++ new)) as (e & b2 & new' & Hrun & HR' & Hnew').
    exists e, b2, (new ++ new'). rewrite Hrun, app_assoc.
    split; [done|]. split; [by etrans|by apply Forall_app].
  - by exists e, b1, new.
Qed.

Lemma raises_for_each {X} b (l : list X) (body : X -> M unit) (x : X) :
  x ∈ l ->
  (forall y b', R b b' -> runs R Q b' (body y)) ->
  (forall b', R b b' -> raises R Q b' (body x)) ->
  raises R Q b (for_each l body).
Proof.
  intros Hx. revert b. induction l as [|y l IH]; intros b Hbody Hraise;
    cbn [for_each].
  - by apply elem_of_nil in Hx.
  - apply elem_of_cons in Hx as [<-|Hx].
    + by apply raises_bind_l, Hraise.
    + apply raises_bind_r; [by apply Hbody|]. intros _ b' Hb'.
      apply IH; [done|..].
      * intros z b'' Hb''. apply Hbody. by etrans.
      * intros b'' Hb''. apply Hraise. by etrans.
Qed.

End Rules.

(** Apply a rule and settle its side condition on the relation. *)
Ltac rule lem := first [apply lem; [typeclasses eauto | ..] | apply lem].

(** ** The message handler *)

Ltac run_M :=
  unfold mqtt_publish, library_call, invoke, print, lift, get_self,
    modify_self, try_except, try_finally, mbind, M_bind, mret, M_ret;
  cbn [fst snd].

Section OnMessage.

Context `{TextLib} `{Env} (cfg : Config).
Implicit Types (b : Bridge) (log : list event).

Lemma on_message_no_topic b log topic payload :
  topic_to_name b !! topic = None ->
  on_message cfg topic payload (b, log) = (Ok tt, (b, log)).
Proof. intros Hno. unfold on_message. run_M. rewrite Hno. reflexivity. Qed.

Lemma on_message_no_node b log topic payload name spec :
  topic_to_name b !! topic = Some name ->
  dict_item (NODES_SPEC cfg) name = Ok spec ->
  dict_get (nodes b) name = None ->
  on_message cfg topic payload (b, log)
  = (Ok tt, (b, log ++ [Print (DNodeNotReady name)])).
Proof.
  intros Ht Hs Hn. unfold on_message. run_M. rewrite Ht. run_M.
  rewrite Hs, Hn. reflexivity.
Qed.

Lemma on_message_write b log topic payload name spec node :
  topic_to_name b !! topic = Some name ->
  dict_item (NODES_SPEC cfg) name = Ok spec ->
  dict_get (nodes b) name = Some node ->
  on_message cfg topic payload (b, log)
  = write_block name (snd spec) node payload (b, log).
Proof.
  intros Ht Hs Hn. unfold on_message. run_M. rewrite Ht. run_M.
  rewrite Hs, Hn. reflexivity.
Qed.

Lemma write_block_ok name ty node payload b log :
  fst (write_block name ty node payload (b, log)) = Ok tt.
Proof.
  unfold write_block. run_M.
  destruct (parse_incoming_payload payload ty) as [value|e]; [|reflexivity].
  destruct (variant_for value ty) as [v|e]; [|reflexivity].
  destruct (env_unit log _) as [[]|e]; reflexivity.
Qed.

End OnMessage.

(** C5. A message whose topic is not a control topic of the configuration
    is dropped: the handler returns normally, the bridge object is unchanged
    and nothing is logged (no write, no diagnostic). *)
Theorem on_message_unknown_topic `{TextLib} `{Env} (cfg : Config)
    (b : Bridge) (log : list event) (topic : string)
    (payload : list Byte.byte) :
  topic_to_name b = topic_to_name (init cfg) ->
  (forall name, name ∈ dict_keys (NODES_SPEC cfg) ->
                topic <> MQTT_ROOT cfg +:+ "/opc/cmd/" +:+ name) ->
  on_message cfg topic payload (b, log) = (Ok tt, (b, log)).
Proof.
  intros Hb Hno. apply on_message_no_topic. rewrite Hb.
  destruct (topic_to_name (init cfg) !! topic) as [name|] eqn:Hl; [|done].
  apply topic_to_name_init in Hl as [Hin ->]. by destruct (Hno name Hin).
Qed.

Lemma on_message_unknown_topic_witness :
  @on_message Reference.text_lib Reference.env_ok default_config
    "factory/line1/speed" (Reference.encode_ascii "true")
    (init default_config, [])
  = (Ok tt, (init default_config, [])).
Proof.
  apply on_message_unknown_topic.
  - reflexivity.
  - intros name _. cbn. discriminate.
Defined.

(** C10. A message on a control topic whose variable has no entry in
    [nodes] leaves one diagnostic line and nothing else: no write, no error,
    the bridge object unchanged. *)
Theorem on_message_node_not_ready `{TextLib} `{Env} (cfg : Config)
    (b : Bridge) (log : list event) (topic name : string)
    (payload : list Byte.byte) :
  topic_to_name b = topic_to_name (init cfg) ->
  topic_to_name b !! topic = Some name ->
  dict_get (nodes b) name = None ->
  on_message cfg topic payload (b, log)
  = (Ok tt, (b, log ++ [Print (DNodeNotReady name)])).
Proof.
  intros Hb Ht Hn. rewrite Hb in Ht.
  destruct (topic_to_name_in_spec _ _ _ Ht) as [spec Hs].
  rewrite <- Hb in Ht. eapply on_message_no_node; eauto.
Qed.

Lemma on_message_node_not_ready_witness :
  @on_message Reference.text_lib Reference.env_ok default_config
    "imhotep/opc/cmd/SetpNo" (Reference.encode_ascii "5")
    (init default_config, [])
  = (Ok tt, (init default_config, [Print (DNodeNotReady "SetpNo")])).
Proof.
  apply (on_message_node_not_ready default_config (init default_config) []).
  - reflexivity.
  - vm_compute. reflexivity.
  - reflexivity.
Defined.

(** C6. On a recognised control topic nothing leaves the handler: it
    returns normally whatever happens.  When the payload does not decode,
    the only effect is the diagnostic line carrying the error; when the
    server rejects the write, the effects are the attempted write and the
    diagnostic line.  The bridge object is unchanged in both cases. *)
Theorem on_message_catches `{TextLib} `{Env} (cfg : Config)
    (b : Bridge) (log : list event) (topic name : string)
    (payload : list Byte.byte) (node : Node) :
  topic_to_name b = topic_to_name (init cfg) ->
  topic_to_name b !! topic = Some name ->
  dict_get (nodes b) name = Some node ->
  exists nid expected_type,
    dict_get (NODES_SPEC cfg) name = Some (nid, expected_type) /\
    fst (on_message cfg topic payload (b, log)) = Ok tt /\
    (forall e,
        parse_incoming_payload payload expected_type = Raise e ->
        on_message cfg topic payload (b, log)
        = (Ok tt, (b, log ++ [Print (DWriteError name e)]))) /\
    (forall value v e,
        parse_incoming_payload payload expected_type = Ok value ->
        variant_for value expected_type = Ok v ->
        let dv := {| dv_Value := v; dv_SourceTimestamp := None;
                     dv_ServerTimestamp := None |} in
        env_unit log (NodeSetValue node dv) = Raise e ->
        on_message cfg topic payload (b, log)
        = (Ok tt, (b, log ++ [Call (NodeSetValue node dv);
                              Print (DWriteError name e)]))).
Proof.
  intros Hb Ht Hn. pose proof Ht as Ht'. rewrite Hb in Ht'.
  destruct (topic_to_name_in_spec _ _ _ Ht') as [[nid ty] Hs].
  exists nid, ty. rewrite (on_message_write cfg b log topic payload name _ node Ht Hs Hn).
  cbn [snd]. repeat split.
  - unfold dict_item in Hs. destruct (dict_get (NODES_SPEC cfg) name); congruence.
  - apply write_block_ok.
  - intros e He. unfold write_block. run_M. rewrite He. reflexivity.
  - intros value v e Hv Hvar Hw. unfold write_block. run_M.
    rewrite Hv, Hvar, Hw. cbn. by rewrite <- app_assoc.
Qed.

(** The handler never raises, on any topic. *)
Lemma on_message_never_raises `{TextLib} `{Env} (cfg : Config)
    (b : Bridge) (log : list event) (topic : string)
    (payload : list Byte.byte) :
  topic_to_name b = topic_to_name (init cfg) ->
  fst (on_message cfg topic payload (b, log)) = Ok tt.
Proof.
  intros Hb. destruct (topic_to_name b !! topic) as [name|] eqn:Ht.
  - pose proof Ht as Ht'. rewrite Hb in Ht'.
    destruct (topic_to_name_in_spec _ _ _ Ht') as [spec Hs].
    destruct (dict_get (nodes b) name) as [node|] eqn:Hn.
    + rewrite (on_message_write cfg b log topic payload name _ node Ht Hs Hn).
      apply write_block_ok.
    + by rewrite (on_message_no_node cfg b log topic payload name spec).
  - by rewrite on_message_no_topic.
Qed.

(** On the started bridge, a payload that is no integer and a rejected
    write both end in a diagnostic line. *)
Lemma on_message_catches_witness :
  let node := Reference.node_of ("ns=3;s=" +:+ quoted "DB_OP" +:+ "."
                                 +:+ quoted "SetpNo") in
  let dv := {| dv_Value := {| variant_value := PInt 5;
                              variant_type := Some VtInt32 |};
               dv_SourceTimestamp := None; dv_ServerTimestamp := None |} in
  @on_message Reference.text_lib Reference.env_write_fails default_config
    "imhotep/opc/cmd/SetpNo" (Reference.encode_ascii "abc")
    (Reference.started, [])
  = (Ok tt, (Reference.started,
             [Print (DWriteError "SetpNo"
                (ValueError "invalid literal for int() with base 10: 'abc'"))]))
  /\ @on_message Reference.text_lib Reference.env_write_fails default_config
       "imhotep/opc/cmd/SetpNo" (Reference.encode_ascii "5")
       (Reference.started, [])
     = (Ok tt, (Reference.started,
                [Call (NodeSetValue node dv);
                 Print (DWriteError "SetpNo" (LibError "BadTypeMismatch"))])).
Proof.
  intros node dv. split.
  - destruct (@on_message_catches Reference.text_lib Reference.env_write_fails
                default_config Reference.started [] "imhotep/opc/cmd/SetpNo"
                "SetpNo" (Reference.encode_ascii "abc") node)
      as (nid & ty & Hs & _ & Hdecode & _);
      [vm_compute; reflexivity..|].
    vm_compute in Hs. injection Hs as <- <-.
    apply (Hdecode (ValueError "invalid literal for int() with base 10: 'abc'")).
    vm_compute. reflexivity.
  - destruct (@on_message_catches Reference.text_lib Reference.env_write_fails
                default_config Reference.started [] "imhotep/opc/cmd/SetpNo"
                "SetpNo" (Reference.encode_ascii "5") node)
      as (nid & ty & Hs & _ & _ & Hwrite);
      [vm_compute; reflexivity..|].
    vm_compute in Hs. injection Hs as <- <-.
    apply (Hwrite (PInt 5) _ (LibError "BadTypeMismatch"));
      vm_compute; reflexivity.
Defined.

(** ** Telemetry *)

Section Telemetry.

Context `{Env} (cfg : Config).
Implicit Types (b : Bridge) (log : list event).

Lemma datachange_events b log node val data :
  exists new,
    snd (datachange_notification cfg node val data (b, log)) = (b, log ++ new)
    /\ Forall (change_event cfg b val) new.
Proof.
  unfold datachange_notification. run_M.
  set (name := default (node_str node) (nodeid_to_name b !! nodeid_to_string node)).
  set (ts := match match ServerTimestamp data with
                   | Some t => Some t
                   | None => SourceTimestamp data
                   end with
             | Some t => PStr (isoformat t)
             | None => PNone
             end).
  assert (Hts : ts = PNone \/ exists t, ts = PStr (isoformat t)).
  { subst ts. destruct (ServerTimestamp data), (SourceTimestamp data); eauto. }
  destruct (telemetry_topics b !! name) as [topic|] eqn:Htopic.
  - case_bool_decide.
    + exists []. by rewrite app_nil_r.
    + run_M. destruct (json_dumps _) as [payload|e] eqn:Hp.
      * assert (Hpub : change_event cfg b val
                         (Call (MqttPublish topic payload 1 (MQTT_RETAIN cfg)))).
        { cbn. repeat split. exists name, ts. done. }
        destruct (env_unit log _) as [[]|e].
        -- exists [Call (MqttPublish topic payload 1 (MQTT_RETAIN cfg));
                   Print (DPublished name val topic)].
           cbn. rewrite <- app_assoc. split; [done|].
           constructor; [exact Hpub|]. constructor; [cbn; eauto|].
           constructor.
        -- exists [Call (MqttPublish topic payload 1 (MQTT_RETAIN cfg))].
           cbn. split; [done|]. constructor; [exact Hpub|]. constructor.
      * exists []. by rewrite app_nil_r.
  - exists []. by rewrite app_nil_r.
Qed.


Lemma snapshot_events b :
  runs eq (snapshot_event cfg b) b (publish_initial_snapshot cfg).
Proof.
  unfold publish_initial_snapshot. apply runs_get_self.
  rule runs_bind; [|intros _ ? <-; by rule runs_print].
  rule runs_for_each. intros [name node] ? <-. cbn [fst snd].
  rule runs_bind.
  - rule runs_try_except; [by rule runs_invoke|].
    intros e ? <-. rule runs_ret.
  - intros val ? <-. apply runs_get_self.
    destruct (telemetry_topics b !! name) as [topic|] eqn:Htopic;
      [|rule runs_ret].
    case_bool_decide; [rule runs_ret|].
    rule runs_lift_bind. intros payload Hp. rule runs_invoke.
    cbn. repeat split. exists name, val. done.
Qed.

End Telemetry.

Lemma datachange_S1 `{Env} (b : Bridge) (log : list event) (node : Node)
    (data : DataChange) :
  telemetry_topics b = telemetry_topics (init default_config) ->
  nodeid_to_name b !! nodeid_to_string node = Some "S1" ->
  let publish :=
    MqttPublish "imhotep/opc/tele/S1"
      ("{" +:+ quoted "name" +:+ ": " +:+ quoted "S1" +:+ ", "
       +:+ quoted "value" +:+ ": true, "
       +:+ quoted "ts" +:+ ": " +:+ ts_text data +:+ "}") 1 false in
  snd (datachange_notification default_config node (PBool true) data (b, log))
  = (b, log ++ Call publish
          :: (if is_ok (env_unit log publish)
              then [Print (DPublished "S1" (PBool true) "imhotep/opc/tele/S1")]
              else [])).
Proof.
  intros Hb Hname publish. unfold datachange_notification. run_M.
  rewrite Hname, Hb. unfold default. cbn [from_option id].
  replace (telemetry_topics (init default_config) !! "S1")
    with (Some "imhotep/opc/tele/S1") by (vm_compute; reflexivity).
  rewrite bool_decide_eq_false_2 by discriminate. run_M.
  assert (Hp : json_dumps
                 (PDict [("name", PStr "S1"); ("value", PBool true);
                         ("ts", match match ServerTimestamp data with
                                      | Some t => Some t
                                      | None => SourceTimestamp data
                                      end with
                                | Some t => PStr (isoformat t)
                                | None => PNone
                                end)])
               = Ok ("{" +:+ quoted "name" +:+ ": " +:+ quoted "S1" +:+ ", "
                     +:+ quoted "value" +:+ ": true, "
                     +:+ quoted "ts" +:+ ": " +:+ ts_text data +:+ "}")).
  { unfold ts_text.
    destruct (ServerTimestamp data) as [[s]|], (SourceTimestamp data) as [[s']|];
      vm_compute; reflexivity. }
  rewrite Hp. change (MQTT_RETAIN default_config) with false. fold publish.
  destruct (env_unit log publish) as [[]|e]; cbn; by rewrite <- ?app_assoc.
Qed.

(** C8. A change notification only publishes the JSON object with the
    members [name], [value] and [ts], where [ts] is an ISO time stamp or
    null, on the telemetry topic of the variable; the initial snapshot only
    publishes that object extended with [initial] set to true and [ts]
    null; and a change of [S1] to [True] makes exactly one library call,
    the publish on [imhotep/opc/tele/S1] of the object whose [name] is
    [S1] and whose [value] is true. *)
Theorem telemetry_payloads `{Env} (cfg : Config) (b : Bridge)
    (log : list event) (node : Node) (val : pyval) (data : DataChange) :
  (exists new,
      snd (datachange_notification cfg node val data (b, log)) = (b, log ++ new)
      /\ Forall (change_event cfg b val) new) /\
  (exists new,
      snd (publish_initial_snapshot cfg (b, log)) = (b, log ++ new)
      /\ Forall (snapshot_event cfg b) new) /\
  (telemetry_topics b = telemetry_topics (init default_config) ->
   nodeid_to_name b !! nodeid_to_string node = Some "S1" ->
   exists new,
     snd (datachange_notification default_config node (PBool true) data (b, log))
     = (b, log ++ new) /\
     calls_of new
     = [MqttPublish "imhotep/opc/tele/S1"
          ("{" +:+ quoted "name" +:+ ": " +:+ quoted "S1" +:+ ", "
           +:+ quoted "value" +:+ ": true, "
           +:+ quoted "ts" +:+ ": " +:+ ts_text data +:+ "}") 1 false]).
Proof.
  split; [apply datachange_events|]. split.
  { destruct (snapshot_events cfg b log) as (b' & new & Hrun & <- & Hnew).
    by exists new. }
  intros Hb Hname. eexists. split; [apply datachange_S1; assumption|].
  cbn. destruct (is_ok _); reflexivity.
Qed.

Lemma telemetry_payloads_witness :
  calls_of (snd (snd (@datachange_notification Reference.env_ok default_config
                        (Reference.node_of Reference.s1_address) (PBool true)
                        {| ServerTimestamp := None; SourceTimestamp := None |}
                        (Reference.started, []))))
  = [MqttPublish "imhotep/opc/tele/S1"
       ("{" +:+ quoted "name" +:+ ": " +:+ quoted "S1" +:+ ", "
        +:+ quoted "value" +:+ ": true, " +:+ quoted "ts" +:+ ": null}") 1 false].
Proof.
  destruct (proj2 (proj2 (@telemetry_payloads Reference.env_ok default_config
                            Reference.started []
                            (Reference.node_of Reference.s1_address) (PBool true)
                            {| ServerTimestamp := None; SourceTimestamp := None |})))
    as (new & Hrun & Hcalls).
  - vm_compute. reflexivity.
  - vm_compute. reflexivity.
  - rewrite Hrun. cbn [snd app]. exact Hcalls.
Defined.

(** ** Startup *)

(** C4, as the code has it.  When the address of a variable of
    [NODES_SPEC] does not resolve, [start] raises: it stops during node
    resolution, so no subscription is created, no variable is subscribed
    and no snapshot is published. *)
Theorem start_aborts_on_bad_address `{Env} (cfg : Config)
    (name nid : string) (ty : py_type) (e : exn) :
  (name, (nid, ty)) ∈ NODES_SPEC cfg ->
  (forall log, env_get_node log nid = Raise e) ->
  forall b log, exists e' b' new,
    start cfg (b, log) = (Raise e', (b', log ++ new)) /\
    (subscription b' = subscription b /\ sub_handles b' = sub_handles b) /\
    Forall resolution_phase_event new.
Proof.
  intros Hin Hbad b log.
  cut (raises (same_on subscriptions) resolution_phase_event b (start cfg)).
  { intros Hr. destruct (Hr log) as (e' & b' & new & Hrun & Hsub & Hnew).
    exists e', b', new. injection Hsub as Hs Hh. done. }
  unfold start, library_call.
  repeat (rule raises_bind_r;
          [first [by rule runs_invoke | by rule runs_print]|intros _ ? _]).
  apply raises_bind_l.
  eapply raises_for_each; [typeclasses eauto | exact Hin | |].
  - intros item ? _. rule runs_bind; [by rule runs_invoke|].
    intros node ? _. rule runs_bind; [by rule runs_modify_self|].
    intros _ ? _. by rule runs_modify_self.
  - intros bx _. apply raises_bind_l. intros log'.
    exists e, bx, [Call (OpcGetNode nid)]. unfold invoke. cbn. rewrite Hbad.
    repeat split. by repeat constructor.
Qed.

Lemma start_aborts_on_bad_address_witness :
  exists e' b' new,
    @start (Reference.env_bad_address Reference.actno_address)
      default_config (init default_config, [])
    = (Raise e', (b', [] ++ new)) /\
    (subscription b' = None /\ sub_handles b' = []) /\
    Forall resolution_phase_event new.
Proof.
  apply (@start_aborts_on_bad_address
           (Reference.env_bad_address Reference.actno_address) default_config
           "ActNo" Reference.actno_address Tint (LibError "bad node id")).
  - apply (list_elem_of_lookup_2 _ 1%nat). reflexivity.
  - intros log. vm_compute. reflexivity.
Defined.

(** With the address of [ActNo] unresolvable, [start] raises: startup as
    the specification words it fails on the configuration of the script. *)
Lemma start_aborts_on_actno :
  ~ @start_survives_bad_address
      (Reference.env_bad_address Reference.actno_address) default_config "ActNo".
Proof. intros [Hok _]. vm_compute in Hok. discriminate Hok. Qed.

Example start_with_bad_actno :
  let r := @start (Reference.env_bad_address Reference.actno_address)
             default_config (init default_config, []) in
  fst r = Raise (LibError "bad node id") /\
  dict_keys (nodes (fst (snd r))) = ["AcknFault"] /\
  subscription (fst (snd r)) = None /\
  calls_of (snd (snd r))
  = [MqttConnect (MQTT_BROKER default_config) 8884 60; MqttLoopForever;
     OpcConnect "opc.tcp://192.168.1.30:4840";
     OpcGetNode ("ns=3;s=" +:+ quoted "DB_OP" +:+ "." +:+ quoted "AcknFault");
     OpcGetNode Reference.actno_address].
Proof. vm_compute. repeat split. Qed.

(** ** Shutdown *)

Section Stop.

Context `{Env} (cfg : Config).
Implicit Types (b : Bridge) (log : list event).

Lemma unsubscribe_all (l : list Z) b log :
  for_each l (fun h =>
    try_except (library_call (Unsubscribe h)) (fun _ => mret tt)) (b, log)
  = (Ok tt, (b, log ++ map (fun h => Call (Unsubscribe h)) l)).
Proof.
  revert log. induction l as [|h l IH]; intros log; cbn [for_each map].
  - run_M. by rewrite app_nil_r.
  - run_M. destruct (env_unit log (Unsubscribe h)) as [[]|e];
      rewrite IH; by rewrite <- app_assoc.
Qed.

Lemma calls_of_app l1 l2 : calls_of (l1 ++ l2) = calls_of l1 ++ calls_of l2.
Proof. apply omap_app. Qed.

Lemma calls_of_unsubscribe (l : list Z) :
  calls_of (map (fun h => Call (Unsubscribe h)) l) = map Unsubscribe l.
Proof. induction l as [|h l IH]; cbn; [done|]. f_equal. exact IH. Qed.

Lemma offline_payload :
  json_dumps (PDict [("state", PStr "offline")])
  = Ok ("{" +:+ quoted "state" +:+ ": " +:+ quoted "offline" +:+ "}").
Proof. vm_compute. reflexivity. Qed.

(** The OPC UA half of [stop]: the events it leaves and its outcome. *)
Lemma stop_opc_half b log :
  exists pre r,
    (self ← get_self;
     match subscription self with
     | Some _ =>
         for_each (sub_handles self) (fun h =>
           try_except (library_call (Unsubscribe h)) (fun _ => mret tt));;
         try_except (library_call SubscriptionDelete) (fun _ => mret tt)
     | None => mret tt
     end;;
     library_call OpcDisconnect;;
     print DOpcDisconnected) (b, log)
    = (r, (b, log ++ pre))
    /\ calls_of pre
       = match subscription b with
         | Some _ => map Unsubscribe (sub_handles b) ++ [SubscriptionDelete]
         | None => []
         end ++ [OpcDisconnect].
Proof.
  run_M. destruct (subscription b) as [sub|].
  - run_M. rewrite unsubscribe_all. cbn [fst snd].
    set (log1 := log ++ map (fun h => Call (Unsubscribe h)) (sub_handles b)).
    set (log2 := log1 ++ [Call SubscriptionDelete]).
    assert (Hlog2 : forall tail,
      log2 ++ tail
      = log ++ (map (fun h => Call (Unsubscribe h)) (sub_handles b)
                ++ Call SubscriptionDelete :: tail)).
    { intros tail. subst log2 log1. by rewrite <- !app_assoc. }
    assert (Hcalls : forall tail,
      calls_of (map (fun h => Call (Unsubscribe h)) (sub_handles b)
                ++ Call SubscriptionDelete :: tail)
      = (map Unsubscribe (sub_handles b) ++ [SubscriptionDelete])
        ++ calls_of tail).
    { intros tail. rewrite calls_of_app, calls_of_unsubscribe. cbn.
      by rewrite <- app_assoc. }
    destruct (env_unit log1 SubscriptionDelete) as [[]|e0]; cbn [fst snd];
      fold log2;
      (destruct (env_unit log2 OpcDisconnect) as [[]|e];
       [ exists (map (fun h => Call (Unsubscribe h)) (sub_handles b)
                 ++ [Call SubscriptionDelete; Call OpcDisconnect;
                     Print DOpcDisconnected]), (Ok tt)
       | exists (map (fun h => Call (Unsubscribe h)) (sub_handles b)
                 ++ [Call SubscriptionDelete; Call OpcDisconnect]), (Raise e) ];
       (split; [rewrite <- Hlog2, <- ?app_assoc; reflexivity
               | rewrite Hcalls; reflexivity])).
  - run_M. destruct (env_unit log OpcDisconnect) as [[]|e].
    + exists [Call OpcDisconnect; Print DOpcDisconnected], (Ok tt).
      split; [by rewrite <- app_assoc|done].
    + exists [Call OpcDisconnect], (Raise e). done.
Qed.

End Stop.

(** C3, as the code has it.  [stop] attempts, in this order, every
    unsubscribe and the deletion of the subscription (when there is a
    subscription; each failure is ignored), the OPC UA session disconnect
    and the retained offline publish, which is attempted even when the
    session disconnect raised.  The messaging disconnect follows when the
    offline publish returned normally, and is not attempted when it
    raised. *)
Theorem stop_sequence `{Env} (cfg : Config) (b : Bridge) (log : list event) :
  exists pre post,
    snd (stop cfg (b, log))
    = (b, log ++ pre ++ Call (offline_publish cfg) :: post)
    /\ calls_of pre
       = match subscription b with
         | Some _ => map Unsubscribe (sub_handles b) ++ [SubscriptionDelete]
         | None => []
         end ++ [OpcDisconnect]
    /\ calls_of post
       = if is_ok (env_unit (log ++ pre) (offline_publish cfg))
         then [MqttDisconnect] else [].
Proof.
  destruct (stop_opc_half b log) as (pre & r & Hrun & Hcalls).
  exists pre. unfold stop. unfold try_finally at 1. rewrite Hrun.
  run_M. rewrite offline_payload. fold (offline_publish cfg).
  destruct (env_unit (log ++ pre) (offline_publish cfg)) as [[]|e]; cbn [is_ok].
  - destruct (env_unit _ MqttDisconnect) as [[]|e]; cbn.
    + exists [Call MqttDisconnect; Print DMqttDisconnected].
      by rewrite <- !app_assoc.
    + exists [Call MqttDisconnect]. by rewrite <- !app_assoc.
  - exists []. cbn. by rewrite <- !app_assoc.
Qed.

(** With a broker that refuses the offline publish, the messaging
    disconnect is never attempted: shutdown as the specification words it
    fails on the started bridge. *)
Lemma stop_skips_disconnect :
  ~ @stop_attempts_every_step Reference.env_publish_fails default_config
      Reference.started.
Proof.
  intros Hall. specialize (Hall []). apply sublist_subseteq in Hall.
  specialize (Hall MqttDisconnect).
  assert (Hin : MqttDisconnect
                ∈ calls_of (drop (length ([] : list event))
                    (snd (snd (@stop Reference.env_publish_fails default_config
                                 (Reference.started, [])))))).
  { apply Hall. apply elem_of_app. right. rewrite !elem_of_cons. tauto. }
  vm_compute in Hin.
  repeat (apply elem_of_cons in Hin as [Hin|Hin]; [discriminate Hin|]).
  by apply elem_of_nil in Hin.
Qed.

Example stop_with_failing_publish :
  calls_of (snd (snd (@stop Reference.env_publish_fails default_config
                        (Reference.started, []))))
  = map Unsubscribe (sub_handles Reference.started)
    ++ [SubscriptionDelete; OpcDisconnect; offline_publish default_config].
Proof. vm_compute. reflexivity. Qed.

(** ** The topic tables stay as [__init__] built them *)

Section TopicTables.

Context `{TextLib} `{Env} (cfg : Config).

Lemma runs_get_self0 (R : relation Bridge) `{!PreOrder R} Q b :
  runs R Q b get_self.
Proof. intros log. exists b, []. one_step. Qed.

Ltac runs_auto :=
  repeat first
    [ progress unfold mqtt_publish, library_call
    | rule runs_bind; [|intros ? ? _]
    | rule runs_for_each; intros ? ? _
    | rule runs_try_except; [|intros ? ? _]
    | rule runs_try_finally; [|intros ? _]
    | rule runs_get_self0
    | by rule runs_invoke
    | by rule runs_print
    | by rule runs_modify_self
    | rule runs_lift
    | rule runs_ret ].

Lemma on_message_keeps_topic_tables b topic payload :
  runs (same_on topic_tables) any_event b (on_message cfg topic payload).
Proof.
  unfold on_message. rule runs_bind; [rule runs_get_self0|]. intros self ? _.
  destruct (topic_to_name self !! topic); [|rule runs_ret].
  rule runs_bind; [rule runs_lift|]. intros spec ? _.
  destruct (dict_get (nodes self) _); runs_auto.
Qed.

Lemma datachange_keeps_topic_tables b node val data :
  runs (same_on topic_tables) any_event b
       (datachange_notification cfg node val data).
Proof.
  unfold datachange_notification.
  rule runs_bind; [rule runs_get_self0|]. intros self ? _.
  destruct (telemetry_topics self !! _); [|rule runs_ret].
  case_bool_decide; runs_auto.
Qed.

Lemma snapshot_keeps_topic_tables b :
  runs (same_on topic_tables) any_event b (publish_initial_snapshot cfg).
Proof.
  unfold publish_initial_snapshot.
  rule runs_bind; [rule runs_get_self0|]. intros self ? _.
  rule runs_bind; [|intros; by rule runs_print].
  rule runs_for_each. intros item ? _.
  rule runs_bind; [runs_auto|]. intros val ? _.
  rule runs_bind; [rule runs_get_self0|]. intros self' ? _.
  destruct (telemetry_topics self' !! _); [|rule runs_ret].
  case_bool_decide; runs_auto.
Qed.

Lemma start_keeps_topic_tables b :
  runs (same_on topic_tables) any_event b (start cfg).
Proof.
  unfold start. pose proof snapshot_keeps_topic_tables as Hsnapshot.
  generalize dependent (publish_initial_snapshot cfg). intros snapshot Hsnapshot.
  runs_auto. apply Hsnapshot.
Qed.

Lemma stop_keeps_topic_tables b :
  runs (same_on topic_tables) any_event b (stop cfg).
Proof.
  unfold stop. rule runs_try_finally; [|intros ? _; runs_auto].
  rule runs_bind; [rule runs_get_self0|]. intros self ? _.
  rule runs_bind; [|intros; runs_auto].
  destruct (subscription self); runs_auto.
Qed.

(** Whatever [start] does, the bridge it leaves answers the hypothesis of
    the message-handler theorems. *)
Lemma started_topic_to_name log :
  topic_to_name (fst (snd (start cfg (init cfg, log))))
  = topic_to_name (init cfg).
Proof.
  destruct (start_keeps_topic_tables (init cfg) log)
    as (b' & new & Hrun & Hsame & _).
  rewrite Hrun. cbn [fst snd]. unfold same_on, topic_tables in Hsame.
  congruence.
Qed.

End TopicTables.

(** ** The bridge at work *)

(** A control message [{"value": 5}] for [SetpNo] on the started bridge is
    written once, as an Int32. *)
Example control_message_SetpNo :
  calls_of (snd (snd (@on_message Reference.text_lib Reference.env_ok
                        default_config "imhotep/opc/cmd/SetpNo"
                        (Reference.encode_ascii ("{" +:+ quoted "value" +:+ ": 5}"))
                        (Reference.started, []))))
  = [NodeSetValue
       (Reference.node_of ("ns=3;s=" +:+ quoted "DB_OP" +:+ "." +:+ quoted "SetpNo"))
       {| dv_Value := {| variant_value := PInt 5; variant_type := Some VtInt32 |};
          dv_SourceTimestamp := None; dv_ServerTimestamp := None |}].
Proof. vm_compute. reflexivity. Qed.

(** The telemetry text of [S1], read back, is the object with the three
    members. *)
Example telemetry_text_S1 :
  Reference.loads ("{" +:+ quoted "name" +:+ ": " +:+ quoted "S1" +:+ ", "
                   +:+ quoted "value" +:+ ": true, " +:+ quoted "ts" +:+ ": null}")
  = Ok (PDict [("name", PStr "S1"); ("value", PBool true); ("ts", PNone)]).
Proof. vm_compute. reflexivity. Qed.

(** The snapshot of the started bridge: one read and one publish per
    variable, in the order of [NODES_SPEC]. *)
Example snapshot_of_started_bridge :
  let log := snd (snd (@publish_initial_snapshot Reference.env_ok default_config
                         (Reference.started, []))) in
  length (calls_of log) = (2 * length (NODES_SPEC default_config))%nat
  /\ calls_of (take 2 log)
     = [NodeGetValue
          (Reference.node_of
             ("ns=3;s=" +:+ quoted "DB_OP" +:+ "." +:+ quoted "AcknFault"));
        MqttPublish "imhotep/opc/tele/AcknFault"
          ("{" +:+ quoted "name" +:+ ": " +:+ quoted "AcknFault" +:+ ", "
           +:+ quoted "value" +:+ ": false, " +:+ quoted "ts" +:+ ": null, "
           +:+ quoted "initial" +:+ ": true}") 1 false].
Proof. vm_compute. split; reflexivity. Qed.

Example topic_tables_of_the_script :
  telemetry_topics (init default_config) !! "S1" = Some "imhotep/opc/tele/S1"
  /\ dict_get (control_topics (init default_config)) "SetpNo"
     = Some "imhotep/opc/cmd/SetpNo"
  /\ topic_to_name (init default_config) !! "imhotep/opc/cmd/JogLeft"
     = Some "JogLeft"
  /\ topic_to_name (init default_config) !! "imhotep/opc/tele/JogLeft" = None.
Proof. vm_compute. repeat split. Qed.

(** * Further properties of the bridge script *)

(** ** Decoding, then writing *)

(** A value of the declared kind. *)
Lemma decoded_kind `{TextLib} (payload : list Byte.byte) (ty : py_type)
    (value : pyval) :
  parse_incoming_payload payload ty = Ok value ->
  match ty with
  | Tbool => exists b, value = PBool b
  | Tint => exists z, value = PInt z
  | Tstr => True
  end.
Proof.
  unfold parse_incoming_payload.
  set (raw := match json_loads _ with Ok (PDict obj) => _ | _ => _ end).
  destruct ty; cbn.
  - destruct (to_bool raw) as [b|e]; [|done]. intros [= <-]. eauto.
  - destruct (int_of_str _) as [z|e]; [|done]. intros [= <-]. eauto.
  - done.
Qed.

Lemma variant_for_kind (ty : py_type) (value : pyval) :
  match ty with
  | Tbool => exists b, value = PBool b
  | Tint => exists z, value = PInt z
  | Tstr => guessable value = true
  end ->
  variant_for value ty
  = Ok {| variant_value := value; variant_type := variant_type_of ty |}.
Proof.
  destruct ty; [intros [b ->]|intros [z ->]|intros Hg]; cbn; [done..|].
  by rewrite Hg.
Qed.

(** What [variant_for] makes of a decoded value. *)
Lemma variant_for_decoded `{TextLib} (payload : list Byte.byte)
    (ty : py_type) (value : pyval) :
  parse_incoming_payload payload ty = Ok value ->
  (ty = Tstr -> guessable value = true) ->
  variant_for value ty
  = Ok {| variant_value := value; variant_type := variant_type_of ty |}.
Proof.
  intros Hv Hg. apply variant_for_kind.
  pose proof (decoded_kind payload ty value Hv) as Hkind.
  destruct ty; auto.
Qed.

(** X1. A decoded value has the declared kind.  For a boolean and for an
    integer variable [variant_for] never fails and wraps the decoded value
    unchanged with the OPC UA type of the kind: the conversions [bool(...)]
    and [int(...)] do not alter a value that [parse_incoming_payload]
    produced.  For the fallback kind the value is wrapped unchanged, without
    a declared type, when the library can guess a type, and [variant_for]
    raises the library's error when it cannot (an empty list, or a list
    whose first elements lead to one). *)
Theorem decoded_value_is_written `{TextLib} (payload : list Byte.byte)
    (ty : py_type) (value : pyval) :
  parse_incoming_payload payload ty = Ok value ->
  match ty with
  | Tbool => exists b, value = PBool b
  | Tint => exists z, value = PInt z
  | Tstr => True
  end /\
  ((ty = Tstr -> guessable value = true) ->
   variant_for value ty
   = Ok {| variant_value := value; variant_type := variant_type_of ty |}) /\
  (ty = Tstr -> guessable value = false ->
   variant_for value ty = Raise (cannot_guess value)).
Proof.
  intros Hv. split; [exact (decoded_kind payload ty value Hv)|]. split.
  - by apply (variant_for_decoded payload).
  - intros -> Hg. cbn. by rewrite Hg.
Qed.

Lemma decoded_value_is_written_witness :
  variant_for (PBool true) Tbool
  = Ok {| variant_value := PBool true; variant_type := Some VtBoolean |}
  /\ variant_for (PList []) Tstr = Raise (cannot_guess (PList [])).
Proof.
  split.
  - apply (proj1 (proj2 (@decoded_value_is_written Reference.text_lib
                           (Reference.encode_ascii " On ") Tbool (PBool true)
                           eq_refl))).
    discriminate.
  - apply (proj2 (proj2 (@decoded_value_is_written Reference.text_lib
                           (Reference.encode_ascii
                              ("{" +:+ quoted "value" +:+ ": []}"))
                           Tstr (PList []) eq_refl))); reflexivity.
Defined.



(** ** What the message handler can do at most *)

(** X3. Whatever the topic and the payload, [on_message] returns normally
    and leaves the bridge object as it is; it makes at most one library
    call, and that call is a write to the node registered under the name
    the topic dispatches to. *)
Theorem on_message_at_most_one_write `{TextLib} `{Env} (cfg : Config)
    (b : Bridge) (log : list event) (topic : string)
    (payload : list Byte.byte) :
  topic_to_name b = topic_to_name (init cfg) ->
  exists new,
    on_message cfg topic payload (b, log) = (Ok tt, (b, log ++ new)) /\
    (calls_of new = [] \/
     exists name node dv,
       topic_to_name b !! topic = Some name /\
       dict_get (nodes b) name = Some node /\
       calls_of new = [NodeSetValue node dv]).
Proof.
  intros Hb. destruct (topic_to_name b !! topic) as [name|] eqn:Ht.
  - pose proof Ht as Ht'. rewrite Hb in Ht'.
    destruct (topic_to_name_in_spec _ _ _ Ht') as [spec Hs].
    destruct (dict_get (nodes b) name) as [node|] eqn:Hn.
    + rewrite (on_message_write cfg b log topic payload name _ node Ht Hs Hn).
      unfold write_block. run_M.
      destruct (parse_incoming_payload payload spec.2) as [value|e].
      * destruct (variant_for value spec.2) as [v|e].
        -- set (dv := {| dv_Value := v; dv_SourceTimestamp := None;
                         dv_ServerTimestamp := None |}).
           destruct (env_unit log (NodeSetValue node dv)) as [[]|e]; cbn.
           ++ exists [Call (NodeSetValue node dv); Print (DWritten name value)].
              rewrite <- app_assoc. split; [done|]. right. by exists name, node, dv.
           ++ exists [Call (NodeSetValue node dv); Print (DWriteError name e)].
              rewrite <- app_assoc. split; [done|]. right. by exists name, node, dv.
        -- exists [Print (DWriteError name e)]. split; [done|]. by left.
      * exists [Print (DWriteError name e)]. split; [done|]. by left.
    + rewrite (on_message_no_node cfg b log topic payload name spec Ht Hs Hn).
      exists [Print (DNodeNotReady name)]. split; [done|]. by left.
  - rewrite on_message_no_topic by done. exists []. rewrite app_nil_r.
    split; [done|]. by left.
Qed.

Lemma on_message_at_most_one_write_witness :
  exists new,
    @on_message Reference.text_lib Reference.env_write_fails default_config
      "imhotep/opc/cmd/JogLeft" (Reference.encode_ascii "on")
      (Reference.started, [])
    = (Ok tt, (Reference.started, [] ++ new)) /\
    (calls_of new = [] \/
     exists name node dv,
       topic_to_name Reference.started !! "imhotep/opc/cmd/JogLeft" = Some name /\
       dict_get (nodes Reference.started) name = Some node /\
       calls_of new = [NodeSetValue node dv]).
Proof.
  apply (@on_message_at_most_one_write Reference.text_lib
           Reference.env_write_fails default_config Reference.started []).
  vm_compute. reflexivity.
Defined.

(** ** The course of [stop] *)

(** What [stop] returns and logs: [before] holds the unsubscribes and the
    deletion, [between] and [after] hold console lines and the messaging
    disconnect. *)
Lemma stop_run `{Env} (cfg : Config) (b : Bridge) (log : list event) :
  exists before between after,
    stop cfg (b, log)
    = (env_unit (log ++ before) OpcDisconnect,
       (b, log ++ before ++ Call OpcDisconnect
             :: between ++ Call (offline_publish cfg) :: after))
    /\ calls_of before
       = match subscription b with
         | Some _ => map Unsubscribe (sub_handles b) ++ [SubscriptionDelete]
         | None => []
         end
    /\ calls_of between = []
    /\ calls_of after
       = if is_ok (env_unit (log ++ before ++ Call OpcDisconnect :: between)
                            (offline_publish cfg))
         then [MqttDisconnect] else [].
Proof.
  set (before :=
         match subscription b with
         | Some _ => map (fun h => Call (Unsubscribe h)) (sub_handles b)
                     ++ [Call SubscriptionDelete]
         | None => []
         end).
  assert (Hbefore : calls_of before
                    = match subscription b with
                      | Some _ => map Unsubscribe (sub_handles b)
                                  ++ [SubscriptionDelete]
                      | None => []
                      end).
  { subst before. destruct (subscription b); [|done].
    by rewrite calls_of_app, calls_of_unsubscribe. }
  assert (Hopc :
    (self ← get_self;
     match subscription self with
     | Some _ =>
         for_each (sub_handles self) (fun h =>
           try_except (library_call (Unsubscribe h)) (fun _ => mret tt));;
         try_except (library_call SubscriptionDelete) (fun _ => mret tt)
     | None => mret tt
     end;;
     library_call OpcDisconnect;;
     print DOpcDisconnected) (b, log)
    = (env_unit (log ++ before) OpcDisconnect,
       (b, log ++ before ++ Call OpcDisconnect
             :: (if is_ok (env_unit (log ++ before) OpcDisconnect)
                 then [Print DOpcDisconnected] else [])))).
  { subst before. unfold mbind, M_bind, get_self. cbn [fst snd].
    destruct (subscription b) as [sub|].
    - rewrite unsubscribe_all. run_M.
      rewrite !app_assoc.
      set (log1 := log ++ map (fun h => Call (Unsubscribe h)) (sub_handles b)).
      destruct (env_unit log1 SubscriptionDelete) as [[]|e0]; cbn [fst snd];
        destruct (env_unit (log1 ++ [Call SubscriptionDelete]) OpcDisconnect)
          as [[]|e]; cbn; by rewrite <- ?app_assoc.
    - run_M. rewrite app_nil_r.
      destruct (env_unit log OpcDisconnect) as [[]|e]; cbn;
        by rewrite <- ?app_assoc. }
  set (between := if is_ok (env_unit (log ++ before) OpcDisconnect)
                  then [Print DOpcDisconnected] else []).
  assert (Hbetween : calls_of between = []).
  { subst between. by destruct (is_ok _). }
  exists before, between.
  unfold stop. unfold try_finally at 1. rewrite Hopc. fold between.
  run_M. rewrite offline_payload. fold (offline_publish cfg).
  destruct (env_unit (log ++ before ++ Call OpcDisconnect :: between)
                     (offline_publish cfg)) as [[]|e]; cbn [is_ok].
  - destruct (env_unit _ MqttDisconnect) as [[]|e]; cbn.
    + exists [Call MqttDisconnect; Print DMqttDisconnected].
      split; [|done]. f_equal. f_equal.
      rewrite <- ?app_assoc. cbn. by rewrite <- ?app_assoc.
    + exists [Call MqttDisconnect].
      split; [|done]. f_equal. f_equal.
      rewrite <- ?app_assoc. cbn. by rewrite <- ?app_assoc.
  - exists []. cbn.
    split; [|done]. f_equal. f_equal.
    rewrite <- ?app_assoc. cbn. by rewrite <- ?app_assoc.
Qed.

Lemma calls_of_call (c : call) (l : list event) :
  calls_of (Call c :: l) = c :: calls_of l.
Proof. reflexivity. Qed.

Lemma calls_of_print (d : diag) (l : list event) :
  calls_of (Print d :: l) = calls_of l.
Proof. reflexivity. Qed.

Lemma stop_calls `{Env} (cfg : Config) (b : Bridge) (log : list event) :
  exists new,
    snd (stop cfg (b, log)) = (b, log ++ new) /\
    published_topics (calls_of new) = [MQTT_ROOT cfg +:+ "/status"].
Proof.
  destruct (stop_run cfg b log)
    as (before & between & after & Hrun & Hbefore & Hbetween & Hafter).
  exists (before ++ Call OpcDisconnect
          :: between ++ Call (offline_publish cfg) :: after).
  rewrite Hrun. split; [done|].
  rewrite calls_of_app, calls_of_call, calls_of_app, calls_of_call.
  rewrite Hbefore, Hbetween, Hafter. unfold published_topics.
  assert (Hno : forall l, omap (fun c => match c with
                              | MqttPublish t _ _ _ => Some t
                              | _ => None end) (map Unsubscribe l) = []).
  { induction l; [done|]. cbn. done. }
  rewrite omap_app.
  destruct (subscription b); rewrite ?omap_app, ?Hno; cbn;
    by destruct (is_ok _).
Qed.

(** ** No feedback through the broker *)

Lemma status_topic_not_control (cfg : Config) (name : string) :
  MQTT_ROOT cfg +:+ "/status" <> control_topic_of cfg name.
Proof.
  unfold control_topic_of. intros Heq. apply append_inj_r in Heq.
  cbn in Heq. discriminate.
Qed.

Lemma on_message_drops_telemetry_topic `{TextLib} `{Env} (cfg : Config)
    (b : Bridge) (log : list event) (name : string) (payload : list Byte.byte) :
  topic_to_name b = topic_to_name (init cfg) ->
  on_message cfg (telemetry_topic_of cfg name) payload (b, log)
  = (Ok tt, (b, log)).
Proof.
  intros Hb. apply on_message_no_topic. rewrite Hb.
  destruct (topic_to_name (init cfg) !! _) as [n|] eqn:Hl; [|done].
  apply topic_to_name_init in Hl as [_ Heq].
  symmetry in Heq. by apply control_telemetry_disjoint in Heq.
Qed.

Lemma on_message_drops_status_topic `{TextLib} `{Env} (cfg : Config)
    (b : Bridge) (log : list event) (payload : list Byte.byte) :
  topic_to_name b = topic_to_name (init cfg) ->
  on_message cfg (MQTT_ROOT cfg +:+ "/status") payload (b, log)
  = (Ok tt, (b, log)).
Proof.
  intros Hb. apply on_message_no_topic. rewrite Hb.
  destruct (topic_to_name (init cfg) !! _) as [n|] eqn:Hl; [|done].
  apply topic_to_name_init in Hl as [_ Heq].
  by apply status_topic_not_control in Heq.
Qed.

Lemma published_topic_is_telemetry (cfg : Config) (b : Bridge) (topic : string) :
  telemetry_topics b = telemetry_topics (init cfg) ->
  (exists name, telemetry_topics b !! name = Some topic) ->
  exists name, name ∈ dict_keys (NODES_SPEC cfg)
               /\ topic = telemetry_topic_of cfg name.
Proof.
  intros Hb [name Hl]. rewrite Hb, telemetry_topics_init in Hl.
  case_bool_decide; [|done]. injection Hl as <-. by exists name.
Qed.

(** X4. Nothing the bridge publishes comes back as a command.  Every
    topic on which a change notification, the initial snapshot or [stop]
    publishes is a telemetry topic of a configured variable or the status
    topic, and a message on such a topic is dropped by [on_message] with no
    effect at all. *)
Theorem no_feedback_through_broker `{TextLib} `{Env} (cfg : Config)
    (b : Bridge) (log : list event) (node : Node) (val : pyval)
    (data : DataChange) (topic : string) :
  telemetry_topics b = telemetry_topics (init cfg) ->
  topic ∈ published_topics (calls_of (drop (length log)
            (snd (snd (datachange_notification cfg node val data (b, log))))))
  \/ topic ∈ published_topics (calls_of (drop (length log)
               (snd (snd (publish_initial_snapshot cfg (b, log))))))
  \/ topic ∈ published_topics (calls_of (drop (length log)
               (snd (snd (stop cfg (b, log)))))) ->
  ((exists name, name ∈ dict_keys (NODES_SPEC cfg)
                 /\ topic = MQTT_ROOT cfg +:+ "/opc/tele/" +:+ name)
   \/ topic = MQTT_ROOT cfg +:+ "/status") /\
  forall b' log' payload',
    topic_to_name b' = topic_to_name (init cfg) ->
    on_message cfg topic payload' (b', log') = (Ok tt, (b', log')).
Proof.
  intros Hb Hpub.
  assert (Hshape : (exists name, name ∈ dict_keys (NODES_SPEC cfg)
                                 /\ topic = telemetry_topic_of cfg name)
                   \/ topic = MQTT_ROOT cfg +:+ "/status").
  { destruct Hpub as [Hpub|[Hpub|Hpub]].
    - destruct (datachange_events cfg b log node val data)
        as (new & Hrun & Hnew).
      rewrite Hrun in Hpub. cbn [snd] in Hpub. rewrite drop_app_length in Hpub.
      left. apply (published_topic_is_telemetry cfg b topic Hb).
      unfold published_topics, calls_of in Hpub.
      apply list_elem_of_omap in Hpub as (c & Hc & Htopic).
      apply list_elem_of_omap in Hc as (ev & Hev & Hcall).
      rewrite Forall_forall in Hnew. specialize (Hnew ev Hev).
      destruct ev as [c'|d]; [|done]. injection Hcall as ->.
      destruct c; try done. injection Htopic as ->.
      destruct Hnew as (_ & _ & name & ts & Hl & _). eauto.
    - destruct (snapshot_events cfg b log) as (b' & new & Hrun & <- & Hnew).
      rewrite Hrun in Hpub. cbn [snd] in Hpub. rewrite drop_app_length in Hpub.
      left. apply (published_topic_is_telemetry cfg b topic Hb).
      unfold published_topics, calls_of in Hpub.
      apply list_elem_of_omap in Hpub as (c & Hc & Htopic).
      apply list_elem_of_omap in Hc as (ev & Hev & Hcall).
      rewrite Forall_forall in Hnew. specialize (Hnew ev Hev).
      destruct ev as [c'|d]; [|done]. injection Hcall as ->.
      destruct c; try done. injection Htopic as ->.
      destruct Hnew as (_ & _ & name & v & Hl & _). eauto.
    - right. destruct (stop_calls cfg b log) as (new & Hrun & Hcalls).
      rewrite Hrun in Hpub. cbn [snd] in Hpub. rewrite drop_app_length in Hpub.
      rewrite Hcalls in Hpub. by apply list_elem_of_singleton in Hpub. }
  split; [exact Hshape|]. intros b' log' payload' Hb'.
  destruct Hshape as [(name & _ & ->)| ->].
  - by apply on_message_drops_telemetry_topic.
  - by apply on_message_drops_status_topic.
Qed.

Lemma no_feedback_through_broker_witness :
  @on_message Reference.text_lib Reference.env_ok default_config
    "imhotep/opc/tele/S1" (Reference.encode_ascii "true")
    (Reference.started, [])
  = (Ok tt, (Reference.started, [])).
Proof.
  refine (proj2 (@no_feedback_through_broker Reference.text_lib Reference.env_ok
                   default_config Reference.started []
                   (Reference.node_of Reference.s1_address) (PBool true)
                   {| ServerTimestamp := None; SourceTimestamp := None |}
                   "imhotep/opc/tele/S1" _ _) Reference.started [] _ _).
  - vm_compute. reflexivity.
  - left. vm_compute. apply list_elem_of_singleton. reflexivity.
  - vm_compute. reflexivity.
Defined.

(** X5. The value of [stop] is the outcome of the OPC UA session
    disconnect: an error of an unsubscribe, of the deletion of the
    subscription, of the offline publish or of the messaging disconnect
    never leaves [stop], an error of the session disconnect always does
    (after the offline publish was attempted). *)
Theorem stop_returns_session_outcome `{Env} (cfg : Config) (b : Bridge)
    (log : list event) :
  exists before,
    calls_of before
    = match subscription b with
      | Some _ => map Unsubscribe (sub_handles b) ++ [SubscriptionDelete]
      | None => []
      end
    /\ fst (stop cfg (b, log)) = env_unit (log ++ before) OpcDisconnect
    /\ Call (offline_publish cfg) ∈ snd (snd (stop cfg (b, log))).
Proof.
  destruct (stop_run cfg b log)
    as (before & between & after & Hrun & Hbefore & _ & _).
  exists before. rewrite Hrun. cbn [fst snd]. repeat split; [done|].
  rewrite !elem_of_app, !elem_of_cons, !elem_of_app, !elem_of_cons. tauto.
Qed.

(** ** Case and padding of boolean tokens *)

Lemma lstrip_only_space (ws : string) : only_space ws = true -> lstrip ws = "".
Proof.
  induction ws as [|c ws IH]; cbn; [done|].
  intros Hws. apply andb_prop in Hws as [-> Hws]. auto.
Qed.

Lemma rstrip_only_space (ws : string) : only_space ws = true -> rstrip ws = "".
Proof.
  induction ws as [|c ws IH]; cbn; [done|].
  intros Hws. apply andb_prop in Hws as [-> Hws]. by rewrite IH.
Qed.

Lemma append_cons (c : ascii) (a b : string) :
  String c a +:+ b = String c (a +:+ b).
Proof. reflexivity. Qed.

Lemma append_nil (b : string) : "" +:+ b = b.
Proof. reflexivity. Qed.

Lemma lstrip_app_space (ws s : string) :
  only_space ws = true -> lstrip (ws +:+ s) = lstrip s.
Proof.
  induction ws as [|c ws IH]; [done|]. rewrite append_cons. cbn.
  intros Hws. apply andb_prop in Hws as [-> Hws]. auto.
Qed.

Lemma rstrip_app_space (s ws : string) :
  only_space ws = true -> rstrip (s +:+ ws) = rstrip s.
Proof.
  intros Hws. induction s as [|c s IH].
  - by rewrite append_nil, rstrip_only_space.
  - rewrite append_cons. cbn. by rewrite IH.
Qed.

Lemma strip_app_space (s ws : string) :
  only_space ws = true -> strip (s +:+ ws) = strip s.
Proof.
  intros Hws. unfold strip. induction s as [|c s IH].
  - by rewrite append_nil, lstrip_only_space.
  - rewrite append_cons. cbn.
    destruct (is_space c); [exact IH|].
    rewrite <- append_cons. by apply rstrip_app_space.
Qed.

Lemma strip_padding (ws1 s ws2 : string) :
  only_space ws1 = true -> only_space ws2 = true ->
  strip (ws1 +:+ s +:+ ws2) = strip s.
Proof.
  intros Hws1 Hws2. rewrite <- (strip_app_space s ws2 Hws2).
  unfold strip. by rewrite lstrip_app_space.
Qed.

(** X6. [to_bool] looks neither at the case of its input nor at
    whitespace around it. *)
Theorem to_bool_ignores_case_and_padding (ws1 s1 ws2 s2 : string) :
  only_space ws1 = true -> only_space ws2 = true -> lower s1 = lower s2 ->
  to_bool (PStr (ws1 +:+ s1 +:+ ws2)) = to_bool (PStr s2).
Proof.
  intros Hws1 Hws2 Heq. unfold to_bool. cbn [py_str].
  by rewrite strip_padding, !lower_strip, Heq.
Qed.

Lemma to_bool_ignores_case_and_padding_witness :
  to_bool (PStr (" " +:+ "TrUe" +:+ String "010" "")) = to_bool (PStr "true").
Proof.
  apply to_bool_ignores_case_and_padding; reflexivity.
Defined.

(** ** Values of the JSON envelope *)

Lemma pretty_Z_shape (z : Z) :
  exists s, only_digits s = true /\ s <> ""
            /\ (pretty z = s \/ pretty z = String "-" s).
Proof.
  destruct z as [|p|p].
  - exists "0". repeat split; [done|]. by left.
  - destruct (int_literal_pretty_pos p) as (_ & Hd & Hne).
    exists (pretty (N.pos p)). repeat split; [done..|]. by left.
  - destruct (int_literal_pretty_pos p) as (_ & Hd & Hne).
    exists (pretty (N.pos p)). repeat split; [done..|]. by right.
Qed.

Lemma lower_only_digits (s : string) : only_digits s = true -> lower s = s.
Proof.
  induction s as [|c s IH]; cbn; [done|].
  intros Hs. apply andb_prop in Hs as [Hc Hs]. rewrite (IH Hs). f_equal.
  destruct c as [[] [] [] [] [] [] [] []]; vm_compute in Hc; try discriminate;
    reflexivity.
Qed.

(** The token [to_bool] and [int] see for a JSON integer is its decimal
    text. *)
Lemma token_of_int (z : Z) :
  lower (strip (pretty z)) = pretty z /\ strip (pretty z) = pretty z.
Proof.
  destruct (pretty_Z_shape z) as (s & Hd & Hne & [Hz|Hz]); rewrite Hz.
  - rewrite strip_no_space by (by apply only_digits_no_space).
    split; [by apply lower_only_digits|done].
  - rewrite strip_no_space by (cbn; by rewrite only_digits_no_space).
    split; [|done]. cbn. by rewrite lower_only_digits.
Qed.

Lemma to_bool_int (z : Z) :
  to_bool (PInt z)
  = if bool_decide (z = 1) then Ok true
    else if bool_decide (z = 0) then Ok false
    else Raise (ValueError ("Cannot parse boolean from '" +:+ pretty z +:+ "'")).
Proof.
  unfold to_bool. cbn [py_str py_repr]. rewrite (proj1 (token_of_int z)).
  assert (Hone : pretty z = "1" <-> z = 1).
  { split; [|by intros ->]. intros Hz. by apply (inj pretty z 1). }
  assert (Hzero : pretty z = "0" <-> z = 0).
  { split; [|by intros ->]. intros Hz. by apply (inj pretty z 0). }
  assert (Hword : forall c w, is_digit c = false -> c <> "-"%char ->
                              pretty z <> String c w).
  { intros c w Hc Hm Hz.
    destruct (pretty_Z_shape z) as (s & Hd & Hne & [Hs|Hs]);
      rewrite Hs in Hz; [|congruence].
    subst s. cbn in Hd. by rewrite Hc in Hd. }
  destruct (decide (z = 1)) as [->|Hn1]; [reflexivity|].
  destruct (decide (z = 0)) as [->|Hn0]; [reflexivity|].
  rewrite (bool_decide_eq_false_2 (z = 1)), (bool_decide_eq_false_2 (z = 0))
    by done.
  rewrite bool_decide_eq_false_2.
  2:{ rewrite elem_of_true_tokens.
      intros Ht. repeat destruct Ht as [Ht|Ht];
        first [by apply Hone in Ht | by apply Hword in Ht]. }
  rewrite bool_decide_eq_false_2; [done|].
  rewrite elem_of_false_tokens.
  intros Ht. repeat destruct Ht as [Ht|Ht];
    first [by apply Hzero in Ht | by apply Hword in Ht].
Qed.

(** X7. What a member [value] of the JSON envelope decodes to.  An integer
    member decodes to itself for an integer variable, whatever its size;
    for a boolean variable it is accepted only when it is 1 or 0.  A boolean
    member decodes to itself for a boolean variable and is rejected for an
    integer variable; [null] is rejected for both. *)
Theorem json_member_values `{TextLib} (payload : list Byte.byte)
    (obj : list (string * pyval)) (v : pyval) :
  json_loads (strip (decode_utf8_ignore payload)) = Ok (PDict obj) ->
  dict_get obj "value" = Some v ->
  match v with
  | PInt z =>
      parse_incoming_payload payload Tint = Ok (PInt z) /\
      (parse_incoming_payload payload Tbool = Ok (PBool true) <-> z = 1) /\
      (parse_incoming_payload payload Tbool = Ok (PBool false) <-> z = 0) /\
      (is_ok (parse_incoming_payload payload Tbool) = true <-> z = 0 \/ z = 1)
  | PBool b =>
      parse_incoming_payload payload Tbool = Ok (PBool b) /\
      is_ok (parse_incoming_payload payload Tint) = false
  | PNone =>
      is_ok (parse_incoming_payload payload Tbool) = false /\
      is_ok (parse_incoming_payload payload Tint) = false
  | _ => True
  end.
Proof.
  intros Hobj Hv. unfold parse_incoming_payload. rewrite Hobj, Hv.
  destruct v as [|b|z| | | |]; try exact I.
  - split; reflexivity.
  - destruct b; split; reflexivity.
  - cbn [py_str py_repr]. rewrite (proj2 (token_of_int z)), int_of_str_pretty.
    rewrite to_bool_int. split; [done|].
    repeat case_bool_decide; subst; cbn; repeat split; intros; try done;
      try lia; try tauto.
    all: match goal with H : _ \/ _ |- _ => destruct H end; done.
Qed.

Lemma json_member_values_witness :
  @parse_incoming_payload Reference.text_lib
    (Reference.encode_ascii ("{" +:+ quoted "value" +:+ ": true}")) Tbool
  = Ok (PBool true)
  /\ is_ok (@parse_incoming_payload Reference.text_lib
              (Reference.encode_ascii ("{" +:+ quoted "value" +:+ ": true}")) Tint)
     = false.
Proof.
  apply (@json_member_values Reference.text_lib
           (Reference.encode_ascii ("{" +:+ quoted "value" +:+ ": true}"))
           [("value", PBool true)] (PBool true)); reflexivity.
Defined.

(** ** Encoding *)

(** Induction on values, through lists and dictionaries. *)
Lemma pyval_nested_ind (P : pyval -> Prop) :
  P PNone -> (forall b, P (PBool b)) -> (forall z, P (PInt z)) ->
  (forall s, P (PStr s)) ->
  (forall items, Forall P items -> P (PList items)) ->
  (forall items, Forall (fun kv => P (snd kv)) items -> P (PDict items)) ->
  (forall o, P (PObj o)) ->
  forall v, P v.
Proof.
  intros HNone HBool HInt HStr HList HDict HObj.
  fix IH 1. intros [|b|z|s|items|items|o].
  - exact HNone.
  - apply HBool.
  - apply HInt.
  - apply HStr.
  - apply HList. induction items as [|x items IHitems]; constructor;
      [apply IH | exact IHitems].
  - apply HDict. induction items as [|[k x] items IHitems]; constructor;
      [apply IH | exact IHitems].
  - apply HObj.
Qed.

Lemma only_ascii_app (a b : string) :
  only_ascii (a +:+ b) = only_ascii a && only_ascii b.
Proof.
  induction a as [|c a IH]; [done|]. rewrite append_cons. cbn.
  by rewrite IH, andb_assoc.
Qed.

Lemma only_ascii_join (sep : string) (l : list string) :
  only_ascii sep = true -> Forall (fun s => only_ascii s = true) l ->
  only_ascii (join sep l) = true.
Proof.
  intros Hsep. induction 1 as [|x l Hx Hl IH]; [done|]. cbn [join].
  destruct l as [|y l]; [done|].
  by rewrite !only_ascii_app, Hx, Hsep, IH.
Qed.

Lemma json_char_ascii (c : ascii) : only_ascii (json_char c) = true.
Proof. destruct c as [[] [] [] [] [] [] [] []]; reflexivity. Qed.

Lemma json_string_ascii (s : string) : only_ascii (json_string s) = true.
Proof.
  assert (only_ascii (json_chars s) = true) as Hchars.
  { induction s as [|c s IH]; [done|]. cbn [json_chars].
    by rewrite only_ascii_app, json_char_ascii, IH. }
  unfold json_string. cbn [only_ascii]. rewrite only_ascii_app, Hchars.
  reflexivity.
Qed.

Lemma only_digits_ascii (s : string) : only_digits s = true -> only_ascii s = true.
Proof.
  induction s as [|c s IH]; cbn; [done|].
  intros Hs. apply andb_prop in Hs as [Hc Hs]. rewrite (IH Hs), andb_true_r.
  destruct c as [[] [] [] [] [] [] [] []]; vm_compute in Hc; try discriminate;
    reflexivity.
Qed.

Lemma pretty_Z_ascii (z : Z) : only_ascii (pretty z) = true.
Proof.
  destruct (pretty_Z_shape z) as (s & Hd & _ & [->| ->]); cbn;
    by rewrite only_digits_ascii.
Qed.

Lemma collect_ascii (l : list (result string)) :
  Forall (fun r => exists text, r = Ok text /\ only_ascii text = true) l ->
  exists parts, collect l = Ok parts
                /\ Forall (fun s => only_ascii s = true) parts.
Proof.
  induction 1 as [|r l (text & -> & Htext) _ (parts & Hparts & Hall)].
  - by exists [].
  - exists (text :: parts). cbn. rewrite Hparts. cbn. split; [done|]. by constructor.
Qed.

(** In the model, encoding is total on values made of [None], booleans,
    integers, text, lists and dictionaries, and the text is printable
    ASCII. *)
Lemma json_dumps_plain (v : pyval) :
  plain v = true ->
  exists text, json_dumps v = Ok text /\ only_ascii text = true.
Proof.
  induction v as [|b|z|s|items IH|items IH|o] using pyval_nested_ind;
    intros Hplain.
  - by eexists.
  - destruct b; by eexists.
  - eexists. split; [reflexivity|]. apply pretty_Z_ascii.
  - eexists. split; [reflexivity|]. apply json_string_ascii.
  - cbn [json_dumps].
    destruct (collect_ascii (map json_dumps items)) as (parts & -> & Hparts).
    { cbn [plain] in Hplain. rewrite forallb_forall in Hplain.
      rewrite Forall_forall in IH. apply Forall_forall. intros r Hr.
      apply list_elem_of_fmap in Hr as (x & -> & Hx).
      apply IH; [done|]. apply Hplain. by apply list_elem_of_In. }
    eexists. split; [reflexivity|].
    rewrite !only_ascii_app, only_ascii_join; done.
  - cbn [json_dumps].
    destruct (collect_ascii
                (map (fun kv => t ← json_dumps (snd kv);
                                Ok (json_string (fst kv) +:+ ": " +:+ t)) items))
      as (parts & -> & Hparts).
    { cbn [plain] in Hplain. rewrite forallb_forall in Hplain.
      rewrite Forall_forall in IH. apply Forall_forall. intros r Hr.
      apply list_elem_of_fmap in Hr as ([k x] & -> & Hx).
      destruct (IH _ Hx) as (t & Ht & Hascii).
      { apply (Hplain (k, x)). by apply list_elem_of_In. }
      cbn [fst snd] in *. rewrite Ht. eexists. split; [reflexivity|].
      by rewrite !only_ascii_app, json_string_ascii, Hascii. }
    eexists. split; [reflexivity|].
    rewrite !only_ascii_app, only_ascii_join; done.
  - done.
Qed.

Lemma json_dumps_ascii (v : pyval) (text : string) :
  plain v = true -> json_dumps v = Ok text -> only_ascii text = true.
Proof.
  intros Hv Ht. destruct (json_dumps_plain v Hv) as (text' & Ht' & Ha).
  congruence.
Qed.

(** Sequencing, with what is known of the value of the first part. *)
Lemma runs_bind_value (R : relation Bridge) `{!PreOrder R}
    (Q : event -> Prop) {A B} (P : A -> Prop) (b : Bridge) (m : M A)
    (f : A -> M B) :
  (forall log a st, m (b, log) = (Ok a, st) -> P a) ->
  runs R Q b m ->
  (forall a b', R b b' -> P a -> runs R Q b' (f a)) ->
  runs R Q b (m ≫= f).
Proof.
  intros HP Hm Hf log. destruct (Hm log) as (b1 & new1 & Hrun1 & HR1 & Hnew1).
  unfold mbind, M_bind. destruct (m (b, log)) as [[a|e] st] eqn:Hrun.
  - cbn [snd] in Hrun1. subst st.
    destruct (Hf a b1 HR1 (HP _ _ _ Hrun) (log ++ new1))
      as (b2 & new2 & Hrun2 & HR2 & Hnew2).
    exists b2, (new1 ++ new2). rewrite Hrun2, app_assoc.
    split; [done|]. split; [by etrans|]. by apply Forall_app.
  - exists b1, new1. by rewrite <- Hrun1.
Qed.

Lemma snapshot_ascii `{Env} (cfg : Config) (b : Bridge) :
  (forall log node v, env_get_value log node = Ok v -> plain v = true) ->
  runs eq ascii_publish b (publish_initial_snapshot cfg).
Proof.
  intros Hplain. unfold publish_initial_snapshot. apply runs_get_self.
  rule runs_bind; [|intros _ ? <-; by rule runs_print].
  rule runs_for_each. intros [name node] ? <-. cbn [fst snd].
  apply (runs_bind_value eq ascii_publish (fun val => plain val = true)).
  - intros log val st. unfold try_except, invoke. cbn [fst snd].
    destruct (env_get_value log node) eqn:Hread.
    + intros [= <- _]. by eapply Hplain.
    + by intros [= <- _].
  - rule runs_try_except; [by rule runs_invoke|].
    intros e ? <-. rule runs_ret.
  - intros val ? <- Hval. apply runs_get_self.
    destruct (telemetry_topics b !! name) as [topic|]; [|rule runs_ret].
    case_bool_decide; [rule runs_ret|].
    rule runs_lift_bind. intros payload Hp. rule runs_invoke.
    cbn. eapply json_dumps_ascii; [|exact Hp]. cbn. by rewrite Hval.
Qed.

Lemma datachange_ascii `{Env} (cfg : Config) (b : Bridge) (node : Node)
    (val : pyval) (data : DataChange) :
  plain val = true ->
  runs eq ascii_publish b (datachange_notification cfg node val data).
Proof.
  intros Hval log.
  destruct (datachange_events cfg b log node val data) as (new & Hrun & Hnew).
  exists b, new. split; [done|]. split; [done|].
  eapply Forall_impl; [exact Hnew|].
  intros [[]|]; unfold change_event, ascii_publish; try done.
  intros (_ & _ & name & ts & _ & Hp & Hts).
  eapply json_dumps_ascii; [|exact Hp]. cbn. rewrite Hval.
  by destruct Hts as [->|[t ->]].
Qed.

(** X8. Telemetry is printable ASCII on the wire.  Every payload that a
    change notification publishes for a value made of [None], booleans,
    integers, text, lists and dictionaries contains only printable ASCII
    characters, whatever the characters of the name, of the value and of
    the time stamp; so does every payload of the initial snapshot when the
    values read are of that kind (the text that stands for a failed read
    is). *)
Theorem telemetry_payload_is_ascii `{Env} (cfg : Config) (b : Bridge)
    (log : list event) (topic payload : string) (qos : Z) (retain : bool) :
  (forall node val data,
      plain val = true ->
      Call (MqttPublish topic payload qos retain)
        ∈ drop (length log)
            (snd (snd (datachange_notification cfg node val data (b, log)))) ->
      only_ascii payload = true) /\
  ((forall log' node v, env_get_value log' node = Ok v -> plain v = true) ->
   Call (MqttPublish topic payload qos retain)
     ∈ drop (length log) (snd (snd (publish_initial_snapshot cfg (b, log)))) ->
   only_ascii payload = true).
Proof.
  split.
  - intros node val data Hval.
    destruct (datachange_ascii cfg b node val data Hval log)
      as (b' & new & -> & _ & Hnew).
    cbn [snd]. rewrite drop_app_length. intros Hin.
    rewrite Forall_forall in Hnew. exact (Hnew _ Hin).
  - intros Hplain.
    destruct (snapshot_ascii cfg b Hplain log) as (b' & new & -> & _ & Hnew).
    cbn [snd]. rewrite drop_app_length. intros Hin.
    rewrite Forall_forall in Hnew. exact (Hnew _ Hin).
Qed.

(** A value outside ASCII, on the wire. *)
Lemma telemetry_payload_is_ascii_witness :
  only_ascii ("{" +:+ quoted "name" +:+ ": " +:+ quoted "S1" +:+ ", "
              +:+ quoted "value" +:+ ": "
              +:+ quoted (String backslash "u00e9" +:+ String backslash "n")
              +:+ ", " +:+ quoted "ts" +:+ ": null}") = true.
Proof.
  apply (proj1 (@telemetry_payload_is_ascii Reference.env_ok default_config
                  Reference.started [] "imhotep/opc/tele/S1" _ 1 false)
               (Reference.node_of Reference.s1_address)
               (PStr (String "233" (String "010" "")))
               {| ServerTimestamp := None; SourceTimestamp := None |}).
  - reflexivity.
  - vm_compute. left.
Defined.

(** ** Errors of the change handler *)

Lemma json_dumps_change_error (name : string) (val ts : pyval) (e : exn) :
  json_dumps val = Raise e ->
  json_dumps (PDict [("name", PStr name); ("value", val); ("ts", ts)]) = Raise e.
Proof. intros Hval. cbn. rewrite Hval. reflexivity. Qed.

(** X9. The change handler has no guard of its own.  For a variable with a
    telemetry topic: a value that [json.dumps] cannot encode makes it raise
    that error with nothing published; a publish that raises makes it raise
    that error after the one attempt, without the console line. *)
Theorem change_handler_errors `{Env} (cfg : Config) (b : Bridge)
    (log : list event) (node : Node) (val : pyval) (data : DataChange)
    (topic : string) :
  telemetry_topics b
    !! default (node_str node) (nodeid_to_name b !! nodeid_to_string node)
  = Some topic ->
  topic <> "" ->
  (forall e, json_dumps val = Raise e ->
             datachange_notification cfg node val data (b, log)
             = (Raise e, (b, log))) /\
  (forall e, (forall payload,
                 env_unit log (MqttPublish topic payload 1 (MQTT_RETAIN cfg))
                 = Raise e) ->
             is_ok (json_dumps val) = true ->
             exists payload,
               datachange_notification cfg node val data (b, log)
               = (Raise e, (b, log ++ [Call (MqttPublish topic payload 1
                                               (MQTT_RETAIN cfg))]))).
Proof.
  intros Htopic Hne. split.
  - intros e Hval. unfold datachange_notification. run_M.
    rewrite Htopic. rewrite bool_decide_eq_false_2 by done. run_M.
    by rewrite (json_dumps_change_error _ _ _ e Hval).
  - intros e Hpub Hval. unfold datachange_notification. run_M.
    rewrite Htopic. rewrite bool_decide_eq_false_2 by done. run_M.
    destruct (json_dumps (PDict _)) as [payload|e'] eqn:Hp.
    + exists payload. by rewrite Hpub.
    + exfalso. destruct (json_dumps val) as [t|] eqn:Ht; [|done].
      cbn in Hp. rewrite Ht in Hp. cbn in Hp.
      by destruct ServerTimestamp, SourceTimestamp.
Qed.

Lemma change_handler_errors_witness :
  @datachange_notification Reference.env_publish_fails default_config
    (Reference.node_of Reference.s1_address)
    (PObj {| obj_str := "2025-01-01"; obj_repr := "datetime.date(2025, 1, 1)";
             obj_bool := true; obj_int := Raise (TypeError "not a number");
             obj_json := Raise (TypeError "not JSON serializable") |})
    {| ServerTimestamp := None; SourceTimestamp := None |}
    (Reference.started, [])
  = (Raise (TypeError "not JSON serializable"), (Reference.started, []))
  /\ exists payload,
      @datachange_notification Reference.env_publish_fails default_config
        (Reference.node_of Reference.s1_address) (PBool true)
        {| ServerTimestamp := None; SourceTimestamp := None |}
        (Reference.started, [])
      = (Raise (LibError "publish failed"),
         (Reference.started,
          [] ++ [Call (MqttPublish "imhotep/opc/tele/S1" payload 1
                         (MQTT_RETAIN default_config))])).
Proof.
  split.
  - apply (proj1 (@change_handler_errors Reference.env_publish_fails
                    default_config Reference.started []
                    (Reference.node_of Reference.s1_address) _ _
                    "imhotep/opc/tele/S1" eq_refl ltac:(discriminate))).
    reflexivity.
  - apply (proj2 (@change_handler_errors Reference.env_publish_fails
                    default_config Reference.started []
                    (Reference.node_of Reference.s1_address) _ _
                    "imhotep/opc/tele/S1" eq_refl ltac:(discriminate)));
      reflexivity.
Defined.

(** ** The initial snapshot *)

(** A loop whose body neither raises nor changes the bridge logs the calls
    of its steps one after the other. *)
Lemma for_each_steps {X} (P : X -> list call -> Prop) (body : X -> M unit)
    (b : Bridge) (l : list X) (log : list event) :
  (forall x log', x ∈ l ->
     exists step, body x (b, log') = (Ok tt, (b, log' ++ map Call step))
                  /\ P x step) ->
  exists steps,
    for_each l body (b, log) = (Ok tt, (b, log ++ map Call (concat steps)))
    /\ Forall2 P l steps.
Proof.
  revert log. induction l as [|x l IH]; intros log Hbody.
  - exists []. cbn. rewrite app_nil_r. by split.
  - destruct (Hbody x log) as (step & Hstep & HP); [left|].
    destruct (IH (log ++ map Call step)) as (steps & Hsteps & HPs).
    { intros y log' Hy. apply Hbody. by right. }
    exists (step :: steps). split; [|by constructor].
    cbn [for_each]. unfold mbind, M_bind. rewrite Hstep, Hsteps.
    cbn [concat]. by rewrite map_app, app_assoc.
Qed.

Lemma json_dumps_snapshot (name : string) (val : pyval) :
  is_ok (json_dumps val) = true ->
  exists payload,
    json_dumps (PDict [("name", PStr name); ("value", val); ("ts", PNone);
                       ("initial", PBool true)]) = Ok payload.
Proof.
  destruct (json_dumps val) as [t|e] eqn:Hval; [intros _|done].
  cbn. rewrite Hval. cbn. by eexists.
Qed.

(** X10. A failed read does not stop the initial snapshot.  On a bridge
    whose resolved variables are configured ones, when the broker accepts
    the publishes and the values read can be encoded, the snapshot returns
    normally after one read and one publish per resolved variable, in the
    order of [nodes], each on the telemetry topic of the variable; the value
    published is the value read or, when the read raised, the text
    [<read error: ...>] with the message of the error. *)
Theorem snapshot_publishes_every_node `{Env} (cfg : Config) (b : Bridge)
    (log : list event) :
  telemetry_topics b = telemetry_topics (init cfg) ->
  (forall name, name ∈ dict_keys (nodes b) ->
                name ∈ dict_keys (NODES_SPEC cfg)) ->
  (forall log' topic payload,
      env_unit log' (MqttPublish topic payload 1 (MQTT_RETAIN cfg)) = Ok tt) ->
  (forall log' node val,
      env_get_value log' node = Ok val -> is_ok (json_dumps val) = true) ->
  exists steps,
    publish_initial_snapshot cfg (b, log)
    = (Ok tt, (b, log ++ map Call (concat steps) ++ [Print DSnapshotPublished]))
    /\ Forall2
         (fun item step =>
            exists val payload,
              step = [NodeGetValue (snd item);
                      MqttPublish (telemetry_topic_of cfg (fst item)) payload 1
                                  (MQTT_RETAIN cfg)]
              /\ json_dumps (PDict [("name", PStr (fst item)); ("value", val);
                                    ("ts", PNone); ("initial", PBool true)])
                 = Ok payload
              /\ exists log',
                  match env_get_value log' (snd item) with
                  | Ok v => val = v
                  | Raise e => val = PStr ("<read error: " +:+ exn_str e +:+ ">")
                  end)
         (nodes b) steps.
Proof.
  intros Htopics Hnodes Hpub Henc.
  unfold publish_initial_snapshot, mbind, M_bind, get_self. cbn [fst snd].
  match goal with
  | |- context [for_each (nodes b) ?f (b, log)] =>
      match goal with
      | |- exists steps, _ /\ Forall2 ?P _ _ =>
          destruct (for_each_steps P f b (nodes b) log) as (steps & Hrun & Hall)
      end
  end.
  - intros [name node] log' Hitem. cbn [fst snd].
    assert (Hname : name ∈ dict_keys (NODES_SPEC cfg)).
    { apply Hnodes. unfold dict_keys.
      apply list_elem_of_fmap. by exists (name, node). }
    assert (Htopic : telemetry_topics b !! name
                     = Some (telemetry_topic_of cfg name)).
    { rewrite Htopics, telemetry_topics_init. by rewrite bool_decide_eq_true_2. }
    assert (Hne : telemetry_topic_of cfg name <> "").
    { unfold telemetry_topic_of. by destruct (MQTT_ROOT cfg). }
    run_M.
    destruct (env_get_value log' node) as [val|e] eqn:Hread; cbn [fst snd];
      rewrite Htopic; rewrite bool_decide_eq_false_2 by done.
    + destruct (json_dumps_snapshot name val) as [payload Hp]; [by eapply Henc|].
      rewrite Hp, Hpub. eexists [_; _]. split.
      * cbn [map fst snd]. rewrite <- app_assoc. reflexivity.
      * exists val, payload. split; [done|]. split; [done|].
        exists log'. by rewrite Hread.
    + destruct (json_dumps_snapshot name
                  (PStr ("<read error: " +:+ exn_str e +:+ ">")))
        as [payload Hp]; [done|].
      rewrite Hp, Hpub. eexists [_; _]. split.
      * cbn [map fst snd]. rewrite <- app_assoc. reflexivity.
      * eexists _, payload. split; [done|]. split; [done|].
        exists log'. by rewrite Hread.
  - exists steps. split; [|done]. rewrite Hrun. unfold print. cbn [fst snd].
    by rewrite <- app_assoc.
Qed.

Lemma snapshot_publishes_every_node_witness :
  exists steps,
    @publish_initial_snapshot env_read_fails default_config
      (Reference.started, [])
    = (Ok tt, (Reference.started,
               [] ++ map Call (concat steps) ++ [Print DSnapshotPublished]))
    /\ Forall2
         (fun item step =>
            exists val payload,
              step = [NodeGetValue (snd item);
                      MqttPublish (telemetry_topic_of default_config (fst item))
                                  payload 1 (MQTT_RETAIN default_config)]
              /\ json_dumps (PDict [("name", PStr (fst item)); ("value", val);
                                    ("ts", PNone); ("initial", PBool true)])
                 = Ok payload
              /\ exists log',
                  match @env_get_value env_read_fails log' (snd item) with
                  | Ok v => val = v
                  | Raise e => val = PStr ("<read error: " +:+ exn_str e +:+ ">")
                  end)
         (nodes Reference.started) steps.
Proof.
  apply (@snapshot_publishes_every_node env_read_fails default_config
           Reference.started []).
  - reflexivity.
  - intros name Hname. exact Hname.
  - reflexivity.
  - discriminate.
Defined.

(** ** Startup, when every call succeeds *)

Lemma dict_set_fresh {V} (d : list (string * V)) (k : string) (v : V) :
  k ∉ dict_keys d -> dict_set d k v = d ++ [(k, v)].
Proof.
  induction d as [|[k0 v0] d IH]; cbn; [done|].
  rewrite not_elem_of_cons. intros [Hne Hk].
  rewrite bool_decide_eq_false_2 by done. by rewrite IH.
Qed.

Section StartRun.

Context `{Env}.

(** The loop that resolves the variables: each name is added to [nodes]
    with its node, and the node id is recorded for the name. *)
Lemma resolve_loop (body : string * (string * py_type) -> M unit)
    (l : list (string * (string * py_type))) :
  (forall item b log,
      body item (b, log)
      = match env_get_node log (fst (snd item)) with
        | Ok node =>
            (Ok tt,
             (set_nodeid_to_name
                (fun m => <[nodeid_to_string node := fst item]> m)
                (set_nodes (fun d => dict_set d (fst item) node) b),
              log ++ [Call (OpcGetNode (fst (snd item)))]))
        | Raise e => (Raise e, (b, log ++ [Call (OpcGetNode (fst (snd item)))]))
        end) ->
  (forall log item, item ∈ l ->
                    is_ok (env_get_node log (fst (snd item))) = true) ->
  NoDup (dict_keys l) ->
  forall b log,
    (forall name, name ∈ dict_keys l -> name ∉ dict_keys (nodes b)) ->
    exists b' resolved,
      for_each l body (b, log)
      = (Ok tt, (b', log ++ map (fun item => Call (OpcGetNode (fst (snd item)))) l))
      /\ nodes b' = nodes b ++ resolved
      /\ Forall2 (fun item r =>
                    fst r = fst item
                    /\ exists log', env_get_node log' (fst (snd item))
                                    = Ok (snd r)) l resolved
      /\ nodeid_to_name b'
         = foldl (fun m r => <[nodeid_to_string (snd r) := fst r]> m)
                 (nodeid_to_name b) resolved
      /\ (subscription b', sub_handles b', topic_tables b')
         = (subscription b, sub_handles b, topic_tables b).
Proof.
  intros Hbody. induction l as [|item l IH]; intros Hok Hnodup b log Hfresh.
  - exists b, []. cbn. rewrite !app_nil_r. by repeat split.
  - cbn [for_each]. unfold mbind, M_bind. rewrite Hbody.
    pose proof (Hok log item ltac:(left)) as Hitem.
    destruct (env_get_node log (fst (snd item))) as [node|] eqn:Hnode; [|done].
    cbn [dict_keys map] in Hnodup, Hfresh. apply NoDup_cons in Hnodup as [Hnew Hnodup].
    set (b1 := set_nodeid_to_name _ _).
    assert (Hnodes1 : nodes b1 = nodes b ++ [(fst item, node)]).
    { cbn. apply dict_set_fresh. apply Hfresh. left. }
    destruct (IH ltac:(intros; apply Hok; by right) Hnodup b1
                 (log ++ [Call (OpcGetNode (fst (snd item)))]))
      as (b' & resolved & Hrun & Hnodes & Hall & Hids & Hrest).
    { intros name Hname. rewrite Hnodes1. unfold dict_keys. rewrite map_app.
      cbn. rewrite not_elem_of_app, list_elem_of_singleton. split.
      - apply Hfresh. by right.
      - intros ->. done. }
    exists b', ((fst item, node) :: resolved). rewrite Hrun.
    split; [cbn [map]; by rewrite <- app_assoc|].
    split; [rewrite Hnodes, Hnodes1; by rewrite <- app_assoc|].
    split; [constructor; [split; [done|by exists log]|done]|].
    split; [rewrite Hids; reflexivity|].
    rewrite Hrest. reflexivity.
Qed.

(** The loop that subscribes the resolved variables: one handle each. *)
Lemma subscribe_loop (body : string * Node -> M unit) (l : list (string * Node)) :
  (forall item b log,
      body item (b, log)
      = match env_subscribe_data_change log (snd item) with
        | Ok h =>
            (Ok tt, (set_sub_handles (fun hs => hs ++ [h]) b,
                     log ++ [Call (SubscribeDataChange (snd item))]))
        | Raise e =>
            (Raise e, (b, log ++ [Call (SubscribeDataChange (snd item))]))
        end) ->
  (forall log node, is_ok (env_subscribe_data_change log node) = true) ->
  forall b log,
    exists b' handles,
      for_each l body (b, log)
      = (Ok tt, (b', log ++ map (fun item => Call (SubscribeDataChange (snd item))) l))
      /\ sub_handles b' = sub_handles b ++ handles
      /\ length handles = length l
      /\ (nodes b', nodeid_to_name b', subscription b', topic_tables b')
         = (nodes b, nodeid_to_name b, subscription b, topic_tables b).
Proof.
  intros Hbody Hok. induction l as [|item l IH]; intros b log.
  - exists b, []. cbn. rewrite !app_nil_r. by repeat split.
  - cbn [for_each]. unfold mbind, M_bind. rewrite Hbody.
    pose proof (Hok log (snd item)) as Hitem.
    destruct (env_subscribe_data_change log (snd item)) as [h|]; [|done].
    destruct (IH (set_sub_handles (fun hs => hs ++ [h]) b)
                 (log ++ [Call (SubscribeDataChange (snd item))]))
      as (b' & handles & Hrun & Hhandles & Hlen & Hrest).
    exists b', (h :: handles). rewrite Hrun.
    split; [cbn [map]; by rewrite <- app_assoc|].
    split; [rewrite Hhandles; cbn; by rewrite <- app_assoc|].
    split; [cbn; by rewrite Hlen|].
    rewrite Hrest. reflexivity.
Qed.

(** [start] up to the initial snapshot. *)
Lemma start_run (cfg : Config) (log : list event) :
  NoDup (dict_keys (NODES_SPEC cfg)) ->
  (forall log' c,
      c ∈ [MqttConnect (MQTT_BROKER cfg) (MQTT_PORT cfg) 60; MqttLoopForever;
           OpcConnect (OPC_SERVER_URL cfg)] ->
      env_unit log' c = Ok tt) ->
  (forall log' item, item ∈ NODES_SPEC cfg ->
                     is_ok (env_get_node log' (fst (snd item))) = true) ->
  (forall log', is_ok (env_create_subscription log' (SUB_PUB_INTERVAL_MS cfg))
                = true) ->
  (forall log' node, is_ok (env_subscribe_data_change log' node) = true) ->
  exists b' handles,
    start cfg (init cfg, log)
    = publish_initial_snapshot cfg
        (b', log
             ++ [Call (MqttConnect (MQTT_BROKER cfg) (MQTT_PORT cfg) 60);
                 Call MqttLoopForever;
                 Print (DOpcConnecting (OPC_SERVER_URL cfg));
                 Call (OpcConnect (OPC_SERVER_URL cfg));
                 Print DOpcConnected]
             ++ map (fun item => Call (OpcGetNode (fst (snd item))))
                    (NODES_SPEC cfg)
             ++ [Call (OpcCreateSubscription (SUB_PUB_INTERVAL_MS cfg))]
             ++ map (fun item => Call (SubscribeDataChange (snd item))) (nodes b')
             ++ [Print (DOpcSubscribed (length (NODES_SPEC cfg)))])
    /\ Forall2 (fun item r =>
                  fst r = fst item
                  /\ exists log', env_get_node log' (fst (snd item))
                                  = Ok (snd r)) (NODES_SPEC cfg) (nodes b')
    /\ nodeid_to_name b'
       = foldl (fun m r => <[nodeid_to_string (snd r) := fst r]> m) ∅ (nodes b')
    /\ is_Some (subscription b')
    /\ sub_handles b' = handles /\ length handles = length (NODES_SPEC cfg)
    /\ topic_tables b' = topic_tables (init cfg).
Proof.
  intros Hnodup Hunit Hnode Hsub Hsubscribe.
  unfold start. run_M.
  rewrite Hunit by (rewrite !elem_of_cons; auto). cbn [fst snd].
  rewrite Hunit by (rewrite !elem_of_cons; auto). cbn [fst snd].
  rewrite Hunit by (rewrite !elem_of_cons; auto). cbn [fst snd].
  match goal with
  | |- context [for_each (NODES_SPEC cfg) ?f ?st] =>
      destruct (resolve_loop f (NODES_SPEC cfg)) with (b := fst st) (log := snd st)
        as (b1 & resolved & Hrun1 & Hnodes1 & Hall1 & Hids1 & Hrest1)
  end.
  { intros item b log'. run_M. by destruct (env_get_node log' _). }
  { done. }
  { done. }
  { intros name _. cbn. apply not_elem_of_nil. }
  cbn [fst snd] in Hrun1. rewrite Hrun1. cbn [fst snd].
  match goal with
  | |- context [env_create_subscription ?l ?ms] =>
      pose proof (Hsub l) as Hs;
      destruct (env_create_subscription l ms) as [sub|]; [|done]
  end.
  cbn [fst snd].
  match goal with
  | |- context [for_each ?l ?f ?st] =>
      destruct (subscribe_loop f l) with (b := fst st) (log := snd st)
        as (b2 & handles & Hrun2 & Hhandles2 & Hlen2 & Hrest2)
  end.
  { intros item b log'. run_M. by destruct (env_subscribe_data_change log' _). }
  { done. }
  cbn [fst snd] in Hrun2. rewrite Hrun2. cbn [fst snd].
  cbn in Hnodes1, Hids1, Hrest1, Hhandles2, Hrest2.
  injection Hrest1 as Hsub1 Hh1 Ht1 Hc1 Hn1.
  injection Hrest2 as Hnodes2 Hids2 Hsub2 Ht2 Hc2 Hn2.
  exists b2, handles.
  assert (Hlen : length handles = length (NODES_SPEC cfg)).
  { rewrite Hlen2. cbn. rewrite Hnodes1. symmetry. by eapply Forall2_length. }
  split.
  { f_equal. f_equal. rewrite Hhandles2, Hh1. cbn [app]. rewrite Hlen.
    rewrite Hnodes2. rewrite <- !app_assoc. reflexivity. }
  split; [by rewrite Hnodes2, Hnodes1|].
  split; [by rewrite Hids2, Hnodes2, Hids1, Hnodes1|].
  split; [rewrite Hsub2; by eexists|].
  split; [by rewrite Hhandles2, Hh1|].
  split; [done|].
  unfold topic_tables. cbn. congruence.
Qed.

End StartRun.

Lemma calls_of_map_call {X} (f : X -> call) (l : list X) :
  calls_of (map (fun x => Call (f x)) l) = map f l.
Proof. induction l as [|x l IH]; cbn; [done|]. f_equal. exact IH. Qed.

(** X11. Startup on a fresh bridge when the library calls succeed, for a
    configuration without repeated names: [start] reaches the initial
    snapshot after connecting the broker client, starting its loop,
    connecting the session, resolving every configured address in the
    order of [NODES_SPEC], creating one subscription and subscribing every
    resolved node, in this order.  The bridge then has a node for exactly
    the configured names, one handle per variable, a subscription, the
    topic maps of [__init__], and the count it prints is the number of
    configured variables. *)
Theorem start_resolves_then_subscribes `{Env} (cfg : Config)
    (log : list event) :
  NoDup (dict_keys (NODES_SPEC cfg)) ->
  (forall log' c,
      c ∈ [MqttConnect (MQTT_BROKER cfg) (MQTT_PORT cfg) 60; MqttLoopForever;
           OpcConnect (OPC_SERVER_URL cfg)] ->
      env_unit log' c = Ok tt) ->
  (forall log' item, item ∈ NODES_SPEC cfg ->
                     is_ok (env_get_node log' (fst (snd item))) = true) ->
  (forall log', is_ok (env_create_subscription log' (SUB_PUB_INTERVAL_MS cfg))
                = true) ->
  (forall log' node, is_ok (env_subscribe_data_change log' node) = true) ->
  exists b' pre,
    start cfg (init cfg, log) = publish_initial_snapshot cfg (b', log ++ pre)
    /\ calls_of pre
       = [MqttConnect (MQTT_BROKER cfg) (MQTT_PORT cfg) 60; MqttLoopForever;
          OpcConnect (OPC_SERVER_URL cfg)]
         ++ map (fun item => OpcGetNode (fst (snd item))) (NODES_SPEC cfg)
         ++ [OpcCreateSubscription (SUB_PUB_INTERVAL_MS cfg)]
         ++ map (fun item => SubscribeDataChange (snd item)) (nodes b')
    /\ Print (DOpcSubscribed (length (NODES_SPEC cfg))) ∈ pre
    /\ dict_keys (nodes b') = dict_keys (NODES_SPEC cfg)
    /\ length (sub_handles b') = length (NODES_SPEC cfg)
    /\ is_Some (subscription b')
    /\ topic_tables b' = topic_tables (init cfg).
Proof.
  intros Hnodup Hunit Hnode Hsub Hsubscribe.
  destruct (start_run cfg log Hnodup Hunit Hnode Hsub Hsubscribe)
    as (b' & handles & Hrun & Hall & _ & Hsome & Hhandles & Hlen & Htables).
  eexists b', _. split; [exact Hrun|].
  split.
  { rewrite !calls_of_app, !calls_of_map_call. cbn. by rewrite app_nil_r. }
  split.
  { rewrite !elem_of_app. do 4 right. apply list_elem_of_singleton. done. }
  split.
  { unfold dict_keys. clear -Hall.
    induction Hall as [|item r l1 l2 [Hname _] _ IH]; cbn; [done|].
    by rewrite Hname, IH. }
  split; [by rewrite Hhandles|]. by split.
Qed.

Lemma start_resolves_then_subscribes_witness :
  exists b' pre,
    @start Reference.env_ok default_config (init default_config, [])
    = @publish_initial_snapshot Reference.env_ok default_config (b', [] ++ pre)
    /\ calls_of pre
       = [MqttConnect (MQTT_BROKER default_config) (MQTT_PORT default_config) 60;
          MqttLoopForever; OpcConnect (OPC_SERVER_URL default_config)]
         ++ map (fun item => OpcGetNode (fst (snd item)))
                (NODES_SPEC default_config)
         ++ [OpcCreateSubscription (SUB_PUB_INTERVAL_MS default_config)]
         ++ map (fun item => SubscribeDataChange (snd item)) (nodes b')
    /\ Print (DOpcSubscribed (length (NODES_SPEC default_config))) ∈ pre
    /\ dict_keys (nodes b') = dict_keys (NODES_SPEC default_config)
    /\ length (sub_handles b') = length (NODES_SPEC default_config)
    /\ is_Some (subscription b')
    /\ topic_tables b' = topic_tables (init default_config).
Proof.
  apply (@start_resolves_then_subscribes Reference.env_ok default_config []).
  - apply (bool_decide_unpack _). vm_compute. exact I.
  - reflexivity.
  - reflexivity.
  - reflexivity.
  - reflexivity.
Defined.

(** ** Routing of change notifications after startup *)

Lemma reverse_map_as_comprehension (l : list (string * Node))
    (m0 : gmap string string) :
  foldl (fun m r => <[nodeid_to_string (snd r) := fst r]> m) m0 l
  = foldl (fun m kv => <[snd kv := fst kv]> m) m0
          (map (fun r => (fst r, nodeid_to_string (snd r))) l).
Proof.
  revert m0. induction l as [|r l IH]; intros m0; cbn; [done|]. apply IH.
Qed.

Lemma Forall2_elem_of_r {X Y} (P : X -> Y -> Prop) (l1 : list X) (l2 : list Y)
    (y : Y) :
  Forall2 P l1 l2 -> y ∈ l2 -> exists x, x ∈ l1 /\ P x y.
Proof.
  induction 1 as [|x0 y0 l1 l2 HP _ IH]; intros Hy.
  - by apply elem_of_nil in Hy.
  - apply elem_of_cons in Hy as [->|Hy].
    + exists x0. split; [left|done].
    + destruct (IH Hy) as (x & Hx & HPx). exists x. split; [by right|done].
Qed.

Lemma NoDup_map_inj {X Y} (f : X -> Y) (l : list X) (x y : X) :
  NoDup (map f l) -> x ∈ l -> y ∈ l -> f x = f y -> x = y.
Proof.
  induction l as [|z l IH]; cbn [map]; intros Hnodup Hx Hy Heq.
  - by apply elem_of_nil in Hx.
  - apply NoDup_cons in Hnodup as [Hz Hnodup].
    apply elem_of_cons in Hx as [->|Hx]; apply elem_of_cons in Hy as [->|Hy].
    + done.
    + exfalso. apply Hz. rewrite Heq. apply list_elem_of_fmap. by exists y.
    + exfalso. apply Hz. rewrite <- Heq. apply list_elem_of_fmap. by exists x.
    + by apply IH.
Qed.

(** A change notification for a node whose id is recorded. *)
Lemma datachange_named `{Env} (cfg : Config) (b : Bridge) (log : list event)
    (node : Node) (val : pyval) (data : DataChange) (name topic : string) :
  nodeid_to_name b !! nodeid_to_string node = Some name ->
  telemetry_topics b !! name = Some topic ->
  topic <> "" ->
  is_ok (json_dumps val) = true ->
  exists payload ts,
    json_dumps (PDict [("name", PStr name); ("value", val); ("ts", ts)])
    = Ok payload
    /\ snd (datachange_notification cfg node val data (b, log))
       = (b, log ++ Call (MqttPublish topic payload 1 (MQTT_RETAIN cfg))
               :: (if is_ok (env_unit log (MqttPublish topic payload 1
                                             (MQTT_RETAIN cfg)))
                   then [Print (DPublished name val topic)] else [])).
Proof.
  intros Hname Htopic Hne Hval. unfold datachange_notification. run_M.
  rewrite Hname. unfold default. cbn [from_option id]. rewrite Htopic.
  rewrite bool_decide_eq_false_2 by done. run_M.
  destruct (json_dumps (PDict _)) as [payload|e] eqn:Hp.
  - eexists payload, _. split; [exact Hp|].
    destruct (env_unit log _) as [[]|e]; cbn; by rewrite <- ?app_assoc.
  - exfalso. destruct (json_dumps val) as [t|] eqn:Ht; [|done].
    cbn in Hp. rewrite Ht in Hp. cbn in Hp.
    by destruct ServerTimestamp, SourceTimestamp.
Qed.

(** X12. After a startup in which every call succeeded, when distinct
    variables were resolved to nodes with distinct ids, a change of the node
    resolved for a variable is published once, on the telemetry topic of
    that variable and with its name in the payload: the reverse map that
    [start] fills sends the id of the node back to the name. *)
Theorem changes_published_under_their_name `{Env} (cfg : Config)
    (log : list event) :
  NoDup (dict_keys (NODES_SPEC cfg)) ->
  (forall log' c,
      c ∈ [MqttConnect (MQTT_BROKER cfg) (MQTT_PORT cfg) 60; MqttLoopForever;
           OpcConnect (OPC_SERVER_URL cfg)] ->
      env_unit log' c = Ok tt) ->
  (forall log' item, item ∈ NODES_SPEC cfg ->
                     is_ok (env_get_node log' (fst (snd item))) = true) ->
  (forall log', is_ok (env_create_subscription log' (SUB_PUB_INTERVAL_MS cfg))
                = true) ->
  (forall log' node, is_ok (env_subscribe_data_change log' node) = true) ->
  (forall log1 log2 item1 item2 node1 node2,
      item1 ∈ NODES_SPEC cfg -> item2 ∈ NODES_SPEC cfg ->
      env_get_node log1 (fst (snd item1)) = Ok node1 ->
      env_get_node log2 (fst (snd item2)) = Ok node2 ->
      nodeid_to_string node1 = nodeid_to_string node2 ->
      fst item1 = fst item2) ->
  forall name node,
    (name, node) ∈ nodes (fst (snd (start cfg (init cfg, log)))) ->
    nodeid_to_name (fst (snd (start cfg (init cfg, log))))
      !! nodeid_to_string node = Some name
    /\ forall val data log1,
        is_ok (json_dumps val) = true ->
        exists payload ts,
          json_dumps (PDict [("name", PStr name); ("value", val); ("ts", ts)])
          = Ok payload
          /\ calls_of
               (drop (length log1)
                  (snd (snd (datachange_notification cfg node val data
                               (fst (snd (start cfg (init cfg, log))), log1)))))
             = [MqttPublish (telemetry_topic_of cfg name) payload 1
                            (MQTT_RETAIN cfg)].
Proof.
  intros Hnodup Hunit Hnode Hsub Hsubscribe Hdistinct name node.
  destruct (start_run cfg log Hnodup Hunit Hnode Hsub Hsubscribe)
    as (b' & handles & Hrun & Hall & Hids & _ & _ & _ & Htables).
  rewrite Hrun.
  match goal with
  | |- context [publish_initial_snapshot cfg (b', ?l)] =>
      destruct (snapshot_events cfg b' l) as (b'' & new & -> & <- & _)
  end.
  cbn [fst snd]. intros Hin.
  destruct (Forall2_elem_of_r _ _ _ _ Hall Hin) as (item & Hitem & Hn & log0 & Hres).
  cbn [fst snd] in Hn, Hres.
  assert (Hlookup : nodeid_to_name b' !! nodeid_to_string node = Some name).
  { rewrite Hids, reverse_map_as_comprehension. apply inverse_comprehension.
    - intros n' Hn'. apply list_elem_of_fmap in Hn' as ([n1 node1] & [= -> Heq] & Hin1).
      destruct (Forall2_elem_of_r _ _ _ _ Hall Hin1)
        as (item1 & Hitem1 & Hn1 & log1 & Hres1).
      cbn [fst snd] in *. rewrite Hn1, Hn. symmetry in Heq.
      by eapply Hdistinct.
    - left. apply list_elem_of_fmap. by exists (name, node). }
  split; [exact Hlookup|]. intros val data log1 Hval.
  assert (Hname : name ∈ dict_keys (NODES_SPEC cfg)).
  { rewrite Hn. unfold dict_keys. apply list_elem_of_fmap. by exists item. }
  destruct (datachange_named cfg b' log1 node val data name
              (telemetry_topic_of cfg name) Hlookup)
    as (payload & ts & Hp & Hrun'); [| |done|].
  { assert (Ht : telemetry_topics b' = telemetry_topics (init cfg))
      by (unfold topic_tables in Htables; congruence).
    rewrite Ht, telemetry_topics_init. by rewrite bool_decide_eq_true_2. }
  { unfold telemetry_topic_of. by destruct (MQTT_ROOT cfg). }
  exists payload, ts. split; [exact Hp|]. rewrite Hrun'. cbn [snd].
  rewrite drop_app_length. destruct (is_ok (env_unit _ _)); reflexivity.
Qed.

Lemma changes_published_under_their_name_witness :
  nodeid_to_name
    (fst (snd (@start Reference.env_ok default_config (init default_config, []))))
    !! nodeid_to_string (Reference.node_of Reference.s1_address) = Some "S1"
  /\ forall val data log1,
      is_ok (json_dumps val) = true ->
      exists payload ts,
        json_dumps (PDict [("name", PStr "S1"); ("value", val); ("ts", ts)])
        = Ok payload
        /\ calls_of
             (drop (length log1)
                (snd (snd (@datachange_notification Reference.env_ok
                             default_config
                             (Reference.node_of Reference.s1_address) val data
                             (fst (snd (@start Reference.env_ok default_config
                                          (init default_config, []))), log1)))))
           = [MqttPublish (telemetry_topic_of default_config "S1") payload 1
                          (MQTT_RETAIN default_config)].
Proof.
  apply (@changes_published_under_their_name Reference.env_ok default_config []).
  - apply (bool_decide_unpack _). vm_compute. exact I.
  - reflexivity.
  - reflexivity.
  - reflexivity.
  - reflexivity.
  - intros _ _ item1 item2 node1 node2 Hitem1 Hitem2 [= <-] [= <-] Heq.
    f_equal. revert Hitem1 Hitem2 Heq.
    apply (NoDup_map_inj (fun item => fst (snd item))).
    apply (bool_decide_unpack _). vm_compute. exact I.
  - apply dict_get_elem_of. reflexivity.
Defined.

(** ** Subscriptions of the broker client *)

Lemma cb_for_each_print {X} (l : list X) (line : X -> string)
    (log : list client_event) :
  cb_for_each l (fun x => cb_print (line x)) log
  = (Ok tt, log ++ map (fun x => ClientPrint (line x)) l).
Proof.
  revert log. induction l as [|x l IH]; intros log; cbn [cb_for_each map].
  - unfold mret, Cb_ret. by rewrite app_nil_r.
  - unfold mbind, Cb_bind, cb_print at 1. rewrite IH. by rewrite <- app_assoc.
Qed.

Lemma subscribed_topics_app (l1 l2 : list client_event) :
  subscribed_topics (l1 ++ l2) = subscribed_topics l1 ++ subscribed_topics l2.
Proof. unfold subscribed_topics. by rewrite omap_app, concat_app. Qed.

Lemma subscribed_topics_prints {X} (line : X -> string) (l : list X) :
  subscribed_topics (map (fun x => ClientPrint (line x)) l) = [].
Proof. induction l as [|x l IH]; [done|exact IH]. Qed.

Lemma online_payload :
  json_dumps (PDict [("state", PStr "online")])
  = Ok ("{" +:+ quoted "state" +:+ ": " +:+ quoted "online" +:+ "}").
Proof. vm_compute. reflexivity. Qed.

(** The topic filters [on_connect] asks for are the values of
    [control_topics], in one call. *)
Lemma on_connect_subscribed `{ClientEnv} (cfg : Config) (b : Bridge)
    (reason_code : string) (log : list client_event) :
  subscribed_topics (drop (length log) (snd (on_connect cfg b reason_code log)))
  = dict_values (control_topics b).
Proof.
  unfold on_connect. rewrite online_payload.
  unfold mbind, Cb_bind, cb_print at 1, cb_lift.
  destruct (dict_values (control_topics b)) as [|t ts] eqn:Hvalues; cbn [map].
  - unfold mret, Cb_ret, cb_call. cbn [snd]. rewrite <- app_assoc.
    by rewrite drop_app_length.
  - unfold cb_call at 1. destruct (client_subscribe _ _) as [[]|e]; cbn [snd].
    + unfold cb_print at 1. rewrite cb_for_each_print.
      case_bool_decide; unfold cb_print, mret, Cb_ret, cb_call; cbn [snd];
        rewrite <- !app_assoc, drop_app_length;
        rewrite !subscribed_topics_app, subscribed_topics_prints; cbn;
        rewrite ?app_nil_r; f_equal; clear; induction ts as [|? ts IH]; cbn;
        by rewrite ?IH.
    + rewrite <- !app_assoc, drop_app_length. cbn. rewrite app_nil_r.
      f_equal. clear. induction ts as [|? ts IH]; cbn; by rewrite ?IH.
Qed.

Lemma control_topics_values (cfg : Config) (topic : string) :
  topic ∈ dict_values (control_topics (init cfg)) <->
  exists name, name ∈ dict_keys (NODES_SPEC cfg)
               /\ topic = control_topic_of cfg name.
Proof.
  unfold dict_values. rewrite list_elem_of_fmap. split.
  - intros ([name t] & -> & Hin). cbn [snd].
    apply control_comprehension_elem in Hin as [Hin|[Hname Ht]].
    + by apply elem_of_nil in Hin.
    + by exists name.
  - intros (name & Hname & ->). exists (name, control_topic_of cfg name).
    split; [done|]. apply dict_get_elem_of.
    rewrite control_topics_init. by rewrite bool_decide_eq_true_2.
Qed.

(** X13. What is subscribed is what is dispatched.  On a bridge with the
    topic maps of [__init__], a topic is among the filters that
    [on_connect] asks the broker for exactly when it is the control topic
    of a configured variable, which is exactly when [on_message] finds it
    in [topic_to_name]; a message on any other topic is dropped by
    [on_message] without effect. *)
Theorem subscribed_topics_are_dispatched `{ClientEnv} `{TextLib} `{Env}
    (cfg : Config) (b : Bridge) (reason_code : string)
    (log : list client_event) (topic : string) :
  control_topics b = control_topics (init cfg) ->
  topic_to_name b = topic_to_name (init cfg) ->
  (topic ∈ subscribed_topics
             (drop (length log) (snd (on_connect cfg b reason_code log)))
   <-> exists name, name ∈ dict_keys (NODES_SPEC cfg)
                    /\ topic = control_topic_of cfg name)
  /\ (topic ∈ subscribed_topics
                (drop (length log) (snd (on_connect cfg b reason_code log)))
      <-> is_Some (topic_to_name b !! topic))
  /\ (topic ∉ subscribed_topics
                (drop (length log) (snd (on_connect cfg b reason_code log)))
      -> forall payload l,
          on_message cfg topic payload (b, l) = (Ok tt, (b, l))).
Proof.
  intros Hcontrol Hnames.
  rewrite on_connect_subscribed, Hcontrol, control_topics_values.
  assert (Hdispatch :
            (exists name, name ∈ dict_keys (NODES_SPEC cfg)
                          /\ topic = control_topic_of cfg name)
            <-> is_Some (topic_to_name b !! topic)).
  { rewrite Hnames. split.
    - intros (name & Hname). exists name. by apply topic_to_name_init.
    - intros [name Hname]. exists name. by apply topic_to_name_init. }
  split; [done|]. split; [done|].
  intros Hno payload l. apply on_message_no_topic.
  rewrite Hdispatch in Hno. by apply eq_None_not_Some.
Qed.

Lemma subscribed_topics_are_dispatched_witness :
  ("imhotep/opc/cmd/SetpNo"
     ∈ subscribed_topics
         (drop (length (@nil client_event))
            (snd (@on_connect client_ok default_config (init default_config)
                    "Success" [])))
   <-> exists name, name ∈ dict_keys (NODES_SPEC default_config)
                    /\ "imhotep/opc/cmd/SetpNo"
                       = control_topic_of default_config name)
  /\ ("imhotep/opc/cmd/SetpNo"
        ∈ subscribed_topics
            (drop (length (@nil client_event))
               (snd (@on_connect client_ok default_config (init default_config)
                       "Success" [])))
      <-> is_Some (topic_to_name (init default_config)
                     !! "imhotep/opc/cmd/SetpNo"))
  /\ ("imhotep/opc/cmd/SetpNo"
        ∉ subscribed_topics
            (drop (length (@nil client_event))
               (snd (@on_connect client_ok default_config (init default_config)
                       "Success" [])))
      -> forall payload l,
          @on_message Reference.text_lib Reference.env_ok default_config
            "imhotep/opc/cmd/SetpNo" payload (init default_config, l)
          = (Ok tt, (init default_config, l))).
Proof.
  apply (@subscribed_topics_are_dispatched client_ok Reference.text_lib
           Reference.env_ok default_config (init default_config) "Success" []
           "imhotep/opc/cmd/SetpNo"); reflexivity.
Defined.

(** X14. The online status depends on the subscription.  When the broker
    client refuses the subscription, [on_connect] raises that error right
    after the call and nothing is published.  Otherwise (the subscription
    is accepted, or there is no control topic to subscribe) [on_connect]
    ends with one publish, of the retained [online] status with QoS 1 on
    the status topic, the topic on which [stop] publishes [offline]; the
    outcome of that publish is the outcome of [on_connect]. *)
Theorem on_connect_online_status `{ClientEnv} (cfg : Config) (b : Bridge)
    (reason_code : string) (log : list client_event) :
  (forall e,
      control_topics b <> [] ->
      client_subscribe
        (log ++ [ClientPrint ("[MQTT] Connected with result code: "
                              +:+ reason_code)])
        (map (fun topic => (topic, 1)) (dict_values (control_topics b)))
      = Raise e ->
      on_connect cfg b reason_code log
      = (Raise e,
         log ++ [ClientPrint ("[MQTT] Connected with result code: "
                              +:+ reason_code);
                 ClientSubscribe
                   (map (fun topic => (topic, 1))
                        (dict_values (control_topics b)))])) /\
  (control_topics b = []
   \/ client_subscribe
        (log ++ [ClientPrint ("[MQTT] Connected with result code: "
                              +:+ reason_code)])
        (map (fun topic => (topic, 1)) (dict_values (control_topics b)))
      = Ok tt ->
   exists before payload,
     on_connect cfg b reason_code log
     = (client_publish (log ++ before) (MQTT_ROOT cfg +:+ "/status") payload
                       1 true,
        log ++ before
            ++ [ClientPublish (MQTT_ROOT cfg +:+ "/status") payload 1 true])
     /\ json_dumps (PDict [("state", PStr "online")]) = Ok payload
     /\ Forall (fun ev => match ev with
                          | ClientPublish _ _ _ _ => False
                          | _ => True
                          end) before
     /\ exists offline,
         offline_publish cfg
         = MqttPublish (MQTT_ROOT cfg +:+ "/status") offline 1 true).
Proof.
  split.
  - intros e Hne Hsub. unfold on_connect.
    unfold mbind, Cb_bind, cb_print at 1.
    destruct (control_topics b) as [|[name topic] d]; [done|].
    cbn [dict_values map snd] in *. unfold cb_call at 1. rewrite Hsub.
    by rewrite <- app_assoc.
  - intros Hsub. unfold on_connect. rewrite online_payload.
    unfold mbind, Cb_bind, cb_print at 1, cb_lift.
    destruct (control_topics b) as [|[name topic] d] eqn:Hcontrol.
    + cbn [dict_values map]. unfold mret, Cb_ret, cb_call.
      eexists [_], _.
      split; [rewrite <- !app_assoc; cbn [app]; rewrite <- ?app_assoc; cbn [app]; reflexivity|].
      split; [reflexivity|].
      split; [by repeat constructor|]. by eexists.
    + destruct Hsub as [|Hsub]; [done|].
      cbn [dict_values map snd] in *. unfold cb_call at 1. rewrite Hsub.
      unfold cb_print at 1. rewrite cb_for_each_print.
      set (shown := map (fun s => ClientPrint ("   - " +:+ fst s)) _).
      assert (Hshown : Forall (fun ev => match ev with
                                         | ClientPublish _ _ _ _ => False
                                         | _ => True
                                         end) shown).
      { subst shown. apply Forall_forall. intros ev Hev.
        by apply list_elem_of_fmap in Hev as (s & -> & _). }
      clearbody shown.
      case_bool_decide; unfold cb_print, mret, Cb_ret, cb_call.
      * eexists (_ :: _ :: _ :: shown ++ [_]), _.
        split; [rewrite <- !app_assoc; cbn [app]; rewrite <- ?app_assoc; cbn [app]; reflexivity|].
        split; [reflexivity|].
        split; [|by eexists].
        repeat (constructor; [done|]). apply Forall_app. split; [done|].
        by repeat constructor.
      * eexists (_ :: _ :: _ :: shown), _.
        split; [rewrite <- !app_assoc; cbn [app]; rewrite <- ?app_assoc; cbn [app]; reflexivity|].
        split; [reflexivity|].
        split; [|by eexists].
        by repeat (constructor; [done|]).
Qed.

(** ** Startup followed by shutdown *)

Section Handles.

Context `{Env}.

Lemma handles_obtained_app (before l1 l2 : list event) :
  handles_obtained before (l1 ++ l2)
  = handles_obtained before l1 ++ handles_obtained (before ++ l1) l2.
Proof.
  revert before. induction l1 as [|ev l1 IH]; intros before; cbn.
  - by rewrite app_nil_r.
  - rewrite IH, <- !app_assoc. reflexivity.
Qed.

Lemma handles_obtained_none (before l : list event) :
  Forall no_subscribe l -> handles_obtained before l = [].
Proof.
  intros Hl. revert before. induction Hl as [|ev l Hev _ IH]; intros before.
  - reflexivity.
  - cbn. rewrite IH. by destruct ev as [[]|].
Qed.

(** The resolution loop, whatever its outcome. *)
Lemma resolve_loop_any (body : string * (string * py_type) -> M unit)
    (l : list (string * (string * py_type))) :
  (forall item b log,
      body item (b, log)
      = match env_get_node log (fst (snd item)) with
        | Ok node =>
            (Ok tt,
             (set_nodeid_to_name
                (fun m => <[nodeid_to_string node := fst item]> m)
                (set_nodes (fun d => dict_set d (fst item) node) b),
              log ++ [Call (OpcGetNode (fst (snd item)))]))
        | Raise e => (Raise e, (b, log ++ [Call (OpcGetNode (fst (snd item)))]))
        end) ->
  forall b log, exists r b' new,
    for_each l body (b, log) = (r, (b', log ++ new))
    /\ subscriptions b' = subscriptions b
    /\ Forall no_subscribe new.
Proof.
  intros Hbody. induction l as [|item l IH]; intros b log.
  - exists (Ok tt), b, []. cbn. rewrite app_nil_r. by repeat split.
  - cbn [for_each]. unfold mbind, M_bind. rewrite Hbody.
    destruct (env_get_node log (fst (snd item))) as [node|e].
    + destruct (IH (set_nodeid_to_name
                      (fun m => <[nodeid_to_string node := fst item]> m)
                      (set_nodes (fun d => dict_set d (fst item) node) b))
                   (log ++ [Call (OpcGetNode (fst (snd item)))]))
        as (r & b' & new & -> & Hsame & Hnew).
      exists r, b', (Call (OpcGetNode (fst (snd item))) :: new).
      rewrite <- app_assoc. split; [done|]. split; [done|]. by constructor.
    + exists (Raise e), b, [Call (OpcGetNode (fst (snd item)))].
      split; [done|]. split; [done|]. by repeat constructor.
Qed.

(** The subscription loop, whatever its outcome: the handles kept are
    the handles returned. *)
Lemma subscribe_loop_any (body : string * Node -> M unit)
    (l : list (string * Node)) :
  (forall item b log,
      body item (b, log)
      = match env_subscribe_data_change log (snd item) with
        | Ok h =>
            (Ok tt, (set_sub_handles (fun hs => hs ++ [h]) b,
                     log ++ [Call (SubscribeDataChange (snd item))]))
        | Raise e =>
            (Raise e, (b, log ++ [Call (SubscribeDataChange (snd item))]))
        end) ->
  forall b log, exists r b' new,
    for_each l body (b, log) = (r, (b', log ++ new))
    /\ sub_handles b' = sub_handles b ++ handles_obtained log new
    /\ subscription b' = subscription b.
Proof.
  intros Hbody. induction l as [|item l IH]; intros b log.
  - exists (Ok tt), b, []. cbn. rewrite !app_nil_r. by repeat split.
  - cbn [for_each]. unfold mbind, M_bind. rewrite Hbody.
    destruct (env_subscribe_data_change log (snd item)) as [h|e] eqn:Hh.
    + destruct (IH (set_sub_handles (fun hs => hs ++ [h]) b)
                   (log ++ [Call (SubscribeDataChange (snd item))]))
        as (r & b' & new & -> & Hhandles & Hsub).
      exists r, b', (Call (SubscribeDataChange (snd item)) :: new).
      rewrite <- app_assoc. split; [done|]. split; [|done].
      rewrite Hhandles. cbn. rewrite Hh. by rewrite <- app_assoc.
    + exists (Raise e), b, [Call (SubscribeDataChange (snd item))].
      split; [done|]. split; [|done]. cbn. rewrite Hh. by rewrite app_nil_r.
Qed.

(** What [start] leaves on a fresh bridge, whatever its outcome. *)
Lemma start_handles (cfg : Config) (log : list event) :
  exists b' new,
    snd (start cfg (init cfg, log)) = (b', log ++ new)
    /\ sub_handles b' = handles_obtained log new
    /\ (subscription b' = None -> sub_handles b' = []).
Proof.
  assert (Hdone : forall b' new,
             subscriptions b' = subscriptions (init cfg) ->
             Forall no_subscribe new ->
             sub_handles b' = handles_obtained log new
             /\ (subscription b' = None -> sub_handles b' = [])).
  { intros b' new [= Hs Hh] Hnew. rewrite handles_obtained_none by done.
    by rewrite Hh. }
  set (c1 := Call (MqttConnect (MQTT_BROKER cfg) (MQTT_PORT cfg) 60)).
  set (c2 := Call MqttLoopForever).
  set (p1 := Print (DOpcConnecting (OPC_SERVER_URL cfg))).
  set (c3 := Call (OpcConnect (OPC_SERVER_URL cfg))).
  set (p2 := Print DOpcConnected).
  set (c4 := Call (OpcCreateSubscription (SUB_PUB_INTERVAL_MS cfg))).
  assert (Hfixed : Forall no_subscribe [c1; c2; p1; c3; p2; c4])
    by (by repeat constructor).
  unfold start. run_M. fold c1 c2 p1 c3 p2 c4.
  destruct (env_unit log _) as [[]|e]; cbn [fst snd].
  2:{ exists (init cfg), [c1]. split; [reflexivity|]. apply Hdone; [done|].
      by repeat constructor. }
  destruct (env_unit _ _) as [[]|e]; cbn [fst snd].
  2:{ exists (init cfg), [c1; c2]. split; [by rewrite <- app_assoc|].
      apply Hdone; [done|]. by repeat constructor. }
  destruct (env_unit _ _) as [[]|e]; cbn [fst snd].
  2:{ exists (init cfg), [c1; c2; p1; c3].
      split; [by rewrite <- !app_assoc|].
      apply Hdone; [done|]. by repeat constructor. }
  match goal with
  | |- context [for_each (NODES_SPEC cfg) ?f ?st] =>
      destruct (resolve_loop_any f (NODES_SPEC cfg)) with (b := fst st)
                                                          (log := snd st)
        as (r1 & b1 & new1 & Hrun1 & Hsame1 & Hnew1)
  end.
  { intros item b log'. run_M. by destruct (env_get_node log' _). }
  cbn [fst snd] in Hrun1, Hsame1. rewrite Hrun1.
  assert (Hprefix : Forall no_subscribe ([c1; c2; p1; c3; p2] ++ new1)).
  { apply Forall_app. split; [by repeat constructor|done]. }
  destruct r1 as [[]|e]; cbn [fst snd].
  2:{ exists b1, ([c1; c2; p1; c3; p2] ++ new1).
      split; [by rewrite <- !app_assoc|]. by apply Hdone. }
  destruct (env_create_subscription _ _) as [sub|e]; cbn [fst snd].
  2:{ exists b1, (([c1; c2; p1; c3; p2] ++ new1) ++ [c4]).
      split; [by rewrite <- !app_assoc|].
      apply Hdone; [done|]. apply Forall_app. split; [done|].
      by repeat constructor. }
  match goal with
  | |- context [for_each ?l ?f ?st] =>
      destruct (subscribe_loop_any f l) with (b := fst st) (log := snd st)
        as (r2 & b2 & new2 & Hrun2 & Hhandles2 & Hsub2)
  end.
  { intros item b log'. run_M. by destruct (env_subscribe_data_change log' _). }
  cbn [fst snd] in Hrun2, Hhandles2, Hsub2. rewrite Hrun2.
  injection Hsame1 as Hs1 Hh1.
  cbn [set_subscription sub_handles subscription] in Hhandles2, Hsub2.
  rewrite Hh1 in Hhandles2. cbn [init sub_handles app] in Hhandles2.
  assert (Hhandles :
            forall rest, Forall no_subscribe rest ->
              sub_handles b2
              = handles_obtained log
                  ((([c1; c2; p1; c3; p2] ++ new1) ++ [c4]) ++ new2 ++ rest)).
  { intros rest Hrest.
    rewrite (handles_obtained_app log), (handles_obtained_app _ new2).
    rewrite (handles_obtained_none log).
    2:{ apply Forall_app. split; [done|]. by repeat constructor. }
    rewrite (handles_obtained_none _ rest) by done.
    rewrite app_nil_r. cbn [app]. rewrite Hhandles2. f_equal.
    by rewrite <- !app_assoc. }
  destruct r2 as [[]|e]; cbn [fst snd].
  2:{ exists b2, ((([c1; c2; p1; c3; p2] ++ new1) ++ [c4]) ++ new2 ++ []).
      split; [|split; [apply (Hhandles []); constructor|]].
      - rewrite app_nil_r, <- !app_assoc. reflexivity.
      - by rewrite Hsub2. }
  match goal with
  | |- context [publish_initial_snapshot cfg (?b, ?l)] =>
      destruct (snapshot_events cfg b l) as (b3 & new3 & -> & <- & Hnew3)
  end.
  exists b2, ((([c1; c2; p1; c3; p2] ++ new1) ++ [c4])
              ++ new2 ++ Print (DOpcSubscribed (length (sub_handles b2)))
                         :: new3).
  split; [|split; [apply Hhandles|]].
  - rewrite <- !app_assoc. cbn [app]. reflexivity.
  - constructor; [done|]. eapply Forall_impl; [exact Hnew3|].
    intros [[]|]; done.
  - by rewrite Hsub2.
Qed.

End Handles.

Lemma unsubscribed_app (l1 l2 : list call) :
  unsubscribed (l1 ++ l2) = unsubscribed l1 ++ unsubscribed l2.
Proof. apply omap_app. Qed.

Lemma unsubscribed_handles (l : list Z) : unsubscribed (map Unsubscribe l) = l.
Proof. induction l as [|h l IH]; cbn; [done|]. f_equal. exact IH. Qed.

(** X15. No handle is left behind.  Whatever the environment answers and
    wherever [start] stops on a fresh bridge (normally or on an error of any
    of its calls), the [stop] that the main block then runs asks to
    unsubscribe exactly the handles that the subscribe calls of [start]
    returned, in the order in which they were obtained, and goes on to
    disconnect the session and to publish the offline status. *)
Theorem stop_releases_start_handles `{Env} (cfg : Config) (log : list event) :
  exists b' new post,
    snd (start cfg (init cfg, log)) = (b', log ++ new)
    /\ snd (stop cfg (b', log ++ new)) = (b', (log ++ new) ++ post)
    /\ unsubscribed (calls_of post) = handles_obtained log new
    /\ OpcDisconnect ∈ calls_of post
    /\ offline_publish cfg ∈ calls_of post.
Proof.
  destruct (start_handles cfg log) as (b' & new & Hstart & Hhandles & Hnone).
  destruct (stop_run cfg b' (log ++ new))
    as (before & between & after & Hstop & Hbefore & Hbetween & Hafter).
  exists b', new, (before ++ Call OpcDisconnect
                     :: between ++ Call (offline_publish cfg) :: after).
  split; [exact Hstart|]. split; [by rewrite Hstop|].
  rewrite calls_of_app, calls_of_call, calls_of_app, calls_of_call.
  rewrite Hbefore, Hbetween, Hafter. split; [|split].
  - rewrite <- Hhandles. destruct (subscription b') as [sub|].
    + rewrite !unsubscribed_app, unsubscribed_handles.
      destruct (is_ok _); cbn; by rewrite ?app_nil_r.
    + rewrite Hnone by done. by destruct (is_ok _).
  - apply elem_of_app. right. left.
  - apply elem_of_app. right. cbn [app]. right. left.
Qed.

(** * Further properties: the stand-alone client *)

(** ** Words of a command line *)

Lemma no_space_app (a b : string) :
  no_space (a +:+ b) = no_space a && no_space b.
Proof.
  induction a as [|c a IH]; [done|]. rewrite append_cons. cbn.
  by rewrite IH, andb_assoc.
Qed.

Lemma append_not_empty (a : string) (c : ascii) : a +:+ String c "" <> "".
Proof. by destruct a. Qed.

Lemma split_go_words (word s : string) :
  word = "" \/ Standalone.is_word word ->
  Forall Standalone.is_word (Standalone.split_go word s).
Proof.
  revert word. induction s as [|c s IH]; intros word Hword; cbn.
  - case_bool_decide; [constructor|]. destruct Hword; [done|].
    constructor; [done|constructor].
  - destruct (is_space c) eqn:Hc.
    + case_bool_decide.
      * apply IH. by left.
      * destruct Hword; [done|]. constructor; [done|]. apply IH. by left.
    + apply IH. right. split; [apply append_not_empty|].
      rewrite no_space_app. cbn. rewrite Hc. cbn.
      destruct Hword as [->|[_ ->]]; reflexivity.
Qed.

Lemma split_words (s : string) :
  Forall Standalone.is_word (Standalone.split s).
Proof. apply split_go_words. by left. Qed.

Lemma split_go_nil (word s : string) :
  Standalone.split_go word s = [] -> word = "" /\ only_space s = true.
Proof.
  revert word. induction s as [|c s IH]; intros word; cbn.
  - by case_bool_decide.
  - destruct (is_space c).
    + case_bool_decide; [|done]. intros Hs. by destruct (IH _ Hs).
    + intros Hs. destruct (IH _ Hs) as [Hw _].
      by apply append_not_empty in Hw.
Qed.

(** A line that is not blank has a first word. *)
Lemma split_strip_first (text : string) :
  strip text <> "" ->
  exists first rest, Standalone.split (strip text) = first :: rest.
Proof.
  intros Hne. destruct (Standalone.split (strip text)) as [|first rest] eqn:Hs;
    [|by eauto].
  apply split_go_nil in Hs as [_ Hs]. exfalso. apply Hne.
  rewrite <- strip_idemp. unfold strip at 1.
  by rewrite (lstrip_only_space _ Hs).
Qed.

Lemma rstrip_no_space (s : string) : no_space s = true -> rstrip s = s.
Proof.
  induction s as [|c s IH]; [done|]. cbn.
  intros Hs. apply andb_prop in Hs as [Hc Hs]. rewrite (IH Hs).
  destruct s; [|done]. by destruct (is_space c).
Qed.

Lemma rstrip_app (a b : string) :
  rstrip b <> "" -> rstrip (a +:+ b) = a +:+ rstrip b.
Proof.
  intros Hb. induction a as [|c a IH]; [done|].
  rewrite !append_cons. cbn. rewrite IH.
  destruct (a +:+ rstrip b) eqn:Hab; [|done].
  destruct a; [|done]. by rewrite append_nil in Hab.
Qed.

Lemma join_words_head (ws : list string) :
  Forall Standalone.is_word ws -> ws <> [] ->
  exists c s, join " " ws = String c s /\ is_space c = false.
Proof.
  intros Hws Hne. destruct Hws as [|w ws [Hw Hsp] Hws]; [done|].
  destruct w as [|c w]; [done|]. cbn in Hsp.
  apply andb_prop in Hsp as [Hc _]. apply negb_true_iff in Hc.
  destruct ws; cbn [join]; rewrite ?append_cons; eauto.
Qed.

Lemma join_cons (sep x y : string) (l : list string) :
  join sep (x :: y :: l) = x +:+ sep +:+ join sep (y :: l).
Proof. reflexivity. Qed.

Lemma rstrip_join_words (ws : list string) :
  Forall Standalone.is_word ws -> rstrip (join " " ws) = join " " ws.
Proof.
  induction 1 as [|w ws [Hw Hsp] Hws IH]; [done|].
  destruct ws as [|w' ws].
  - by apply rstrip_no_space.
  - rewrite join_cons.
    destruct (join_words_head (w' :: ws) Hws) as (c & s & Hj & _); [done|].
    assert (Htail : rstrip (" " +:+ join " " (w' :: ws))
                    = " " +:+ join " " (w' :: ws)).
    { rewrite rstrip_app; rewrite IH; [done|]. by rewrite Hj. }
    rewrite rstrip_app; rewrite Htail; [done|]. by rewrite Hj.
Qed.

(** Joined words carry no outer whitespace. *)
Lemma strip_join_words (ws : list string) :
  Forall Standalone.is_word ws -> strip (join " " ws) = join " " ws.
Proof.
  intros Hws. unfold strip. destruct ws as [|w ws]; [done|].
  destruct (join_words_head (w :: ws) Hws) as (c & s & Hj & Hc); [done|].
  rewrite Hj, (lstrip_id _ _ Hc), <- Hj. by apply rstrip_join_words.
Qed.

(** ** The conversion of the stand-alone client *)

Lemma typed_value_outcome (ty : py_type) (value_str : string) :
  match Standalone.typed_value ty value_str with
  | Ok value =>
      match ty with
      | Tbool => exists b, value = PBool b
      | Tint => exists z, value = PInt z
      | Tstr => value = PStr value_str
      end
  | Raise e => exists msg, e = ValueError msg
  end.
Proof.
  destruct ty; cbn.
  - unfold Standalone.to_bool. repeat case_bool_decide; cbn; eauto.
  - unfold int_of_str. destruct (int_literal _); cbn; eauto.
  - reflexivity.
Qed.

Lemma standalone_variant_for_kind (ty : py_type) (value : pyval) :
  match ty with
  | Tbool => exists b, value = PBool b
  | Tint => exists z, value = PInt z
  | Tstr => exists s, value = PStr s
  end ->
  Standalone.variant_for value ty
  = Ok {| variant_value := value; variant_type := variant_type_of ty |}.
Proof. destruct ty; intros [x ->]; reflexivity. Qed.

(** X16. The two programs decode alike.  The text that the [set] command
    of the stand-alone client converts (the words after the node name,
    joined by one space) and the same text sent to the bridge as a payload
    give the same value or the same error, for each declared type, unless
    the text is a JSON object with a member [value]; the variant built for
    a decoded value is the same as well. *)
Theorem set_decodes_like_the_bridge `{TextLib} (cmd : string)
    (payload : list Byte.byte) (ty : py_type) :
  decode_utf8_ignore payload = join " " (drop 2 (Standalone.split cmd)) ->
  (forall obj, json_loads (join " " (drop 2 (Standalone.split cmd)))
               = Ok (PDict obj) ->
               dict_get obj "value" = None) ->
  parse_incoming_payload payload ty
  = Standalone.typed_value ty (join " " (drop 2 (Standalone.split cmd)))
  /\ forall value,
      parse_incoming_payload payload ty = Ok value ->
      Standalone.variant_for value ty = variant_for value ty.
Proof.
  intros Hdecode Hjson.
  set (value_str := join " " (drop 2 (Standalone.split cmd))) in *.
  assert (Hstrip : strip value_str = value_str).
  { apply strip_join_words, Forall_drop, split_words. }
  split.
  - unfold parse_incoming_payload. rewrite Hdecode, Hstrip.
    assert (Hraw : match json_loads value_str with
                   | Ok (PDict obj) =>
                       match dict_get obj "value" with
                       | Some v => v
                       | None => PStr value_str
                       end
                   | _ => PStr value_str
                   end = PStr value_str).
    { destruct (json_loads value_str) as [[]|] eqn:Hl; try done.
      by rewrite (Hjson _ eq_refl). }
    rewrite Hraw. destruct ty; cbn [Standalone.typed_value py_str].
    + reflexivity.
    + by rewrite Hstrip.
    + reflexivity.
  - intros value Hvalue. apply decoded_kind in Hvalue.
    destruct ty; [destruct Hvalue as [b ->]|destruct Hvalue as [z ->]|];
      reflexivity.
Qed.

Lemma set_decodes_like_the_bridge_witness :
  @parse_incoming_payload Reference.text_lib
    (Reference.encode_ascii "Yes") Tbool
  = Standalone.typed_value Tbool
      (join " " (drop 2 (Standalone.split "set JogLeft   Yes ")))
  /\ forall value,
      @parse_incoming_payload Reference.text_lib
        (Reference.encode_ascii "Yes") Tbool = Ok value ->
      Standalone.variant_for value Tbool = variant_for value Tbool.
Proof.
  apply (@set_decodes_like_the_bridge Reference.text_lib "set JogLeft   Yes "
           (Reference.encode_ascii "Yes") Tbool).
  - reflexivity.
  - intros obj Hobj. vm_compute in Hobj. discriminate.
Defined.

(** ** The command loop *)

Ltac sh_run :=
  unfold Standalone.unknown_node, Standalone.say, Standalone.did,
    Standalone.raise_or, Standalone.guarded, mbind, Standalone.Sh_bind,
    mret, Standalone.Sh_ret;
  cbn [fst snd].

Section CommandLoop.

Context `{Standalone.Server} (NODES_SPEC : list (string * (string * py_type)))
  (nodes : list (string * Node)).

Lemma each_reads {X} (body : X -> Standalone.Sh unit) (l : list X)
    (log : list Standalone.console_event) :
  (forall x log', exists new,
      body x log' = (Ok tt, log' ++ new) /\ Standalone.writes new = []) ->
  exists new,
    Standalone.each l body log = (Ok tt, log ++ new)
    /\ Standalone.writes new = [].
Proof.
  intros Hbody. revert log. induction l as [|x l IH]; intros log.
  - exists []. cbn. by rewrite app_nil_r.
  - destruct (Hbody x log) as (new1 & Hrun1 & Hw1).
    destruct (IH (log ++ new1)) as (new2 & Hrun2 & Hw2).
    exists (new1 ++ new2). cbn [Standalone.each].
    unfold mbind, Standalone.Sh_bind. rewrite Hrun1, Hrun2.
    split; [by rewrite app_assoc|].
    unfold Standalone.writes in *. by rewrite omap_app, Hw1, Hw2.
Qed.

Lemma read_command_safe (parts : list string)
    (log : list Standalone.console_event) :
  exists new,
    Standalone.read_command nodes parts log
    = (Ok Standalone.Continue, log ++ new)
    /\ Standalone.writes new = [].
Proof.
  unfold Standalone.read_command. case_bool_decide as Hlen.
  { sh_run. by eexists [_]. }
  destruct parts as [|first [|target rest]]; cbn in Hlen; try lia.
  unfold mbind at 1, Standalone.Sh_bind at 1, Standalone.raise_or at 1.
  cbn [Standalone.index lookup list_lookup].
  case_bool_decide.
  - unfold mbind at 1, Standalone.Sh_bind at 1.
    match goal with
    | |- context [Standalone.each nodes ?f log] =>
        destruct (each_reads f nodes log) as (new & -> & Hnew)
    end.
    + intros [name node] log'. sh_run.
      destruct (Standalone.get_value log' node); cbn [fst snd];
        eexists [_; _]; rewrite <- app_assoc; by split.
    + exists new. by split.
  - destruct (dict_get nodes target) as [node|].
    + sh_run. destruct (Standalone.get_value log node); cbn [fst snd];
        eexists [_; _]; rewrite <- app_assoc; by split.
    + sh_run. by eexists [_].
Qed.

Lemma set_command_run (parts : list string)
    (log : list Standalone.console_event) :
  (forall name, name ∈ dict_keys nodes -> name ∈ dict_keys NODES_SPEC) ->
  exists new,
    Standalone.set_command NODES_SPEC nodes parts log
    = (Ok Standalone.Continue, log ++ new)
    /\ ((exists target node nid ty value,
            (3 <= length parts)%nat
            /\ parts !! 1%nat = Some target
            /\ dict_get nodes target = Some node
            /\ dict_get NODES_SPEC target = Some (nid, ty)
            /\ Standalone.typed_value ty (join " " (drop 2 parts)) = Ok value
            /\ new = [Standalone.Did
                        (NodeSetValue node (data_value_for value ty));
                      Standalone.Said
                        match Standalone.set_value log node
                                (data_value_for value ty) with
                        | Ok _ => Standalone.LWrote value target
                        | Raise e => Standalone.LWriteError e
                        end])
        \/ (Standalone.writes new = []
            /\ forall target node nid ty value,
                (3 <= length parts)%nat ->
                parts !! 1%nat = Some target ->
                dict_get nodes target = Some node ->
                dict_get NODES_SPEC target = Some (nid, ty) ->
                Standalone.typed_value ty (join " " (drop 2 parts))
                = Ok value ->
                False)).
Proof.
  intros Hnodes. unfold Standalone.set_command. case_bool_decide as Hlen.
  { sh_run. eexists [_]. split; [done|]. right. split; [done|]. intros. lia. }
  destruct parts as [|first [|target rest]]; cbn in Hlen; try lia.
  unfold mbind at 1, Standalone.Sh_bind at 1, Standalone.raise_or at 1.
  cbn [Standalone.index lookup list_lookup].
  destruct (dict_get nodes target) as [node|] eqn:Hnode.
  2:{ sh_run. eexists [_]. split; [done|]. right. split; [done|].
      intros ????? _ [= <-]. congruence. }
  assert (Hspec : exists nid ty, dict_get NODES_SPEC target = Some (nid, ty)).
  { assert (Hin : target ∈ dict_keys NODES_SPEC).
    { apply Hnodes. apply dict_get_elem_of in Hnode. unfold dict_keys.
      apply list_elem_of_fmap. by exists (target, node). }
    clear -Hin. induction NODES_SPEC as [|[k [nid ty]] d IH]; cbn in *.
    - by apply elem_of_nil in Hin.
    - case_bool_decide; [by eauto|].
      apply elem_of_cons in Hin as [?|Hin]; [done|]. auto. }
  destruct Hspec as (nid & ty & Hspec).
  unfold mbind at 1, Standalone.Sh_bind at 1, Standalone.raise_or at 1.
  unfold dict_item. rewrite Hspec. cbn [snd].
  pose proof (typed_value_outcome ty (join " " (drop 2 (first :: target :: rest))))
    as Hvalue.
  destruct (Standalone.typed_value ty _) as [value|e] eqn:Htyped.
  - rewrite standalone_variant_for_kind.
    2:{ destruct ty; try done. by eexists. }
    sh_run. fold (data_value_for value ty).
    exists [Standalone.Did (NodeSetValue node (data_value_for value ty));
            Standalone.Said
              match Standalone.set_value log node (data_value_for value ty) with
              | Ok _ => Standalone.LWrote value target
              | Raise e => Standalone.LWriteError e
              end].
    split.
    { destruct (Standalone.set_value log node _); cbn [fst snd];
        rewrite <- app_assoc; reflexivity. }
    left. exists target, node, nid, ty, value.
    repeat (split; [done || (cbn; lia)|]). done.
  - destruct Hvalue as [msg ->]. sh_run. eexists [_]. split; [done|].
    right. split; [done|]. intros ????? _ [= <-]. congruence.
Qed.

End CommandLoop.


